(** * OMU-UBYS-BOT: a shallow embedding of the polling core

    The development follows the Python sources:
    - [grade_change_detector.py]: [_compare_exams], [_compare_courses],
      [detect_changes], [get_notifications];
    - [error_tracker.py]: [record_fetch_error] and the alert getters;
    - [config.py]: [load_settings];
    - [main.py]: [SessionManager], [process_user], [run_monitoring_loop].

    Python [str] values are byte strings holding UTF-8 text, Python dicts
    that are iterated are association lists in insertion order, and code
    that talks to the outside (HTTP, the clock, the files on disk, the stop
    flag set by another thread) runs in a small state-and-exception monad
    against an explicit description of what the outside answers. *)

From stdpp Require Import base gmap strings list.
From Stdlib Require Import String Ascii List Bool Arith ZArith Lia DecimalString.
Import ListNotations.
Open Scope string_scope.

(** ** Python string operations on UTF-8 byte strings *)

Module PyStr.

(** [sub in s] for a non-empty or empty needle. *)
Fixpoint contains (sub s : string) : bool :=
  String.prefix sub s ||
  match s with
  | EmptyString => false
  | String _ s' => contains sub s'
  end.

Definition startswith (s pre : string) : bool := String.prefix pre s.

Fixpoint rev_acc (s acc : string) : string :=
  match s with
  | EmptyString => acc
  | String c s' => rev_acc s' (String c acc)
  end.

Definition rev (s : string) : string := rev_acc s EmptyString.

(** [s.split(sep)] for a non-empty [sep]: a left-to-right scan for
    non-overlapping occurrences.  [skip] counts the bytes of a separator
    that was just recognised and is still to be stepped over; [cur] is the
    piece being collected, reversed. *)
Fixpoint split_go (sep s : string) (skip : nat) (cur : string) : list string :=
  match s with
  | EmptyString => [rev cur]
  | String c s' =>
      match skip with
      | S k => split_go sep s' k cur
      | O =>
          if String.prefix sep s
          then rev cur :: split_go sep s' (String.length sep - 1) EmptyString
          else split_go sep s' 0 (String c cur)
      end
  end.

Definition split (s sep : string) : list string := split_go sep s 0 EmptyString.

(** [l[i]] on a list of strings; the callers guard the index with an
    [in] test, so the out-of-range default is never observed. *)
Definition item (l : list string) (i : nat) : string := nth i l EmptyString.

Definition byte (c : ascii) : nat := nat_of_ascii c.

(** Code points below 128 for which [str.isspace] holds. *)
Definition ascii_space (c : ascii) : bool :=
  let n := byte c in
  (((9 <=? n) && (n <=? 13)) || ((28 <=? n) && (n <=? 32)))%nat.

(** The two- and three-byte encodings of the other white-space code
    points: U+0085, U+00A0; U+1680, U+2000..U+200A, U+2028, U+2029,
    U+202F, U+205F, U+3000. *)
Definition space2 (a b : ascii) : bool :=
  ((byte a =? 194) && ((byte b =? 133) || (byte b =? 160)))%nat.

Definition space3 (a b c : ascii) : bool :=
  (((byte a =? 225) && (byte b =? 154) && (byte c =? 128)) ||
   ((byte a =? 226) && (byte b =? 128) &&
      (((128 <=? byte c) && (byte c <=? 138)) ||
       (byte c =? 168) || (byte c =? 169) || (byte c =? 175))) ||
   ((byte a =? 226) && (byte b =? 129) && (byte c =? 159)) ||
   ((byte a =? 227) && (byte b =? 128) && (byte c =? 128)))%nat.

Fixpoint lstrip (s : string) : string :=
  match s with
  | EmptyString => EmptyString
  | String a s1 =>
      if ascii_space a then lstrip s1 else
      match s1 with
      | EmptyString => s
      | String b s2 =>
          if space2 a b then lstrip s2 else
          match s2 with
          | EmptyString => s
          | String c s3 => if space3 a b c then lstrip s3 else s
          end
      end
  end.

(** The same scan from the right end, on the reversed string. *)
Fixpoint lstrip_rev (s : string) : string :=
  match s with
  | EmptyString => EmptyString
  | String a s1 =>
      if ascii_space a then lstrip_rev s1 else
      match s1 with
      | EmptyString => s
      | String b s2 =>
          if space2 b a then lstrip_rev s2 else
          match s2 with
          | EmptyString => s
          | String c s3 => if space3 c b a then lstrip_rev s3 else s
          end
      end
  end.

Definition rstrip (s : string) : string := rev (lstrip_rev (rev s)).

Definition strip (s : string) : string := rstrip (lstrip s).

(** [x in l] and [x not in l] on a list of strings. *)
Definition elem (x : string) (l : list string) : bool := existsb (String.eqb x) l.

(** Whether the character with code [n] (below 128) occurs in [s]. *)
Definition has_char (n : nat) (s : string) : bool :=
  existsb (fun c => (byte c =? n)%nat) (list_ascii_of_string s).

Definition hex_digit (n : nat) : ascii :=
  ascii_of_nat (if (n <? 10)%nat then 48 + n else 87 + n).

(** Two lower-case hexadecimal digits. *)
Definition hex2 (n : nat) : string :=
  String (hex_digit (n / 16)) (String (hex_digit (n mod 16)) EmptyString).

(** The characters of [repr(s)] between the quotes.  The quote character
    and the backslash get a backslash; tab, line feed and carriage return
    are written [\t], [\n], [\r]; the other characters that
    [str.isprintable] rejects are written [\xhh]: the control characters
    below 32, 127, and of the characters U+0080..U+00FF (lead byte 194)
    the code points up to U+00A0 and U+00AD.  Characters from U+0100 on
    are all taken as printable, which holds for the letters. *)
Fixpoint repr_body (quote : ascii) (s : string) : string :=
  match s with
  | EmptyString => EmptyString
  | String a s1 =>
      let n := byte a in
      if (Ascii.eqb a quote || (n =? 92))%nat then
        String (ascii_of_nat 92) (String a (repr_body quote s1))
      else if (n =? 9)%nat then "\t" ++ repr_body quote s1
      else if (n =? 10)%nat then "\n" ++ repr_body quote s1
      else if (n =? 13)%nat then "\r" ++ repr_body quote s1
      else if ((n <? 32) || (n =? 127))%nat then "\x" ++ hex2 n ++ repr_body quote s1
      else if (n =? 194)%nat then
        match s1 with
        | EmptyString => String a EmptyString
        | String b s2 =>
            if ((byte b <=? 160) || (byte b =? 173))%nat
            then "\x" ++ hex2 (byte b) ++ repr_body quote s2
            else String a (String b (repr_body quote s2))
        end
      else String a (repr_body quote s1)
  end.

(** [repr(s)]: in single quotes, or in double quotes when [s] has a
    single quote and no double quote. *)
Definition repr (s : string) : string :=
  let quote :=
    if has_char 39 s && negb (has_char 34 s) then ascii_of_nat 34 else ascii_of_nat 39 in
  String quote (repr_body quote s ++ String quote EmptyString).

End PyStr.

(** ** Python dicts as association lists in insertion order *)

Module PyDict.

Section Dict.
Context {V : Type}.

Definition dict : Type := list (string * V).

(** [d[k] = v]: an existing key keeps its position and gets the new
    value, a fresh key goes to the end. *)
Fixpoint set (k : string) (v : V) (d : dict) : dict :=
  match d with
  | [] => [(k, v)]
  | (k', v') :: d' =>
      if String.eqb k' k then (k', v) :: d' else (k', v') :: set k v d'
  end.

Fixpoint get (k : string) (d : dict) : option V :=
  match d with
  | [] => None
  | (k', v') :: d' => if String.eqb k' k then Some v' else get k d'
  end.

(** [k in d] *)
Definition has_key (k : string) (d : dict) : bool :=
  match get k d with Some _ => true | None => false end.

Definition keys (d : dict) : list string := map fst d.

(** [{key(x): x for x in l}] *)
Definition comprehension (key : V -> string) (l : list V) : dict :=
  fold_left (fun d x => set (key x) x d) l [].

(** The last element of [l], in list order, that [key] sends to [k]. *)
Definition last_keyed (key : V -> string) (k : string) (l : list V) : option V :=
  fold_left (fun found x => if String.eqb (key x) k then Some x else found) l None.

End Dict.

Arguments dict V : clear implicits.

(** [repr(d)], also what [str(d)] and an f-string give, for a dict of
    strings. *)
Definition repr (d : dict string) : string :=
  "{" ++ String.concat ", "
           (map (fun it => PyStr.repr (fst it) ++ ": " ++ PyStr.repr (snd it)) d)
      ++ "}".

End PyDict.


(** ** grade_change_detector.py *)

Module GradeChangeDetector.

Import PyStr PyDict.

(** A course as it sits in [student_grades.json]: a JSON object whose
    ["name"] and ["exams"] entries may each be missing. *)
Record Course := {
  name : option string;
  exams : option (list string)
}.

#[global] Instance Course_eq_dec : EqDecision Course.
Proof. solve_decision. Defined.

(** [course.get("name", "")] and [course.get("exams", [])] *)
Definition get_name (course : Course) : string := default "" (name course).
Definition get_exams (course : Course) : list string := default [] (exams course).

(** The entries of [changes["new"]] and [changes["updated"]]. *)
Record NewCourse := {
  new_name : string;
  new_course_exams : list string
}.

Record UpdatedCourse := {
  updated_name : string;
  old_exams : list string;
  new_exams : list string;
  exam_changes : list string
}.

Record ChangeSet := {
  new : list NewCourse;
  updated : list UpdatedCourse;
  removed : list string;
  no_change : list string
}.

(** Truth value of a string: non-empty. *)
Definition truthy (s : string) : bool := negb (String.eqb s "").

(** [e.split('::')[1].strip() if '::' in e else 'Yok'] *)
Definition score_of (e : string) : string :=
  if contains "::" e then strip (item (split e "::") 1) else "Yok".

(** The body of the loop of [_compare_exams] for one [new_exam]: the lines
    it appends to [changes]. *)
Definition exam_lines (old_exams : list string) (new_exam : string) : list string :=
  if negb (elem new_exam old_exams) then
    ["Yeni: " ++ new_exam]
  else if truthy new_exam then
    let exam_name :=
      if contains "::" new_exam then strip (item (split new_exam "::") 0)
      else new_exam in
    let old_exam := find (fun e => startswith e exam_name) old_exams in
    match old_exam with
    | Some old_exam =>
        if truthy old_exam && negb (String.eqb old_exam new_exam) then
          ["Güncellendi: " ++ exam_name ++ " (" ++ score_of old_exam
             ++ " → " ++ score_of new_exam ++ ")"]
        else []
    | None => []
    end
  else [].

Definition _compare_exams (old_exams new_exams : list string) : list string :=
  fold_left (fun changes new_exam => (changes ++ exam_lines old_exams new_exam)%list)
            new_exams [].

Definition no_changes : ChangeSet :=
  {| new := []; updated := []; removed := []; no_change := [] |}.

(** First loop of [_compare_courses]: one item of [new_dict]. *)
Definition visit_new (old_dict : dict Course) (changes : ChangeSet)
    (it : string * Course) : ChangeSet :=
  let (course_name, new_course) := it in
  match get course_name old_dict with
  | None =>
      {| new := (new changes ++
                  [{| new_name := course_name;
                      new_course_exams := get_exams new_course |}])%list;
         updated := updated changes;
         removed := removed changes;
         no_change := no_change changes |}
  | Some old_course =>
      let old_exams := get_exams old_course in
      let new_exams := get_exams new_course in
      if negb (bool_decide (old_exams = new_exams)) then
        {| new := new changes;
           updated := (updated changes ++
                        [{| updated_name := course_name;
                            old_exams := old_exams;
                            new_exams := new_exams;
                            exam_changes := _compare_exams old_exams new_exams |}])%list;
           removed := removed changes;
           no_change := no_change changes |}
      else
        {| new := new changes;
           updated := updated changes;
           removed := removed changes;
           no_change := (no_change changes ++ [course_name])%list |}
  end.

(** Second loop: one key of [old_dict]. *)
Definition visit_old (new_dict : dict Course) (changes : ChangeSet)
    (it : string * Course) : ChangeSet :=
  let course_name := fst it in
  if negb (has_key course_name new_dict) then
    {| new := new changes;
       updated := updated changes;
       removed := (removed changes ++ [course_name])%list;
       no_change := no_change changes |}
  else changes.

Definition _compare_courses (old_courses new_courses : list Course) : ChangeSet :=
  let changes := no_changes in
  let old_dict := comprehension get_name old_courses in
  let new_dict := comprehension get_name new_courses in
  let changes := fold_left (visit_new old_dict) new_dict changes in
  let changes := fold_left (visit_old new_dict) old_dict changes in
  changes.

(** Every course name that the ChangeSet classifies, class by class. *)
Definition classified (changes : ChangeSet) : list string :=
  (map new_name (new changes) ++ map updated_name (updated changes)
     ++ removed changes ++ no_change changes)%list.

(** *** The two JSON files the detector works on

    [student_grades.json] maps a student id to its data;
    [grade_changes.json] holds the copy of it that the previous call saved.
    A file is [None] when it does not exist or cannot be parsed (the
    loaders catch that and return [None] or [{}]).  Writing succeeds. *)

Record StudentData := {
  courses : option (list Course);
  last_updated : option string
}.

Record Files := {
  grades_file : option (dict StudentData);
  changes_file : option (dict StudentData)
}.

Definition _load_grades (fs : Files) : option (dict StudentData) :=
  grades_file fs.

Definition _load_previous_changes (fs : Files) : dict StudentData :=
  default [] (changes_file fs).

Definition _save_changes (changes : dict StudentData) (fs : Files) : Files :=
  {| grades_file := grades_file fs; changes_file := Some changes |}.

(** The value stored under a student id in [all_changes]. *)
Record ChangeData := {
  timestamp : string;
  changes : ChangeSet;
  current_courses : list Course
}.

(** [previous_state.get(student_id, {})] followed by the two [get]s on it:
    a missing student is the empty object. *)
Definition no_data : StudentData := {| courses := None; last_updated := None |}.

(** The body of the loop of [detect_changes] for one student. *)
Definition detect_student (previous_state : dict StudentData)
    (all_changes : dict ChangeData) (it : string * StudentData)
  : dict ChangeData :=
  let (student_id, student_data) := it in
  let current_courses := default [] (courses student_data) in
  let current_timestamp := default "" (last_updated student_data) in
  let previous_data := default no_data (get student_id previous_state) in
  let previous_courses := default [] (courses previous_data) in
  if negb (bool_decide (previous_courses = current_courses)) then
    let course_changes := _compare_courses previous_courses current_courses in
    set student_id
        {| timestamp := current_timestamp;
           changes := course_changes;
           current_courses := current_courses |}
        all_changes
  else all_changes.

Definition detect_changes (fs : Files) : dict ChangeData * Files :=
  match _load_grades fs with
  | None => ([], fs)
  | Some [] => ([], fs)
  | Some current_grades =>
      let previous_state := _load_previous_changes fs in
      let all_changes :=
        fold_left (detect_student previous_state) current_grades [] in
      (* [if all_changes or current_grades]: [current_grades] is not empty *)
      (all_changes, _save_changes current_grades fs)
  end.

(** *** Notifications *)

Record Notification := {
  type : string;
  student_id : string;
  title : string;
  message : string;
  severity : string
}.

Definition new_course_notification (sid : string) (course : NewCourse) : Notification :=
  {| type := "new_course";
     student_id := sid;
     title := "Yeni ders eklendi: " ++ new_name course;
     message := new_name course
                  ++ " dersine yeni not girişleri başladı. Lütfen kontrol edin.";
     severity := "info" |}.

Definition grade_update_notification (sid course_name change : string) : Notification :=
  {| type := "grade_update";
     student_id := sid;
     title := course_name ++ " - " ++ change;
     message := course_name ++ " dersinde not güncellendi: " ++ change;
     severity := "warning" |}.

Definition generic_update_notification (sid course_name : string) : Notification :=
  {| type := "grade_update";
     student_id := sid;
     title := "✏️ " ++ course_name ++ " - Güncelleme geldi!";
     message := course_name ++ " dersinin notunda güncelleme vardır.";
     severity := "warning" |}.

Definition course_removed_notification (sid course_name : string) : Notification :=
  {| type := "course_removed";
     student_id := sid;
     title := "Ders silindi: " ++ course_name;
     message := course_name ++ " dersi artık listelerde gözükmüyor.";
     severity := "info" |}.

(** The block of [get_notifications] for one updated course. *)
Definition notify_updated (sid : string) (notifications : list Notification)
    (course : UpdatedCourse) : list Notification :=
  let exam_changes := exam_changes course in
  let course_name := updated_name course in
  match exam_changes with
  | _ :: _ =>
      fold_left
        (fun ns change =>
           (ns ++ [grade_update_notification sid course_name change])%list)
        exam_changes notifications
  | [] =>
      (notifications ++ [generic_update_notification sid course_name])%list
  end.

(** The body of the outer loop of [get_notifications]: one student's
    ChangeSet.  The [if changes_detail.get(...)] guards only skip empty
    lists, over which the inner loops would not run anyway. *)
Definition notify_changes (sid : string) (changes_detail : ChangeSet)
    (notifications : list Notification) : list Notification :=
  let notifications :=
    match new changes_detail with
    | [] => notifications
    | l => fold_left
             (fun ns course => (ns ++ [new_course_notification sid course])%list)
             l notifications
    end in
  let notifications :=
    match updated changes_detail with
    | [] => notifications
    | l => fold_left (notify_updated sid) l notifications
    end in
  let notifications :=
    match removed changes_detail with
    | [] => notifications
    | l => fold_left
             (fun ns course_name =>
                (ns ++ [course_removed_notification sid course_name])%list)
             l notifications
    end in
  notifications.

Definition notify_student (notifications : list Notification)
    (it : string * ChangeData) : list Notification :=
  notify_changes (fst it) (changes (snd it)) notifications.

Definition get_notifications (fs : Files) : list Notification * Files :=
  let (all_changes, fs') := detect_changes fs in
  (fold_left notify_student all_changes [], fs').

(** The notifications that one updated course stands for. *)
Definition updated_notifications (sid : string) (course : UpdatedCourse)
  : list Notification :=
  match exam_changes course with
  | [] => [generic_update_notification sid (updated_name course)]
  | l => map (grade_update_notification sid (updated_name course)) l
  end.

(** How many notifications of a given type a list holds. *)
Definition count_type (t : string) (ns : list Notification) : nat :=
  length (filter (fun n => String.eqb (type n) t) ns).

(** Whether a notification carries the severity that goes with its type:
    [info] for [new_course] and [course_removed], [warning] for
    [grade_update]; any other type fails the test. *)
Definition severity_fits (n : Notification) : bool :=
  (String.eqb (type n) "new_course" && String.eqb (severity n) "info")
  || (String.eqb (type n) "grade_update" && String.eqb (severity n) "warning")
  || (String.eqb (type n) "course_removed" && String.eqb (severity n) "info").

(** The number of [grade_update] events an updated course stands for:
    its diff lines, or one when it has none. *)
Definition update_events (course : UpdatedCourse) : nat :=
  match exam_changes course with
  | [] => 1
  | l => length l
  end.

(** *** The classes of [_compare_courses], item by item

    The tests that the first loop makes on an item of [new_dict], and the
    entries it appends. *)

Definition is_new_item (old_dict : dict Course) (it : string * Course) : bool :=
  negb (has_key (fst it) old_dict).

Definition is_updated_item (old_dict : dict Course) (it : string * Course) : bool :=
  match get (fst it) old_dict with
  | Some old_course => negb (bool_decide (get_exams old_course = get_exams (snd it)))
  | None => false
  end.

Definition is_unchanged_item (old_dict : dict Course) (it : string * Course) : bool :=
  match get (fst it) old_dict with
  | Some old_course => bool_decide (get_exams old_course = get_exams (snd it))
  | None => false
  end.

Definition new_entry (it : string * Course) : NewCourse :=
  {| new_name := fst it; new_course_exams := get_exams (snd it) |}.

(** The entry for an item whose key is in [old_dict] with other exams. *)
Definition updated_entry (old_dict : dict Course) (it : string * Course)
  : UpdatedCourse :=
  let old_exams := get_exams (default (snd it) (get (fst it) old_dict)) in
  {| updated_name := fst it;
     old_exams := old_exams;
     new_exams := get_exams (snd it);
     exam_changes := _compare_exams old_exams (get_exams (snd it)) |}.

(** [has_previous_data]: the saved state exists and is a non-empty
    object. *)
Definition has_previous_data (fs : Files) : bool :=
  match changes_file fs with
  | Some (_ :: _) => true
  | _ => false
  end.

(** The entry of [all_changes] for a student of the current grades. *)
Definition change_entry (previous_state : dict StudentData)
    (it : string * StudentData) : string * ChangeData :=
  let current_courses := default [] (courses (snd it)) in
  let previous_courses :=
    default [] (courses (default no_data (get (fst it) previous_state))) in
  (fst it,
   {| timestamp := default "" (last_updated (snd it));
      changes := _compare_courses previous_courses current_courses;
      current_courses := current_courses |}).

(** Whether the stored courses of a student differ from the current
    ones. *)
Definition courses_differ (previous_state : dict StudentData)
    (it : string * StudentData) : bool :=
  negb (bool_decide
          (default [] (courses (default no_data (get (fst it) previous_state)))
           = default [] (courses (snd it)))).

End GradeChangeDetector.

(** ** error_tracker.py *)

Module ErrorTracker.

(** One entry of [tracking["surveys"]] or [tracking["fetch_errors"]]. *)
Record Alert := {
  alert_text : string;        (* "error", or "found" for a survey entry *)
  alert_timestamp : string;
  alert_message : string
}.

(** The content of [error_tracking.json]: each of the two top-level keys
    may be missing. *)
Record Tracking := {
  surveys : option (gmap string Alert);
  fetch_errors : option (gmap string Alert)
}.

(** [_load_tracking]: a missing or unreadable file is the empty object. *)
Definition _load_tracking (file : option Tracking) : Tracking :=
  default {| surveys := None; fetch_errors := None |} file.

(** [record_fetch_error]; [now] is [datetime.now().isoformat()]. *)
Definition record_fetch_error (now student_id error_msg : string)
    (file : option Tracking) : option Tracking :=
  let tracking := _load_tracking file in
  let errors := default ∅ (fetch_errors tracking) in
  let entry :=
    {| alert_text := if String.eqb error_msg "" then "Veri çekilemedi" else error_msg;
       alert_timestamp := now;
       alert_message :=
         "Giriş bilgilerinizi kontrol edin veya anketiniz olup olmadığını kontrol edin" |} in
  Some {| surveys := surveys tracking;
          fetch_errors := Some (<[student_id := entry]> errors) |}.

Definition get_error_alerts (file : option Tracking) : gmap string Alert :=
  default ∅ (fetch_errors (_load_tracking file)).

Definition clear_error_alert (student_id : string) (file : option Tracking)
  : option Tracking :=
  let tracking := _load_tracking file in
  match fetch_errors tracking with
  | Some errors =>
      match errors !! student_id with
      | Some _ =>
          Some {| surveys := surveys tracking;
                  fetch_errors := Some (delete student_id errors) |}
      | None => file
      end
  | None => file
  end.

End ErrorTracker.

(** ** main.py, with the parts of config.py and login.py it drives *)

Module Main.

(** *** Exceptions, log records and calls to the outside *)

(** Python exception classes as far as the handlers of main.py tell them
    apart: [except Exception] catches the first, [except KeyboardInterrupt]
    the second, neither catches the third. *)
Inductive exn_class := Exception | KeyboardInterrupt | SystemExit.

Record exn := {
  exn_kind : exn_class;
  exn_text : string
}.

Definition is_Exception (e : exn) : bool :=
  match exn_kind e with Exception => true | _ => false end.

Definition is_KeyboardInterrupt (e : exn) : bool :=
  match exn_kind e with KeyboardInterrupt => true | _ => false end.

Inductive outcome (A : Type) :=
| Return (a : A)
| Raise (e : exn).

Arguments Return {A} a.
Arguments Raise {A} e.

Inductive level := DEBUG | INFO | WARNING | ERROR | CRITICAL.

(** What a run does that can be seen from outside, oldest first: the
    records handed to the logger of main.py and the calls that leave the
    process. *)
Inductive event :=
| Log (lvl : level) (msg : string)
| Open (username : string)             (* OMULogin(...): requests.Session() *)
| Login (username : string)            (* handler.login() *)
| Clock                                (* time.time() *)
| GetPage (username page_url : string) (* handler.get_page_content(url) *)
| Close (username : string)            (* handler.close() *)
| LoadUsers                            (* config.load_users_from_env() *)
| LoadSettings                         (* config.load_settings() *)
| Executor (max_workers : nat)         (* ThreadPoolExecutor(max_workers=...) *)
| Await                                (* future.result(timeout=30) *)
| Sleep.                               (* time.sleep(0.5) *)

Definition is_Log (e : event) : bool := match e with Log _ _ => true | _ => false end.
Definition is_Open (e : event) : bool := match e with Open _ => true | _ => false end.
Definition is_Login (e : event) : bool := match e with Login _ => true | _ => false end.
Definition is_Clock (e : event) : bool := match e with Clock => true | _ => false end.
Definition is_GetPage (e : event) : bool := match e with GetPage _ _ => true | _ => false end.
Definition is_Close (e : event) : bool := match e with Close _ => true | _ => false end.
Definition is_LoadSettings (e : event) : bool := match e with LoadSettings => true | _ => false end.
Definition is_Executor (e : event) : bool := match e with Executor _ => true | _ => false end.
Definition is_Await (e : event) : bool := match e with Await => true | _ => false end.
Definition is_Sleep (e : event) : bool := match e with Sleep => true | _ => false end.

Definition count (p : event -> bool) (h : list event) : nat := length (filter p h).

(** The calls among the events, without the log records. *)
Definition calls (h : list event) : list event := filter (fun e => negb (is_Log e)) h.

(** An entry of the user list: a dict of strings, whose keys may be
    missing. *)
Definition UserConfig : Type := PyDict.dict string.

(** The lookups that [user_config.get(key, "")] starts from. *)
Definition user_name (user_config : UserConfig) : option string :=
  PyDict.get "name" user_config.
Definition user_password (user_config : UserConfig) : option string :=
  PyDict.get "password" user_config.
Definition user_sapid (user_config : UserConfig) : option string :=
  PyDict.get "sapid" user_config.

(** [users.user_list] *)
Definition users_user_list : list UserConfig :=
  [[("name", "YOUR_STUDENT_ID");
    ("password", "YOUR_PASSWORD");
    ("sapid", "https://ubys.omu.edu.tr/AIS/Student/Class/Index?sapid=YOUR_SAPID_HERE")]].

(** The arithmetic the session clock needs: [time.time()] values, their
    difference and [>=].  Python computes on floats; the development holds
    for any reading of the three operations, and is run on [Z]. *)
Class Number (T : Type) := {
  zero : T;
  sub : T -> T -> T;
  ge : T -> T -> bool
}.

#[global] Instance Z_Number : Number Z :=
  {| zero := 0%Z; sub := Z.sub; ge := Z.geb |}.

Section WithClock.
Context {T : Type} {number : Number T}.

(** [bot_settings.json] as [load_settings] reads it. *)
Record Settings := {
  telegram_token : option string;
  telegram_chat_id : option string;
  request_delay : option Z;
  session_timeout : option T;
  telegram_enabled : option bool;
  auto_survey : option bool
}.

(** What the outside answers.  The n-th call of a kind gets the n-th
    answer of that kind, counting from 0 over the whole run.

    - [login_reply]: [Return true] for a session, [Return false] for [None];
    - [page_reply]: takes the value of [AUTO_SURVEY] that login.py sees;
    - [await_timeout]: whether the n-th [future.result(timeout=30)] gave up;
    - [stop_requested]: whether [stop_bot()] has been called from another
      thread once the run has produced n events;
    - [settings_file], [environ_token], [environ_chat_id]: the settings file
      ([None] when missing or unreadable) and the two environment variables
      at the n-th [load_settings];
    - [users_file]: what [load_users()] returns once n iterations of the
      loop have started. *)
Record World := {
  login_reply : nat -> outcome bool;
  time_reply : nat -> T;
  page_reply : nat -> bool -> outcome bool;
  close_reply : nat -> outcome unit;
  await_timeout : nat -> bool;
  stop_requested : nat -> bool;
  settings_file : nat -> option Settings;
  environ_token : nat -> string;
  environ_chat_id : nat -> string;
  users_file : nat -> list UserConfig
}.

(** The module-level variables of config.py. *)
Record Config := {
  TELEGRAM_BOT_TOKEN : string;
  TELEGRAM_CHAT_ID : string;
  SESSION_TIMEOUT : T;
  REQUEST_DELAY : Z;
  TELEGRAM_ENABLED : bool;
  AUTO_SURVEY : bool
}.

(** A [SessionManager] object; the handler is known by its user name. *)
Record SessionManager := {
  username : string;
  password : string;
  sapid : string;
  login_handler : option string;
  session_start_time : T
}.

(** The state of a run.
    - [login_AUTO_SURVEY] is the name bound by
      [from config import ... AUTO_SURVEY] when login.py is imported;
    - [manager] is the [SessionManager] of the worker that is running;
    - [error_tracking] is the content of [error_tracking.json]. *)
Record State := {
  config : Config;
  login_AUTO_SURVEY : bool;
  _bot_running : bool;
  manager : SessionManager;
  error_tracking : option ErrorTracker.Tracking;
  trace : list event
}.

Definition with_config (c : Config) (s : State) : State :=
  {| config := c; login_AUTO_SURVEY := login_AUTO_SURVEY s;
     _bot_running := _bot_running s; manager := manager s;
     error_tracking := error_tracking s; trace := trace s |}.

Definition with_running (b : bool) (s : State) : State :=
  {| config := config s; login_AUTO_SURVEY := login_AUTO_SURVEY s;
     _bot_running := b; manager := manager s;
     error_tracking := error_tracking s; trace := trace s |}.

Definition with_manager (m : SessionManager) (s : State) : State :=
  {| config := config s; login_AUTO_SURVEY := login_AUTO_SURVEY s;
     _bot_running := _bot_running s; manager := m;
     error_tracking := error_tracking s; trace := trace s |}.

Definition with_trace (h : list event) (s : State) : State :=
  {| config := config s; login_AUTO_SURVEY := login_AUTO_SURVEY s;
     _bot_running := _bot_running s; manager := manager s;
     error_tracking := error_tracking s; trace := h |}.

(** *** The state-and-exception monad *)

Definition M (A : Type) : Type := State -> outcome A * State.

Definition ret {A : Type} (a : A) : M A := fun s => (Return a, s).

Definition raise {A : Type} (e : exn) : M A := fun s => (Raise e, s).

Definition bind {A B : Type} (m : M A) (k : A -> M B) : M B :=
  fun s =>
    match m s with
    | (Return a, s') => k a s'
    | (Raise e, s') => (Raise e, s')
    end.

Notation "x <- m ;; k" := (bind m (fun x => k))
  (at level 100, m at next level, right associativity).
Notation "m ;; k" := (bind m (fun _ => k))
  (at level 100, right associativity).

Definition get_state : M State := fun s => (Return s, s).

Definition modify (f : State -> State) : M unit := fun s => (Return tt, f s).

Definition emit (e : event) : M unit :=
  modify (fun s => with_trace (trace s ++ [e])%list s).

Definition log (lvl : level) (msg : string) : M unit := emit (Log lvl msg).

(** A call to the outside: the answer is the next one of its kind, and the
    call goes into the trace. *)
Definition call {A : Type} (e : event) (kind : event -> bool)
    (reply : nat -> outcome A) : M A :=
  fun s => (reply (count kind (trace s)), with_trace (trace s ++ [e])%list s).

(** [try: body finally: final] *)
Definition try_finally {A : Type} (body : M A) (final : M unit) : M A :=
  fun s =>
    let (r, s1) := body s in
    match final s1 with
    | (Return _, s2) => (r, s2)
    | (Raise e, s2) => (Raise e, s2)
    end.

(** [try: body except Exception as e: handler(e)] *)
Definition try_except (body : M unit) (handler : exn -> M unit) : M unit :=
  fun s =>
    match body s with
    | (Raise e, s1) => if is_Exception e then handler e s1 else (Raise e, s1)
    | r => r
    end.

(** [for x in l: body(x)] *)
Fixpoint for_each {A : Type} (l : list A) (body : A -> M unit) : M unit :=
  match l with
  | [] => ret tt
  | x :: l' => body x ;; for_each l' body
  end.

(** *** The outside, as main.py calls it *)

Variable w : World.

Definition record (e : event) (s : State) : State :=
  with_trace (trace s ++ [e])%list s.

(** [time.time()] *)
Definition time_time : M T :=
  call Clock is_Clock (fun n => Return (time_reply w n)).

(** [login.OMULogin(username, password)] *)
Definition OMULogin (username password : string) : M string :=
  emit (Open username) ;; ret username.

(** [handler.login()]: [true] stands for the session object. *)
Definition login (handler : string) : M bool :=
  call (Login handler) is_Login (login_reply w).

(** [handler.get_page_content(page_url)] *)
Definition get_page_content (handler page_url : string) : M bool :=
  s <- get_state ;;
  call (GetPage handler page_url) is_GetPage
       (fun n => page_reply w n (login_AUTO_SURVEY s)).

(** [handler.close()] *)
Definition close (handler : string) : M unit :=
  call (Close handler) is_Close (close_reply w).

(** Reading the global [_bot_running], which [stop_bot()] clears from
    another thread. *)
Definition bot_running : M bool :=
  fun s =>
    let s' := if stop_requested w (length (trace s))
              then with_running false s else s in
    (Return (_bot_running s'), s').

(** The module variables of config.py after the n-th [load_settings],
    from their values [c] before it. *)
Definition loaded_config (n : nat) (c : Config) : Config :=
  let token := environ_token w n in
  let chat_id := environ_chat_id w n in
  match settings_file w n with
  | Some settings =>
      {| TELEGRAM_BOT_TOKEN :=
           if String.eqb token "" then default "" (telegram_token settings)
           else token;
         TELEGRAM_CHAT_ID :=
           if String.eqb chat_id "" then default "" (telegram_chat_id settings)
           else chat_id;
         SESSION_TIMEOUT := default (SESSION_TIMEOUT c) (session_timeout settings);
         REQUEST_DELAY := default (REQUEST_DELAY c) (request_delay settings);
         TELEGRAM_ENABLED := default (TELEGRAM_ENABLED c) (telegram_enabled settings);
         AUTO_SURVEY := default (AUTO_SURVEY c) (auto_survey settings) |}
  | None =>
      {| TELEGRAM_BOT_TOKEN := token;
         TELEGRAM_CHAT_ID := chat_id;
         SESSION_TIMEOUT := SESSION_TIMEOUT c;
         REQUEST_DELAY := REQUEST_DELAY c;
         TELEGRAM_ENABLED := TELEGRAM_ENABLED c;
         AUTO_SURVEY := AUTO_SURVEY c |}
  end.

(** [config.load_settings()]: it assigns the module variables of config.py
    and nothing else. *)
Definition load_settings : M unit :=
  fun s =>
    let n := count is_LoadSettings (trace s) in
    (Return tt, record LoadSettings (with_config (loaded_config n (config s)) s)).

(** [config.load_users_from_env()] *)
Definition load_users_from_env : M (list UserConfig) :=
  fun s =>
    (Return (users_file w (count is_LoadSettings (trace s))), record LoadUsers s).

(** *** class SessionManager *)

(** [SessionManager(username, password, sapid)] *)
Definition new_SessionManager (username password sapid : string) : SessionManager :=
  {| username := username; password := password; sapid := sapid;
     login_handler := None; session_start_time := zero |}.

Definition self : M SessionManager := s <- get_state ;; ret (manager s).

Definition set_login_handler (handler : string) : M unit :=
  modify (fun s =>
    let me := manager s in
    with_manager
      {| username := username me; password := password me; sapid := sapid me;
         login_handler := Some handler;
         session_start_time := session_start_time me |} s).

Definition set_session_start_time (t : T) : M unit :=
  modify (fun s =>
    let me := manager s in
    with_manager
      {| username := username me; password := password me; sapid := sapid me;
         login_handler := login_handler me;
         session_start_time := t |} s).

(** [with self._get_login_handler() as handler: body(handler)] *)
Definition _get_login_handler {A : Type} (body : string -> M A) : M A :=
  me <- self ;;
  handler <- OMULogin (username me) (password me) ;;
  try_finally (body handler) (close handler).

Definition _is_session_expired : M bool :=
  now <- time_time ;;
  s <- get_state ;;
  ret (ge (sub now (session_start_time (manager s))) (SESSION_TIMEOUT (config s))).

Definition _renew_session : M bool :=
  expired <- _is_session_expired ;;
  me <- self ;;
  match expired, login_handler me with
  | true, Some handler =>
      log INFO (username me ++ " için oturum süresi doldu, yenileniyor...") ;;
      session <- login handler ;;
      if session then
        now <- time_time ;;
        set_session_start_time now ;;
        log INFO (username me ++ " için oturum başarıyla yenilendi.") ;;
        ret true
      else
        log ERROR (username me ++ " için oturum yenileme başarısız!") ;;
        ret false
  | _, _ => ret true
  end.

Definition fetch_student_data : M bool :=
  _get_login_handler (fun handler =>
    set_login_handler handler ;;
    me <- self ;;
    session <- login handler ;;
    if negb session then
      log ERROR (username me ++ " için giriş başarısız!") ;;
      ret false
    else
      log INFO (username me ++ " için oturum açıldı.") ;;
      now <- time_time ;;
      set_session_start_time now ;;
      renewed <- _renew_session ;;
      if negb renewed then ret false
      else
        success <- get_page_content handler (sapid me) ;;
        (if success
         then log INFO (username me ++ " için veriler başarıyla çekildi.")
         else log ERROR (username me ++ " için veri çekme başarısız!")) ;;
        ret success).

(** *** process_user *)

Definition show_nat (n : nat) : string := NilZero.string_of_uint (Nat.to_uint n).
Definition show_Z (z : Z) : string := NilZero.string_of_int (Z.to_int z).

(** Truth value of a string. *)
Definition truthy (x : string) : bool := negb (String.eqb x "").

(** Whether [process_user] goes on to fetch for this entry:
    [all([username, password, sapid])]. *)
Definition complete (user_config : UserConfig) : bool :=
  forallb truthy
    [default "" (user_name user_config);
     default "" (user_password user_config);
     default "" (user_sapid user_config)].

Definition process_user (user_config : UserConfig) : M unit :=
  running <- bot_running ;;
  if negb running then ret tt
  else
    let username := default "" (user_name user_config) in
    let password := default "" (user_password user_config) in
    let sapid := default "" (user_sapid user_config) in
    if negb (forallb truthy [username; password; sapid]) then
      log WARNING ("Eksik kullanıcı konfigürasyonu: " ++ PyDict.repr user_config) ;;
      ret tt
    else
      log INFO (username ++ " öğrencisinin verisi işleniyor...") ;;
      try_except
        (modify (with_manager (new_SessionManager username password sapid)) ;;
         success <- fetch_student_data ;;
         if negb success then
           log WARNING (username ++
             " için veri çekme başarısız - muhtemelen anket var veya hata oluştu")
         else ret tt)
        (fun e =>
           log ERROR (username ++ " için işlem sırasında hata oluştu: " ++ exn_text e)).

(** *** run_monitoring_loop

    The thread pool is run one task after the other, a schedule that a
    pool of any size allows: [executor.submit] runs the task to its end and
    keeps its outcome in the future, so the events of the workers appear in
    submission order.  Leaving the [with] block waits for every task, which
    here has already ended.  The size a pool is created with is kept in the
    trace. *)

(** [ThreadPoolExecutor(max_workers=max_workers)]; the constructor raises
    [ValueError] for a size that is not positive. *)
Definition ThreadPoolExecutor (max_workers : nat) : M unit :=
  if Nat.eqb max_workers 0 then
    raise {| exn_kind := Exception;
             exn_text := "max_workers must be greater than 0" |}
  else emit (Executor max_workers).

Definition submit (task : M unit) : M (outcome unit) :=
  fun s => let (r, s') := task s in (Return r, s').

(** [[executor.submit(process_user, user) for user in user_list]] *)
Fixpoint submit_all (user_list : list UserConfig) : M (list (outcome unit)) :=
  match user_list with
  | [] => ret []
  | user :: rest =>
      future <- submit (process_user user) ;;
      futures <- submit_all rest ;;
      ret (future :: futures)
  end.

Definition TimeoutError : exn := {| exn_kind := Exception; exn_text := "" |}.

(** [future.result(timeout=30)] *)
Definition future_result (future : outcome unit) : M unit :=
  fun s =>
    if await_timeout w (count is_Await (trace s))
    then (Raise TimeoutError, record Await s)
    else (future, record Await s).

(** The loop over [futures]; it stops at the first future it reaches with
    the flag cleared. *)
Fixpoint wait_all (futures : list (outcome unit)) : M unit :=
  match futures with
  | [] => ret tt
  | future :: rest =>
      running <- bot_running ;;
      if negb running then ret tt
      else
        try_except (future_result future)
          (fun e => log ERROR ("Kullanıcı işleme hatası: " ++ exn_text e)) ;;
        wait_all rest
  end.

(** The sleep between two iterations.  [elapsed] grows by 0.5 from 0 while
    [elapsed < current_delay]; [remaining] counts the half seconds left,
    [2 * current_delay] at the start for a whole number of seconds. *)
Fixpoint sleep_loop (remaining : nat) : M unit :=
  match remaining with
  | O => ret tt
  | S remaining' =>
      running <- bot_running ;;
      if negb running then ret tt
      else emit Sleep ;; sleep_loop remaining'
  end.

(** One pass through the body of [while _bot_running]; the answer says
    whether the loop goes on ([false] after a [break]). *)
Definition iteration (iteration_no : nat) (user_list : list UserConfig)
    (max_workers : nat) : M bool :=
  load_settings ;;
  s <- get_state ;;
  log INFO ("İzleme döngüsü #" ++ show_nat iteration_no
              ++ " başlatılıyor... (İstek Aralığı: "
              ++ show_Z (REQUEST_DELAY (config s)) ++ "s)") ;;
  ThreadPoolExecutor max_workers ;;
  futures <- submit_all user_list ;;
  wait_all futures ;;
  running <- bot_running ;;
  if negb running then ret false
  else
    s <- get_state ;;
    let current_delay := REQUEST_DELAY (config s) in
    log INFO ("Döngü #" ++ show_nat iteration_no
                ++ " tamamlandı. Kullanılan istek aralığı: "
                ++ show_Z current_delay ++ "s") ;;
    sleep_loop (Z.to_nat (2 * current_delay)) ;;
    ret true.

(** [while _bot_running: ...], at most [fuel] times round.  The answer is
    [true] when the loop was left and [false] when it is still going after
    [fuel] iterations. *)
Fixpoint monitoring_loop (fuel : nat) (iteration_no : nat)
    (user_list : list UserConfig) (max_workers : nat) : M bool :=
  match fuel with
  | O => ret false
  | S fuel' =>
      running <- bot_running ;;
      if negb running then ret true
      else
        let iteration_no := S iteration_no in
        go_on <- iteration iteration_no user_list max_workers ;;
        if go_on then monitoring_loop fuel' iteration_no user_list max_workers
        else ret true
  end.

(** The [finally] block of [run_monitoring_loop]. *)
Definition stopped : M unit :=
  modify (with_running false) ;; log INFO "Bot durduruldu.".

Definition run_monitoring_loop (fuel : nat) : M bool :=
  modify (with_running true) ;;
  log INFO "UBYS Bot başlatıldı." ;;
  loaded <- load_users_from_env ;;
  let user_list := match loaded with [] => users_user_list | _ => loaded end in
  match user_list with
  | [] =>
      log ERROR "Hiçbir kullanıcı tanımlı değil. Lütfen GUI üzerinden ekleyin!" ;;
      ret true
  | _ =>
      log INFO (show_nat (length user_list) ++ " öğrenci izleniyor.") ;;
      let max_workers := Nat.min 3 (length user_list) in
      fun s =>
        match monitoring_loop fuel 0 user_list max_workers s with
        | (Return false, s') => (Return false, s')
        | (Return true, s') => (stopped ;; ret true) s'
        | (Raise e, s') =>
            if is_KeyboardInterrupt e then
              (log INFO "Bot kullanıcı tarafından durduruldu." ;;
               stopped ;; ret true) s'
            else if is_Exception e then
              (log CRITICAL ("Ana izleme döngüsünde kritik hata: " ++ exn_text e) ;;
               stopped ;; ret true) s'
            else (stopped ;; raise e) s'
        end
  end.

(** *** Conditions on the outside *)

(** An outcome that, when it is an exception, is an [Exception]. *)
Definition only_Exception {A : Type} (r : outcome A) : Prop :=
  match r with
  | Raise e => is_Exception e = true
  | Return _ => True
  end.

(** Every exception that the portal calls raise is an [Exception]. *)
Definition errors_only : Prop :=
  forall n : nat,
    only_Exception (login_reply w n) /\
    (forall b : bool, only_Exception (page_reply w n b)) /\
    only_Exception (close_reply w n).

(** [stop_bot()] is never called. *)
Definition never_stopped : Prop := forall n : nat, stop_requested w n = false.

(** *** Comparing two states of a run *)

(** The trace of the later state continues that of the earlier one, with
    so many more handlers opened, handlers closed, settings loads and
    half-second sleeps. *)
Definition advanced (s s' : State) (opened closed loaded slept : nat) : Prop :=
  (exists evs : list event, trace s' = (trace s ++ evs)%list) /\
  count is_Open (trace s') = count is_Open (trace s) + opened /\
  count is_Close (trace s') = count is_Close (trace s) + closed /\
  count is_LoadSettings (trace s') = count is_LoadSettings (trace s) + loaded /\
  count is_Sleep (trace s') = count is_Sleep (trace s) + slept.

(** A computation that never shortens the trace. *)
Definition grows {A : Type} (m : M A) : Prop :=
  forall s : State, length (trace s) <= length (trace (snd (m s))).

(** A computation that closes as many handlers as it opens. *)
Definition balanced {A : Type} (m : M A) : Prop :=
  forall s : State,
    count is_Open (trace (snd (m s))) + count is_Close (trace s)
    = count is_Close (trace (snd (m s))) + count is_Open (trace s).

(** A computation that adds no event of the kind [p] to the trace, and
    one that adds the events [evs] of that kind. *)
Definition silent (p : event -> bool) {A : Type} (m : M A) : Prop :=
  forall s : State, filter p (trace (snd (m s))) = filter p (trace s).

Definition adds (p : event -> bool) (evs : list event) {A : Type} (m : M A) : Prop :=
  forall s : State, filter p (trace (snd (m s))) = (filter p (trace s) ++ evs)%list.

(** Nothing but the trace, the flag and the worker's manager differs. *)
Definition same_globals (s s' : State) : Prop :=
  config s' = config s /\
  login_AUTO_SURVEY s' = login_AUTO_SURVEY s /\
  error_tracking s' = error_tracking s.

End WithClock.

Arguments Settings T : clear implicits.
Arguments World T : clear implicits.
Arguments Config T : clear implicits.
Arguments SessionManager T : clear implicits.
Arguments State T : clear implicits.
Arguments M T A : clear implicits.

End Main.

(** ** config.load_users and html1.HtmlParser._save_grades_to_file *)

Module ConfigPy.

Import PyStr.

(** One piece of [UBYS_USERS]: the entry it adds to [users], if any. *)
Definition user_of_env (user_data : string) : list Main.UserConfig :=
  let parts := split (strip user_data) ":" in
  if Nat.eqb (length parts) 3 then
    [[("name", item parts 0);
      ("password", item parts 1);
      ("sapid", item parts 2)]]
  else [].

(** [load_users()].  [users_file] is the list that [users_config.json]
    holds, [None] when the file is missing or cannot be read; a file that
    holds something else than a list is not covered.  [users_env] is
    [os.getenv("UBYS_USERS", "")]. *)
Definition load_users (users_file : option (list Main.UserConfig))
    (users_env : string) : list Main.UserConfig :=
  match users_file with
  | Some users => users
  | None =>
      if negb (String.eqb users_env "") then
        fold_left (fun users user_data => (users ++ user_of_env user_data)%list)
                  (split users_env ",") []
      else []
  end.

(** An entry with its three keys present and no colon in any value. *)
Definition colon_free (user : Main.UserConfig) : bool :=
  match Main.user_name user, Main.user_password user, Main.user_sapid user with
  | Some n, Some p, Some s =>
      negb (contains ":" n) && negb (contains ":" p) && negb (contains ":" s)
  | _, _, _ => false
  end.

End ConfigPy.

Module Html1.

Import PyDict GradeChangeDetector.

(** [student_grades.json] as the parser finds it: not there, there but
    not readable as JSON, or holding the grades of the students. *)
Inductive grades_disk :=
| Missing
| Corrupt
| Stored (all_grades : dict StudentData).

(** [_save_grades_to_file]; [now] is the formatted [datetime.now()].  When
    the file cannot be read the exception is logged and nothing is
    written. *)
Definition _save_grades_to_file (now student_id : string) (courses : list Course)
    (disk : grades_disk) : grades_disk :=
  let entry := {| courses := Some courses; last_updated := Some now |} in
  match disk with
  | Missing => Stored (set student_id entry [])
  | Corrupt => Corrupt
  | Stored all_grades => Stored (set student_id entry all_grades)
  end.

(** Whether [json.load] succeeds on the file, or there is no file. *)
Definition readable (disk : grades_disk) : bool :=
  match disk with
  | Corrupt => false
  | _ => true
  end.

(** The grades that the file holds, none when it is missing. *)
Definition stored (disk : grades_disk) : dict StudentData :=
  match disk with
  | Stored all_grades => all_grades
  | _ => []
  end.

(** What [_load_grades] of the detector gets from the file. *)
Definition loaded (disk : grades_disk) : option (dict StudentData) :=
  match disk with
  | Stored all_grades => Some all_grades
  | _ => None
  end.

End Html1.

(** ** Concrete inputs *)

Module Examples.

(** A grades file with one student and one course, and no saved state. *)
Definition one_course_grades : GradeChangeDetector.Files :=
  {| GradeChangeDetector.grades_file :=
       Some [("s1",
              {| GradeChangeDetector.courses :=
                   Some [{| GradeChangeDetector.name := Some "Math";
                            GradeChangeDetector.exams := Some ["Q1: 80"] |}];
                 GradeChangeDetector.last_updated := Some "2024-01-01 10:00:00" |})];
     GradeChangeDetector.changes_file := None |}.

(** The same student fetched again: the saved state has the same course
    under an older stamp. *)
Definition restamped_grades : GradeChangeDetector.Files :=
  {| GradeChangeDetector.grades_file :=
       Some [("s1",
              {| GradeChangeDetector.courses :=
                   Some [{| GradeChangeDetector.name := Some "Math";
                            GradeChangeDetector.exams := Some ["Q1: 80"] |}];
                 GradeChangeDetector.last_updated := Some "2024-01-02 10:00:00" |})];
     GradeChangeDetector.changes_file :=
       Some [("s1",
              {| GradeChangeDetector.courses :=
                   Some [{| GradeChangeDetector.name := Some "Math";
                            GradeChangeDetector.exams := Some ["Q1: 80"] |}];
                 GradeChangeDetector.last_updated := Some "2024-01-01 10:00:00" |})] |}.

(** The courses of the examples' student, as the parser builds them. *)
Definition math_only : list GradeChangeDetector.Course :=
  [{| GradeChangeDetector.name := Some "Math";
      GradeChangeDetector.exams := Some ["Q1: 80"] |}].

(** The portal of the examples: every call succeeds, except that the
    second login of the run (the renewal of the first worker) is refused;
    the clock jumps by 2000 seconds from one reading to the next. *)
Definition refused_renewal : Main.World Z :=
  {| Main.login_reply := fun n => if Nat.eqb n 1 then Main.Return false else Main.Return true;
     Main.time_reply := fun n => (2000 * Z.of_nat n)%Z;
     Main.page_reply := fun _ _ => Main.Return true;
     Main.close_reply := fun _ => Main.Return tt;
     Main.await_timeout := fun _ => false;
     Main.stop_requested := fun _ => false;
     Main.settings_file := fun _ => None;
     Main.environ_token := fun _ => "";
     Main.environ_chat_id := fun _ => "";
     Main.users_file := fun _ => [] |}.

(** A portal that refuses every login. *)
Definition locked_out : Main.World Z :=
  {| Main.login_reply := fun _ => Main.Return false;
     Main.time_reply := fun n => Z.of_nat n;
     Main.page_reply := fun _ _ => Main.Return true;
     Main.close_reply := fun _ => Main.Return tt;
     Main.await_timeout := fun _ => false;
     Main.stop_requested := fun _ => false;
     Main.settings_file := fun _ => None;
     Main.environ_token := fun _ => "";
     Main.environ_chat_id := fun _ => "";
     Main.users_file := fun _ => [] |}.

(** A portal whose logins are interrupted from the keyboard. *)
Definition interrupted : Main.World Z :=
  {| Main.login_reply :=
       fun _ => Main.Raise {| Main.exn_kind := Main.KeyboardInterrupt;
                              Main.exn_text := "" |};
     Main.time_reply := fun n => Z.of_nat n;
     Main.page_reply := fun _ _ => Main.Return true;
     Main.close_reply := fun _ => Main.Return tt;
     Main.await_timeout := fun _ => false;
     Main.stop_requested := fun _ => false;
     Main.settings_file := fun _ => None;
     Main.environ_token := fun _ => "";
     Main.environ_chat_id := fun _ => "";
     Main.users_file := fun _ => [] |}.

(** An entry of the user list without a name. *)
Definition nameless_user : Main.UserConfig :=
  [("password", "secret"); ("sapid", "https://ubys.omu.edu.tr/x")].

(** A portal where everything succeeds and [stop_bot()] is called once
    the run has produced three events. *)
Definition stopped_late : Main.World Z :=
  {| Main.login_reply := fun _ => Main.Return true;
     Main.time_reply := fun n => Z.of_nat n;
     Main.page_reply := fun _ _ => Main.Return true;
     Main.close_reply := fun _ => Main.Return tt;
     Main.await_timeout := fun _ => false;
     Main.stop_requested := fun n => Nat.leb 3 n;
     Main.settings_file := fun _ => None;
     Main.environ_token := fun _ => "";
     Main.environ_chat_id := fun _ => "";
     Main.users_file := fun _ => [] |}.

(** The configuration with the default values of config.py. *)
Definition default_config : Main.Config Z :=
  {| Main.TELEGRAM_BOT_TOKEN := "";
     Main.TELEGRAM_CHAT_ID := "";
     Main.SESSION_TIMEOUT := 1800%Z;
     Main.REQUEST_DELAY := 60%Z;
     Main.TELEGRAM_ENABLED := true;
     Main.AUTO_SURVEY := false |}.

(** A fresh process in which a worker for student ["u1"] is about to
    fetch. *)
Definition fresh : Main.State Z :=
  {| Main.config := default_config;
     Main.login_AUTO_SURVEY := false;
     Main._bot_running := true;
     Main.manager := Main.new_SessionManager "u1" "secret" "https://ubys.omu.edu.tr/x";
     Main.error_tracking := None;
     Main.trace := [] |}.

Definition u1 : Main.UserConfig :=
  [("name", "u1"); ("password", "secret"); ("sapid", "https://ubys.omu.edu.tr/x")].

Definition u2 : Main.UserConfig :=
  [("name", "u2"); ("password", "hidden"); ("sapid", "https://ubys.omu.edu.tr/y")].

(** Two accounts; the first login of the run raises, every other call
    succeeds. *)
Definition raising_portal : Main.World Z :=
  {| Main.login_reply :=
       fun n => if Nat.eqb n 0
                then Main.Raise {| Main.exn_kind := Main.Exception;
                                   Main.exn_text := "connection reset" |}
                else Main.Return true;
     Main.time_reply := fun n => Z.of_nat n;
     Main.page_reply := fun _ _ => Main.Return true;
     Main.close_reply := fun _ => Main.Return tt;
     Main.await_timeout := fun _ => false;
     Main.stop_requested := fun _ => false;
     Main.settings_file := fun _ => None;
     Main.environ_token := fun _ => "";
     Main.environ_chat_id := fun _ => "";
     Main.users_file := fun _ => [u1; u2] |}.

(** The users file holds one account when the loop starts and two from
    the first iteration on; the settings file asks for a delay of one
    second. *)
Definition growing_accounts : Main.World Z :=
  {| Main.login_reply := fun _ => Main.Return true;
     Main.time_reply := fun n => Z.of_nat n;
     Main.page_reply := fun _ _ => Main.Return true;
     Main.close_reply := fun _ => Main.Return tt;
     Main.await_timeout := fun _ => false;
     Main.stop_requested := fun _ => false;
     Main.settings_file :=
       fun _ => Some {| Main.telegram_token := None;
                        Main.telegram_chat_id := None;
                        Main.request_delay := Some 1%Z;
                        Main.session_timeout := None;
                        Main.telegram_enabled := None;
                        Main.auto_survey := Some true |};
     Main.environ_token := fun _ => "";
     Main.environ_chat_id := fun _ => "";
     Main.users_file := fun n => if Nat.eqb n 0 then [u1] else [u1; u2] |}.

End Examples.

(** * Properties *)

(** ** Insertion-ordered dicts *)

Section DictFacts.
Context {V : Type}.
Implicit Types (d : PyDict.dict V) (k : string) (v : V).

Lemma get_set_eq d k v : PyDict.get k (PyDict.set k v d) = Some v.
Proof.
  induction d as [|[k' v'] d IH]; simpl.
  - now rewrite String.eqb_refl.
  - destruct (String.eqb k' k) eqn:E; simpl; rewrite E; auto.
Qed.

Lemma get_set_ne d k k' v :
  k <> k' -> PyDict.get k' (PyDict.set k v d) = PyDict.get k' d.
Proof.
  intros Hne. induction d as [|[k0 v0] d IH]; simpl.
  - destruct (String.eqb k k') eqn:E; auto.
    apply String.eqb_eq in E. contradiction.
  - destruct (String.eqb k0 k) eqn:E; simpl.
    + apply String.eqb_eq in E. subst k0.
      destruct (String.eqb k k') eqn:E'; auto.
      apply String.eqb_eq in E'. contradiction.
    + now rewrite IH.
Qed.

Lemma has_key_In d k : PyDict.has_key k d = true <-> In k (PyDict.keys d).
Proof.
  unfold PyDict.has_key.
  induction d as [|[k' v'] d IH]; simpl.
  - split; [discriminate | tauto].
  - destruct (String.eqb k' k) eqn:E.
    + apply String.eqb_eq in E. split; auto.
    + apply String.eqb_neq in E. rewrite IH. split; [auto | intros [?|?]; congruence].
Qed.

Lemma keys_set d k v :
  PyDict.keys (PyDict.set k v d) =
  if PyDict.has_key k d then PyDict.keys d else (PyDict.keys d ++ [k])%list.
Proof.
  unfold PyDict.has_key.
  induction d as [|[k' v'] d IH]; simpl; auto.
  destruct (String.eqb k' k) eqn:E; simpl; auto.
  rewrite IH. now destruct (PyDict.get k d).
Qed.

Lemma NoDup_keys_set d k v :
  NoDup (PyDict.keys d) -> NoDup (PyDict.keys (PyDict.set k v d)).
Proof.
  intros Hd. rewrite keys_set.
  destruct (PyDict.has_key k d) eqn:E; auto.
  apply NoDup_app; repeat split; auto.
  - constructor; [tauto | constructor].
  - intros x Hx [<-|[]]. apply has_key_In in Hx. congruence.
Qed.

Lemma fold_set_NoDup (key : V -> string) (l : list V) d :
  NoDup (PyDict.keys d) ->
  NoDup (PyDict.keys (fold_left (fun d x => PyDict.set (key x) x d) l d)).
Proof.
  revert d. induction l as [|x l IH]; simpl; intros d Hd; auto.
  apply IH, NoDup_keys_set, Hd.
Qed.

Lemma NoDup_keys_comprehension (key : V -> string) (l : list V) :
  NoDup (PyDict.keys (PyDict.comprehension key l)).
Proof. apply fold_set_NoDup. constructor. Qed.

Lemma fold_set_has_key (key : V -> string) (l : list V) d k :
  PyDict.has_key k (fold_left (fun d x => PyDict.set (key x) x d) l d) =
  PyDict.has_key k d || existsb (fun x => String.eqb k (key x)) l.
Proof.
  revert d. induction l as [|x l IH]; simpl; intros d.
  - now rewrite orb_false_r.
  - rewrite IH. unfold PyDict.has_key.
    destruct (String.eqb k (key x)) eqn:E.
    + apply String.eqb_eq in E. subst k. rewrite get_set_eq. simpl.
      now rewrite orb_true_r.
    + apply String.eqb_neq in E. rewrite get_set_ne by congruence. reflexivity.
Qed.

Lemma has_key_comprehension (key : V -> string) (l : list V) k :
  PyDict.has_key k (PyDict.comprehension key l) =
  existsb (String.eqb k) (map key l).
Proof.
  unfold PyDict.comprehension. rewrite fold_set_has_key. simpl.
  induction l; simpl; congruence.
Qed.

Lemma count_occ_keys d k :
  NoDup (PyDict.keys d) ->
  count_occ string_dec (PyDict.keys d) k = if PyDict.has_key k d then 1 else 0.
Proof.
  intros Hd. destruct (PyDict.has_key k d) eqn:E.
  - apply has_key_In in E. now apply NoDup_count_occ'.
  - apply count_occ_not_In. intros Hin. apply has_key_In in Hin. congruence.
Qed.

End DictFacts.

(** ** The ChangeSet of [_compare_courses] *)

Section CompareCourses.
Import GradeChangeDetector.

Local Abbreviation occ l n := (count_occ string_dec l n).

Lemma occ_snoc (l : list string) (k n : string) :
  occ (l ++ [k]) n = occ l n + occ [k] n.
Proof. apply count_occ_app. Qed.

Lemma classified_occ (changes : ChangeSet) (n : string) :
  occ (classified changes) n =
  occ (map new_name (new changes)) n + occ (map updated_name (updated changes)) n
    + occ (removed changes) n + occ (no_change changes) n.
Proof. unfold classified. rewrite !count_occ_app. lia. Qed.

Lemma visit_new_occ old_dict changes (it : string * Course) n :
  occ (classified (visit_new old_dict changes it)) n =
  occ (classified changes) n + occ [fst it] n.
Proof.
  destruct it as [k c]. unfold visit_new.
  destruct (PyDict.get k old_dict) as [old_course|].
  - destruct (negb _); rewrite !classified_occ; cbn [new updated removed no_change fst];
      rewrite ?map_app, ?count_occ_app; cbn [map updated_name]; lia.
  - rewrite !classified_occ; cbn [new updated removed no_change fst].
    rewrite map_app, count_occ_app. cbn [map new_name]. lia.
Qed.

Lemma fold_visit_new_occ old_dict (l : PyDict.dict Course) changes n :
  occ (classified (fold_left (visit_new old_dict) l changes)) n =
  occ (classified changes) n + occ (PyDict.keys l) n.
Proof.
  revert changes. induction l as [|it l IH]; intros changes.
  - simpl. lia.
  - cbn [fold_left]. rewrite IH, visit_new_occ.
    change (PyDict.keys (it :: l)) with ([fst it] ++ PyDict.keys l)%list.
    rewrite count_occ_app. lia.
Qed.

Lemma visit_old_occ new_dict changes (it : string * Course) n :
  occ (classified (visit_old new_dict changes it)) n =
  occ (classified changes) n
    + occ (filter (fun k => negb (PyDict.has_key k new_dict)) [fst it]) n.
Proof.
  unfold visit_old. cbn [filter].
  destruct (negb (PyDict.has_key (fst it) new_dict)).
  - rewrite !classified_occ; cbn [new updated removed no_change].
    rewrite count_occ_app. lia.
  - cbn [count_occ]. lia.
Qed.

Lemma fold_visit_old_occ new_dict (l : PyDict.dict Course) changes n :
  occ (classified (fold_left (visit_old new_dict) l changes)) n =
  occ (classified changes) n
    + occ (filter (fun k => negb (PyDict.has_key k new_dict)) (PyDict.keys l)) n.
Proof.
  revert changes. induction l as [|it l IH]; intros changes.
  - simpl. lia.
  - cbn [fold_left]. rewrite IH, visit_old_occ.
    change (PyDict.keys (it :: l)) with ([fst it] ++ PyDict.keys l)%list.
    rewrite filter_app, count_occ_app. lia.
Qed.

Lemma occ_filter_NoDup (p : string -> bool) (l : list string) n :
  NoDup l ->
  occ (filter p l) n = if p n then occ l n else 0.
Proof.
  intros Hl. induction l as [|k l IH]; simpl.
  - now destruct (p n).
  - inversion Hl; subst. specialize (IH ltac:(assumption)).
    destruct (string_dec k n) as [->|Hne].
    + destruct (p n) eqn:E; simpl.
      * destruct (string_dec n n); [|contradiction]. now rewrite IH.
      * exact IH.
    + destruct (p k); simpl; [destruct (string_dec k n); [contradiction|]|]; exact IH.
Qed.

(** How often a name is classified, for any two course lists. *)
Lemma compare_courses_occ (old_courses new_courses : list Course) n :
  occ (classified (_compare_courses old_courses new_courses)) n =
  if PyDict.has_key n (PyDict.comprehension get_name old_courses)
     || PyDict.has_key n (PyDict.comprehension get_name new_courses)
  then 1 else 0.
Proof.
  unfold _compare_courses.
  rewrite fold_visit_old_occ, fold_visit_new_occ.
  rewrite occ_filter_NoDup by apply NoDup_keys_comprehension.
  rewrite !count_occ_keys by apply NoDup_keys_comprehension.
  destruct (PyDict.has_key n (PyDict.comprehension get_name old_courses)),
           (PyDict.has_key n (PyDict.comprehension get_name new_courses));
    reflexivity.
Qed.

End CompareCourses.

(** C1. The ChangeSet of [_compare_courses] is exhaustive and disjoint:
    a course name that occurs as a key of the old or of the new mapping is
    listed exactly once over the four classes [new], [updated], [removed]
    and [no_change] taken together, and any other name is listed in none. *)
Theorem compare_courses_partition
    (old_courses new_courses : list GradeChangeDetector.Course)
    (course_name : string) :
  count_occ string_dec
    (GradeChangeDetector.classified
       (GradeChangeDetector._compare_courses old_courses new_courses))
    course_name =
  if existsb (String.eqb course_name)
       (map GradeChangeDetector.get_name old_courses
          ++ map GradeChangeDetector.get_name new_courses)%list
  then 1 else 0.
Proof.
  rewrite compare_courses_occ, !has_key_comprehension, existsb_app.
  reflexivity.
Qed.

(** ** The exam diff *)

Section CompareExams.
Import GradeChangeDetector.

Lemma fold_exam_lines old_exams (new_exams acc : list string) :
  fold_left (fun changes new_exam => (changes ++ exam_lines old_exams new_exam)%list)
            new_exams acc
  = (acc ++ flat_map (exam_lines old_exams) new_exams)%list.
Proof.
  revert acc. induction new_exams as [|e l IH]; intros acc; simpl.
  - now rewrite app_nil_r.
  - now rewrite IH, app_assoc.
Qed.

Lemma compare_exams_flat_map old_exams new_exams :
  _compare_exams old_exams new_exams = flat_map (exam_lines old_exams) new_exams.
Proof. unfold _compare_exams. now rewrite fold_exam_lines. Qed.

(** An entry of the new list that is not, as a whole string, in the old
    list always gives a "Yeni" line, whatever its label. *)
Lemma exam_lines_absent old_exams new_exam :
  PyStr.elem new_exam old_exams = false ->
  exam_lines old_exams new_exam = ["Yeni: " ++ new_exam].
Proof. intros E. unfold exam_lines. now rewrite E. Qed.

(** An entry that is in the old list gives a line only when an earlier
    entry of the old list starts with its label. *)
Example exam_lines_present_shadowed :
  _compare_exams ["Midterm:: 60"; "Midterm:: 70"] ["Midterm:: 70"]
  = ["Güncellendi: Midterm (60 → 70)"].
Proof. reflexivity. Qed.

End CompareExams.

(** C2. The diff of [_compare_exams] at the inputs of the claim: for old
    exams ["Midterm: 70"] and new exams ["Midterm: 85"] the only line is
    the "Yeni" (added) line for the whole new entry, with no old value in
    it, so the changed score is not reported as a change; the same holds
    with the ["::"] separator that the "Güncellendi" branch looks for.  For
    old exams [] and new exams ["Final: 90"] the line marks the entry as
    added. *)
Theorem compare_exams_changed_score_is_reported_as_added :
  GradeChangeDetector._compare_exams ["Midterm: 70"] ["Midterm: 85"]
    = ["Yeni: Midterm: 85"] /\
  GradeChangeDetector._compare_exams ["Midterm:: 70"] ["Midterm:: 85"]
    = ["Yeni: Midterm:: 85"] /\
  GradeChangeDetector._compare_exams [] ["Final: 90"] = ["Yeni: Final: 90"].
Proof. repeat split; reflexivity. Qed.

(** ** Nameless courses *)

Section Nameless.
Import GradeChangeDetector.
Context {V : Type}.

Lemma fold_set_get (key : V -> string) (l : list V) (d : PyDict.dict V) k :
  PyDict.get k (fold_left (fun d x => PyDict.set (key x) x d) l d)
  = fold_left (fun found x => if String.eqb (key x) k then Some x else found)
              l (PyDict.get k d).
Proof.
  revert d. induction l as [|x l IH]; intros d; simpl; auto.
  rewrite IH. f_equal.
  destruct (String.eqb (key x) k) eqn:E.
  - apply String.eqb_eq in E. subst k. apply get_set_eq.
  - apply String.eqb_neq in E. now apply get_set_ne.
Qed.

Lemma get_comprehension (key : V -> string) (l : list V) k :
  PyDict.get k (PyDict.comprehension key l) = PyDict.last_keyed key k l.
Proof. unfold PyDict.comprehension, PyDict.last_keyed. now rewrite fold_set_get. Qed.

End Nameless.

(** Two nameless courses and one named by the empty string: one entry, at
    the place of the first, holding the last. *)
Example nameless_courses_one_entry :
  PyDict.comprehension GradeChangeDetector.get_name
    [ {| GradeChangeDetector.name := None; GradeChangeDetector.exams := Some ["Vize: 40"] |};
      {| GradeChangeDetector.name := Some "Fizik"; GradeChangeDetector.exams := None |};
      {| GradeChangeDetector.name := None; GradeChangeDetector.exams := Some ["Vize: 55"] |};
      {| GradeChangeDetector.name := Some ""; GradeChangeDetector.exams := Some ["Final: 70"] |} ]
  = [ ("", {| GradeChangeDetector.name := Some "";
              GradeChangeDetector.exams := Some ["Final: 70"] |});
      ("Fizik", {| GradeChangeDetector.name := Some "Fizik";
                   GradeChangeDetector.exams := None |}) ].
Proof. reflexivity. Qed.

(** ** Notifications of a ChangeSet *)

Section Notifications.
Import GradeChangeDetector.

Lemma fold_append_map {A B : Type} (f : A -> B) (l : list A) (acc : list B) :
  fold_left (fun ns x => (ns ++ [f x])%list) l acc = (acc ++ map f l)%list.
Proof.
  revert acc. induction l as [|x l IH]; intros acc; simpl.
  - now rewrite app_nil_r.
  - rewrite IH, <- app_assoc. reflexivity.
Qed.

Lemma notify_updated_app sid ns course :
  notify_updated sid ns course = (ns ++ updated_notifications sid course)%list.
Proof.
  unfold notify_updated, updated_notifications.
  destruct (exam_changes course) as [|c l]; [reflexivity|].
  apply fold_append_map.
Qed.

Lemma fold_notify_updated sid (l : list UpdatedCourse) ns :
  fold_left (notify_updated sid) l ns
  = (ns ++ flat_map (updated_notifications sid) l)%list.
Proof.
  revert ns. induction l as [|c l IH]; intros ns; simpl.
  - now rewrite app_nil_r.
  - rewrite IH, notify_updated_app, <- app_assoc. reflexivity.
Qed.

Lemma notify_changes_app sid changes_detail ns :
  notify_changes sid changes_detail ns
  = (ns ++ map (new_course_notification sid) (new changes_detail)
        ++ flat_map (updated_notifications sid) (updated changes_detail)
        ++ map (course_removed_notification sid) (removed changes_detail))%list.
Proof.
  unfold notify_changes.
  destruct (new changes_detail) as [|n news],
           (updated changes_detail) as [|u upds],
           (removed changes_detail) as [|r rems];
    rewrite ?fold_append_map, ?fold_notify_updated, ?fold_append_map;
    cbn [map flat_map]; rewrite ?app_nil_r, <- ?app_assoc; reflexivity.
Qed.

Lemma fold_notify_student (l : PyDict.dict ChangeData) ns :
  fold_left notify_student l ns
  = (ns ++ flat_map (fun it : string * ChangeData =>
                       notify_changes (fst it) (changes (snd it)) []) l)%list.
Proof.
  revert ns. induction l as [|it l IH]; intros ns; simpl.
  - now rewrite app_nil_r.
  - rewrite IH. unfold notify_student.
    rewrite (notify_changes_app _ _ ns), (notify_changes_app _ _ []).
    cbn [app]. now rewrite <- !app_assoc.
Qed.

(** [get_notifications] puts the notifications of the students' ChangeSets
    one after the other. *)
Lemma get_notifications_flat_map fs :
  fst (get_notifications fs)
  = flat_map (fun it : string * ChangeData =>
                notify_changes (fst it) (changes (snd it)) [])
             (fst (detect_changes fs)).
Proof.
  unfold get_notifications. destruct (detect_changes fs) as [all_changes fs'].
  cbn [fst]. now rewrite fold_notify_student.
Qed.

Lemma count_type_app t (a b : list Notification) :
  count_type t (a ++ b) = count_type t a + count_type t b.
Proof. unfold count_type. now rewrite filter_app, length_app. Qed.

Lemma count_type_map {A : Type} (f : A -> Notification) t t' (l : list A) :
  (forall x, type (f x) = t') ->
  count_type t (map f l) = if String.eqb t' t then length l else 0.
Proof.
  intros Hf. unfold count_type.
  induction l as [|x l IH]; simpl.
  - now destruct (String.eqb t' t).
  - rewrite Hf. destruct (String.eqb t' t); simpl; auto.
Qed.

Lemma updated_notifications_length sid course :
  length (updated_notifications sid course) = update_events course.
Proof.
  unfold updated_notifications, update_events.
  destruct (exam_changes course); [reflexivity|]. apply length_map.
Qed.

Lemma count_type_updated sid course t :
  count_type t (updated_notifications sid course)
  = if String.eqb "grade_update" t then update_events course else 0.
Proof.
  unfold updated_notifications, update_events.
  destruct (exam_changes course) as [|c l].
  - change [generic_update_notification sid (updated_name course)]
      with (map (fun _ : unit =>
                   generic_update_notification sid (updated_name course)) [tt]).
    now rewrite (count_type_map _ t "grade_update").
  - now rewrite (count_type_map _ t "grade_update").
Qed.

Lemma count_type_flat_updated sid (l : list UpdatedCourse) t :
  count_type t (flat_map (updated_notifications sid) l)
  = if String.eqb "grade_update" t then list_sum (map update_events l) else 0.
Proof.
  induction l as [|c l IH]; cbn [flat_map map list_sum fold_right].
  - now destruct (String.eqb "grade_update" t).
  - rewrite count_type_app, IH, count_type_updated.
    now destruct (String.eqb "grade_update" t).
Qed.

Lemma length_flat_updated sid (l : list UpdatedCourse) :
  length (flat_map (updated_notifications sid) l) = list_sum (map update_events l).
Proof.
  induction l as [|c l IH]; simpl; auto.
  now rewrite length_app, IH, updated_notifications_length.
Qed.

Lemma updated_notifications_fit sid course :
  forallb (fun n => String.eqb (student_id n) sid && severity_fits n)
          (updated_notifications sid course) = true.
Proof.
  unfold updated_notifications.
  destruct (exam_changes course) as [|c l].
  - simpl. now rewrite String.eqb_refl.
  - apply forallb_forall. intros n Hn. apply in_map_iff in Hn.
    destruct Hn as [x [<- _]]. simpl. now rewrite String.eqb_refl.
Qed.

End Notifications.

(** C3. [get_notifications] puts the notifications of the students'
    ChangeSets one after the other, and those of one ChangeSet are, in this order, one
    [new_course] event per new course, for each updated course one
    [grade_update] event per diff line or a single generic one when it has
    no diff line, and one [course_removed] event per removed name; so the
    three types occur as often as the claim says, there is no further
    event, and every event has the student id and the severity of its type
    ([info], [warning], [info]). *)
Theorem notifications_of_a_change_set
    (fs : GradeChangeDetector.Files)
    (sid : string) (cs : GradeChangeDetector.ChangeSet) :
  let ns := GradeChangeDetector.notify_changes sid cs [] in
  fst (GradeChangeDetector.get_notifications fs)
  = flat_map (fun it : string * GradeChangeDetector.ChangeData =>
                GradeChangeDetector.notify_changes
                  (fst it) (GradeChangeDetector.changes (snd it)) [])
             (fst (GradeChangeDetector.detect_changes fs)) /\
  ns = (map (GradeChangeDetector.new_course_notification sid)
            (GradeChangeDetector.new cs)
        ++ flat_map (GradeChangeDetector.updated_notifications sid)
             (GradeChangeDetector.updated cs)
        ++ map (GradeChangeDetector.course_removed_notification sid)
             (GradeChangeDetector.removed cs))%list /\
  GradeChangeDetector.count_type "new_course" ns
    = length (GradeChangeDetector.new cs) /\
  GradeChangeDetector.count_type "grade_update" ns
    = list_sum (map GradeChangeDetector.update_events
                    (GradeChangeDetector.updated cs)) /\
  GradeChangeDetector.count_type "course_removed" ns
    = length (GradeChangeDetector.removed cs) /\
  length ns
    = length (GradeChangeDetector.new cs)
      + list_sum (map GradeChangeDetector.update_events
                      (GradeChangeDetector.updated cs))
      + length (GradeChangeDetector.removed cs) /\
  forallb (fun n => String.eqb (GradeChangeDetector.student_id n) sid
                    && GradeChangeDetector.severity_fits n) ns = true.
Proof.
  intros ns. subst ns. split; [apply get_notifications_flat_map|].
  rewrite notify_changes_app. cbn [app].
  split; [reflexivity|].
  rewrite !count_type_app, !count_type_flat_updated.
  repeat rewrite (count_type_map (GradeChangeDetector.new_course_notification sid)
                                 _ "new_course") by reflexivity.
  repeat rewrite (count_type_map (GradeChangeDetector.course_removed_notification sid)
                                 _ "course_removed") by reflexivity.
  rewrite !length_app, !length_map, length_flat_updated.
  repeat match goal with
         | |- context [String.eqb ?a ?b] =>
             let v := eval vm_compute in (String.eqb a b) in
             change (String.eqb a b) with v
         end.
  cbv iota.
  split; [lia|]. split; [lia|]. split; [lia|]. split; [lia|].
  rewrite !forallb_app. repeat (apply andb_true_intro; split).
  - apply forallb_forall. intros n Hn. apply in_map_iff in Hn.
    destruct Hn as [x [<- _]]. simpl. now rewrite String.eqb_refl.
  - apply forallb_forall. intros n Hn. apply in_flat_map in Hn.
    destruct Hn as [c [_ Hn]].
    pose proof (updated_notifications_fit sid c) as Hc.
    rewrite forallb_forall in Hc. now apply Hc.
  - apply forallb_forall. intros n Hn. apply in_map_iff in Hn.
    destruct Hn as [x [<- _]]. simpl. now rewrite String.eqb_refl.
Qed.

(** ** Detecting twice *)

Section DetectTwice.
Import GradeChangeDetector.

Lemma get_In_NoDup {V : Type} (d : PyDict.dict V) k v :
  NoDup (PyDict.keys d) -> In (k, v) d -> PyDict.get k d = Some v.
Proof.
  induction d as [|[k' v'] d IH]; simpl; intros Hd Hin; [tauto|].
  inversion Hd as [|? ? Hnotin Hd']; subst.
  destruct Hin as [Heq|Hin].
  - inversion Heq; subst. now rewrite String.eqb_refl.
  - destruct (String.eqb k' k) eqn:E.
    + apply String.eqb_eq in E. subst k'. exfalso. apply Hnotin.
      change k with (fst (k, v)). now apply in_map.
    + now apply IH.
Qed.

(** A student whose stored courses are the current ones adds nothing. *)
Lemma fold_detect_student_same previous_state (l : PyDict.dict StudentData) acc :
  (forall it, In it l -> PyDict.get (fst it) previous_state = Some (snd it)) ->
  fold_left (detect_student previous_state) l acc = acc.
Proof.
  revert acc. induction l as [|[sid sd] l IH]; intros acc Hl; simpl; auto.
  rewrite IH by (intros it Hit; apply Hl; now right).
  unfold detect_student.
  pose proof (Hl (sid, sd) (or_introl eq_refl)) as Hsame. cbn [fst snd] in Hsame.
  rewrite Hsame. cbn [default].
  now rewrite bool_decide_eq_true_2.
Qed.

Lemma detect_changes_saved fs grades :
  grades_file fs = Some grades ->
  snd (detect_changes fs)
  = match grades with
    | [] => fs
    | _ => {| grades_file := Some grades; changes_file := Some grades |}
    end.
Proof.
  intros Hg. unfold detect_changes, _load_grades, _save_changes. rewrite Hg.
  destruct grades; reflexivity.
Qed.

Lemma detect_changes_again fs grades :
  grades_file fs = Some grades ->
  NoDup (PyDict.keys grades) ->
  detect_changes (snd (detect_changes fs)) = ([], snd (detect_changes fs)).
Proof.
  intros Hg Hnd. rewrite (detect_changes_saved fs grades Hg).
  destruct grades as [|g grades].
  - unfold detect_changes, _load_grades. now rewrite Hg.
  - unfold detect_changes, _load_grades, _load_previous_changes, _save_changes.
    cbn [grades_file changes_file default].
    rewrite fold_detect_student_same; [reflexivity|].
    intros [sid sd] Hin. now apply get_In_NoDup.
Qed.

Lemma fold_visit_new_same old_dict (l : PyDict.dict Course) acc :
  (forall it, In it l -> PyDict.get (fst it) old_dict = Some (snd it)) ->
  let r := fold_left (visit_new old_dict) l acc in
  new r = new acc /\ updated r = updated acc /\ removed r = removed acc /\
  no_change r = (no_change acc ++ PyDict.keys l)%list.
Proof.
  revert acc. induction l as [|[k c] l IH]; intros acc Hl; cbn [fold_left].
  - cbn. now rewrite app_nil_r.
  - destruct (IH (visit_new old_dict acc (k, c))
                 (fun it Hit => Hl it (or_intror Hit))) as (Hn & Hu & Hr & Hc).
    cbv zeta. rewrite Hn, Hu, Hr, Hc.
    unfold visit_new.
    pose proof (Hl (k, c) (or_introl eq_refl)) as Hsame. cbn [fst snd] in Hsame.
    rewrite Hsame.
    rewrite bool_decide_eq_true_2 by reflexivity.
    cbn. now rewrite <- app_assoc.
Qed.

Lemma fold_visit_old_same new_dict (l : PyDict.dict Course) acc :
  (forall it, In it l -> PyDict.has_key (fst it) new_dict = true) ->
  fold_left (visit_old new_dict) l acc = acc.
Proof.
  revert acc. induction l as [|it l IH]; intros acc Hl; simpl; auto.
  rewrite IH by (intros it' Hit; apply Hl; now right).
  unfold visit_old. now rewrite (Hl it) by now left.
Qed.

(** Comparing a course list with itself puts every key under
    [no_change]. *)
Lemma compare_courses_same (courses : list Course) :
  _compare_courses courses courses
  = {| new := []; updated := []; removed := [];
       no_change := PyDict.keys (PyDict.comprehension get_name courses) |}.
Proof.
  unfold _compare_courses.
  set (d := PyDict.comprehension get_name courses).
  assert (Hget : forall it, In it d -> PyDict.get (fst it) d = Some (snd it)).
  { intros [k c] Hin. apply get_In_NoDup; [apply NoDup_keys_comprehension | exact Hin]. }
  rewrite fold_visit_old_same.
  - destruct (fold_visit_new_same d d no_changes Hget) as (Hn & Hu & Hr & Hc).
    destruct (fold_left (visit_new d) d no_changes); cbn in *. now subst.
  - intros it Hin. unfold PyDict.has_key. now rewrite Hget.
Qed.

End DetectTwice.

(** C9 (as amended). After [detect_changes] has run on a grades file with
    distinct student ids, running it again on the same grades returns no
    entry for any student, so no new, updated or removed course is reported
    and no notification is built; the grades were saved as the previous
    state by the first run.  No course is listed under [no_change] by this
    second run, because the comparison is skipped for a student whose
    courses did not change; [_compare_courses] itself, given the same list
    twice, puts every course name under [no_change] and nothing in the
    other three classes. *)
Theorem detect_changes_twice
    (fs : GradeChangeDetector.Files)
    (grades : PyDict.dict GradeChangeDetector.StudentData)
    (courses : list GradeChangeDetector.Course) :
  GradeChangeDetector.grades_file fs = Some grades ->
  NoDup (PyDict.keys grades) ->
  let fs1 := snd (GradeChangeDetector.detect_changes fs) in
  GradeChangeDetector.changes_file fs1
    = match grades with
      | [] => GradeChangeDetector.changes_file fs
      | _ => Some grades
      end /\
  GradeChangeDetector.detect_changes fs1 = ([], fs1) /\
  GradeChangeDetector.get_notifications fs1 = ([], fs1) /\
  GradeChangeDetector._compare_courses courses courses
    = {| GradeChangeDetector.new := [];
         GradeChangeDetector.updated := [];
         GradeChangeDetector.removed := [];
         GradeChangeDetector.no_change :=
           PyDict.keys (PyDict.comprehension GradeChangeDetector.get_name courses) |}.
Proof.
  intros Hg Hnd fs1.
  assert (Hagain : GradeChangeDetector.detect_changes fs1 = ([], fs1))
    by (apply (detect_changes_again fs grades); assumption).
  split.
  - subst fs1. rewrite (detect_changes_saved fs grades Hg).
    destruct grades; reflexivity.
  - split; [exact Hagain|]. split; [|apply compare_courses_same].
    unfold GradeChangeDetector.get_notifications. now rewrite Hagain.
Qed.

Lemma detect_changes_twice_witness :
  let fs1 := snd (GradeChangeDetector.detect_changes Examples.one_course_grades) in
  GradeChangeDetector.detect_changes fs1 = ([], fs1).
Proof.
  refine (proj1 (proj2 (detect_changes_twice Examples.one_course_grades _ [] eq_refl _))).
  repeat constructor; simpl; tauto.
Defined.

(** C9, as stated, fails: with one student whose only course is "Math",
    the second detection has no entry for the student, hence no ChangeSet
    in which "Math" is classified [no_change]. *)
Lemma detect_changes_twice_counterexample :
  let fs1 := snd (GradeChangeDetector.detect_changes Examples.one_course_grades) in
  ~ exists data : GradeChangeDetector.ChangeData,
      PyDict.get "s1" (fst (GradeChangeDetector.detect_changes fs1)) = Some data /\
      GradeChangeDetector.no_change (GradeChangeDetector.changes data) = ["Math"].
Proof.
  intros fs1 [data [Hget _]]. vm_compute in Hget. discriminate.
Qed.

(** ** The session of one fetch *)

Section Session.
Import Main.
Context {T : Type} {number : Number T}.
Variable w : World T.

Lemma count_snoc p (h : list event) e :
  count p (h ++ [e]) = count p h + (if p e then 1 else 0).
Proof. unfold count. rewrite filter_app, length_app. simpl. now destruct (p e). Qed.

Lemma count_app p (h h' : list event) :
  count p (h ++ h') = count p h + count p h'.
Proof. unfold count. now rewrite filter_app, length_app. Qed.

Lemma calls_snoc (h : list event) e :
  calls (h ++ [e]) = (calls h ++ (if is_Log e then [] else [e]))%list.
Proof. unfold calls. rewrite filter_app. simpl. now destruct (is_Log e). Qed.

End Session.

Arguments Main.count : simpl never.
Arguments Main.calls : simpl never.

(** Symbolic execution of a fetch: unfold the monad, then decide the next
    answer of the outside that the run is waiting for. *)
Ltac unfold_fetch :=
  unfold Main.fetch_student_data, Main._get_login_handler, Main._renew_session,
    Main._is_session_expired, Main.try_finally, Main.bind, Main.self,
    Main.get_state, Main.ret, Main.OMULogin, Main.emit, Main.modify, Main.login,
    Main.call, Main.close, Main.time_time, Main.get_page_content, Main.log,
    Main.set_login_handler, Main.set_session_start_time.

Ltac tidy_counts :=
  rewrite ?count_snoc; cbn [Main.is_Open Main.is_Login Main.is_Clock Main.is_GetPage
                             Main.is_Close Main.is_LoadSettings Main.is_Await
                             Main.is_Sleep Main.is_Log];
  rewrite ?Nat.add_0_r, ?Nat.add_1_r.

Ltac next_answer w :=
  match goal with
  | |- context [Main.login_reply w ?n] =>
      destruct (Main.login_reply w n) as [[|]|?] eqn:?
  | |- context [Main.page_reply w ?n ?b] =>
      destruct (Main.page_reply w n b) as [[|]|?] eqn:?
  | |- context [Main.close_reply w ?n] =>
      destruct (Main.close_reply w n) as [[]|?] eqn:?
  | |- context [Main.ge ?a ?b] => destruct (Main.ge a b) eqn:?
  | |- context [match ?x with Some _ => _ | None => _ end] => destruct x eqn:?
  end.

Ltac run_fetch w := unfold_fetch; cbn; repeat (next_answer w; cbn).

Section Fetch.
Import Main.
Context {T : Type} {number : Number T}.
Variable w : World T.

(** What a fetch leaves behind, whatever the outside answers. *)
Lemma fetch_student_data_frame (s : State T) :
  let (r, s') := fetch_student_data w s in
  same_globals s s' /\ _bot_running s' = _bot_running s /\ advanced s s' 1 1 0 0.
Proof.
  destruct s as [cfg las running [u p sap lh t0] tracking h].
  unfold same_globals, advanced.
  run_fetch w; tidy_counts;
    (split; [repeat split|]); (split; [reflexivity|]);
    (split; [rewrite <- ?app_assoc; eexists; reflexivity|]);
    repeat split; lia.
Qed.

(** A fetch raises only what the outside raised. *)
Lemma fetch_student_data_raises (s : State T) :
  errors_only w -> only_Exception (fst (fetch_student_data w s)).
Proof.
  intros Hw. destruct s as [cfg las running [u p sap lh t0] tracking h].
  run_fetch w; cbn; trivial;
    repeat match goal with
           | H : login_reply w ?n = Raise ?e |- _ =>
               let Hn := fresh in
               pose proof (proj1 (Hw n)) as Hn; rewrite H in Hn; clear H
           | H : page_reply w ?n ?b = Raise ?e |- _ =>
               let Hn := fresh in
               pose proof (proj1 (proj2 (Hw n)) b) as Hn; rewrite H in Hn; clear H
           | H : close_reply w ?n = Raise ?e |- _ =>
               let Hn := fresh in
               pose proof (proj2 (proj2 (Hw n))) as Hn; rewrite H in Hn; clear H
           end; assumption.
Qed.

End Fetch.

(** C5. On every path through [fetch_student_data], for every answer of
    the outside (a refused login, a refused renewal, a failed retrieval, an
    exception from any call), the run opens one handler and closes one
    handler, and the closing of this worker's handler is the last thing it
    does. *)
Theorem session_closed_on_every_path
    {T : Type} {number : Main.Number T} (w : Main.World T) (s : Main.State T) :
  let (r, s') := Main.fetch_student_data w s in
  Main.count Main.is_Open (Main.trace s') = S (Main.count Main.is_Open (Main.trace s)) /\
  Main.count Main.is_Close (Main.trace s') = S (Main.count Main.is_Close (Main.trace s)) /\
  last (Main.trace s') Main.Sleep = Main.Close (Main.username (Main.manager s)).
Proof.
  destruct s as [cfg las running [u p sap lh t0] tracking h].
  run_fetch w; tidy_counts; rewrite ?last_last; repeat split; reflexivity.
Qed.

(** C4. When the first login succeeds and, at the check that follows, the
    age of the session (the clock reading of the check minus the reading
    stored as start) is at least [SESSION_TIMEOUT], the fetch logs in
    exactly once more before it retrieves the page; when that renewal is
    refused, or raises, the page is not retrieved, and the fetch answers
    [False] (or lets the exception of the renewal, or of the closing,
    through). *)
Theorem expired_session_is_renewed_once
    {T : Type} {number : Main.Number T} (w : Main.World T) (s : Main.State T) :
  Main.login_reply w (Main.count Main.is_Login (Main.trace s)) = Main.Return true ->
  Main.ge (Main.sub (Main.time_reply w (S (Main.count Main.is_Clock (Main.trace s))))
                    (Main.time_reply w (Main.count Main.is_Clock (Main.trace s))))
          (Main.SESSION_TIMEOUT (Main.config s)) = true ->
  let u := Main.username (Main.manager s) in
  let renewal := Main.login_reply w (S (Main.count Main.is_Login (Main.trace s))) in
  let (r, s') := Main.fetch_student_data w s in
  match renewal with
  | Main.Return true =>
      Main.calls (Main.trace s')
      = (Main.calls (Main.trace s)
           ++ [Main.Open u; Main.Login u; Main.Clock; Main.Clock; Main.Login u;
               Main.Clock; Main.GetPage u (Main.sapid (Main.manager s));
               Main.Close u])%list
  | _ =>
      Main.calls (Main.trace s')
      = (Main.calls (Main.trace s)
           ++ [Main.Open u; Main.Login u; Main.Clock; Main.Clock; Main.Login u;
               Main.Close u])%list /\
      r = match Main.close_reply w (Main.count Main.is_Close (Main.trace s)) with
          | Main.Raise e => Main.Raise e
          | Main.Return _ =>
              match renewal with
              | Main.Raise e => Main.Raise e
              | Main.Return _ => Main.Return false
              end
          end
  end.
Proof.
  destruct s as [cfg las running [u p sap lh t0] tracking h].
  cbn [Main.trace Main.config Main.manager Main.username Main.sapid].
  intros Hlogin Hage. cbv zeta.
  unfold_fetch. cbn. tidy_counts. rewrite Hlogin. cbn. tidy_counts.
  rewrite Hage. cbn. tidy_counts.
  destruct (Main.login_reply w (S (Main.count Main.is_Login h))) as [[|]|e] eqn:Hrenew;
    cbn; tidy_counts;
    repeat (next_answer w; cbn; tidy_counts);
    rewrite ?calls_snoc; cbn [Main.is_Log app]; rewrite <- ?app_assoc; cbn [app];
    rewrite ?app_nil_r; try split; reflexivity.
Qed.

Lemma expired_session_is_renewed_once_witness :
  let (r, s') := Main.fetch_student_data Examples.refused_renewal Examples.fresh in
  Main.calls (Main.trace s')
  = [Main.Open "u1"; Main.Login "u1"; Main.Clock; Main.Clock; Main.Login "u1";
     Main.Close "u1"] /\
  r = Main.Return false.
Proof.
  exact (expired_session_is_renewed_once
           Examples.refused_renewal Examples.fresh eq_refl eq_refl).
Defined.

(** ** One worker *)

Arguments Main.fetch_student_data : simpl never.

Section Worker.
Import Main.
Context {T : Type} {number : Number T}.
Variable w : World T.

Lemma advanced_refl (s : State T) : advanced s s 0 0 0 0.
Proof.
  unfold advanced. split; [exists []; now rewrite app_nil_r|]. repeat split; lia.
Qed.

Lemma advanced_trans (s1 s2 s3 : State T) a b c d a' b' c' d' :
  advanced s1 s2 a b c d -> advanced s2 s3 a' b' c' d' ->
  advanced s1 s3 (a + a') (b + b') (c + c') (d + d').
Proof.
  unfold advanced. intros ([e1 E1]&?&?&?&?) ([e2 E2]&?&?&?&?).
  split; [exists (e1 ++ e2)%list; now rewrite E2, E1, app_assoc|].
  repeat split; lia.
Qed.

Lemma advanced_eq (s s' : State T) a b c d a' b' c' d' :
  advanced s s' a b c d -> a = a' -> b = b' -> c = c' -> d = d' ->
  advanced s s' a' b' c' d'.
Proof. intros A -> -> -> ->. exact A. Qed.

Lemma same_globals_refl (s : State T) : same_globals s s.
Proof. unfold same_globals. repeat split. Qed.

Lemma same_globals_trans (s1 s2 s3 : State T) :
  same_globals s1 s2 -> same_globals s2 s3 -> same_globals s1 s3.
Proof. unfold same_globals. intros (?&?&?) (?&?&?). repeat split; congruence. Qed.

(** The flag stays set when nobody clears it. *)
Lemma bot_running_unstopped (s : State T) :
  never_stopped w -> bot_running w s = (Return (_bot_running s), s).
Proof. intros Hns. unfold bot_running. now rewrite Hns. Qed.

(** A worker returns, whatever happens to its fetch. *)
Lemma process_user_returns (user_config : UserConfig) (s : State T) :
  errors_only w ->
  fst (process_user w user_config s) = Return tt.
Proof.
  intros Hw. unfold process_user, bind.
  destruct (bot_running w s) as [[running|e] s0] eqn:Hrun;
    [|unfold bot_running in Hrun; inversion Hrun].
  destruct running; cbn [negb]; [|reflexivity].
  destruct (forallb _ _); cbn [negb]; [|reflexivity].
  unfold log, emit, modify, try_except, bind, ret. cbn.
  match goal with
  | |- context [fetch_student_data w ?st] =>
      pose proof (fetch_student_data_raises w st Hw) as Hraise;
      destruct (fetch_student_data w st) as [[[|]|e] s1]
  end; cbn in *; try reflexivity.
  now rewrite Hraise.
Qed.

(** With the flag set and never cleared, a worker for a complete entry
    opens and closes one handler; for an incomplete one it only logs. *)
Lemma process_user_spec (user_config : UserConfig) (s : State T) :
  errors_only w -> never_stopped w -> _bot_running s = true ->
  exists s',
    process_user w user_config s = (Return tt, s') /\
    same_globals s s' /\ _bot_running s' = true /\
    advanced s s' (if complete user_config then 1 else 0)
                  (if complete user_config then 1 else 0) 0 0.
Proof.
  intros Hw Hns Hrun. unfold process_user, bind.
  rewrite (bot_running_unstopped s Hns), Hrun. cbn [negb].
  unfold complete.
  destruct (forallb _ _); cbn [negb].
  - unfold log, emit, modify, try_except, bind, ret. cbn.
    match goal with
    | |- context [fetch_student_data w ?st] =>
        pose proof (fetch_student_data_raises w st Hw) as Hraise;
        pose proof (fetch_student_data_frame w st) as Hframe;
        destruct (fetch_student_data w st) as [[[|]|e] s1]
    end; cbn in Hraise; try rewrite Hraise;
      destruct Hframe as (Hg & Hr & Ha);
      eexists; (split; [reflexivity|]);
      destruct s as [cfg las running mgr tracking h];
      unfold same_globals, advanced in *; cbn in *; revert Ha; tidy_counts;
      intros ([evs Hevs]&?&?&?&?);
      (split; [tauto|]); (split; [congruence|]);
      (split; [rewrite ?Hevs, <- ?app_assoc; eexists; reflexivity|]);
      repeat split; lia.
  - unfold log, emit, modify, ret. eexists. split; [reflexivity|].
    destruct s as [cfg las running mgr tracking h].
    unfold same_globals, advanced; cbn in *. tidy_counts.
    split; [repeat split|]. split; [assumption|].
    split; [eexists; reflexivity|]. repeat split; lia.
Qed.

End Worker.

(** ** The monitoring loop *)

Section Loop.
Import Main.
Context {T : Type} {number : Number T}.
Variable w : World T.
Hypothesis Hw : errors_only w.
Hypothesis Hns : never_stopped w.

Lemma submit_all_spec (user_list : list UserConfig) (s : State T) :
  _bot_running s = true ->
  exists futures s',
    submit_all w user_list s = (Return futures, s') /\
    Forall (fun future => future = Return tt) futures /\
    same_globals s s' /\ _bot_running s' = true /\
    advanced s s' (length (filter complete user_list))
                  (length (filter complete user_list)) 0 0.
Proof.
  revert s. induction user_list as [|user rest IH]; intros s Hrun.
  - exists [], s. split; [reflexivity|]. split; [constructor|].
    split; [apply same_globals_refl|]. split; [assumption | apply advanced_refl].
  - destruct (process_user_spec w user s Hw Hns Hrun) as (s1 & E1 & G1 & R1 & A1).
    destruct (IH s1 R1) as (futures & s2 & E2 & F2 & G2 & R2 & A2).
    exists (Return tt :: futures), s2.
    cbn [submit_all]. unfold bind, submit. rewrite E1, E2. unfold ret.
    split; [reflexivity|]. split; [now constructor|].
    split; [exact (same_globals_trans _ _ _ G1 G2)|]. split; [assumption|].
    pose proof (advanced_trans _ _ _ _ _ _ _ _ _ _ _ A1 A2) as A.
    cbn [filter]. destruct (complete user); exact A.
Qed.

Lemma wait_all_spec (futures : list (outcome unit)) (s : State T) :
  _bot_running s = true ->
  Forall (fun future => future = Return tt) futures ->
  exists s',
    wait_all w futures s = (Return tt, s') /\
    same_globals s s' /\ _bot_running s' = true /\ advanced s s' 0 0 0 0.
Proof.
  revert s. induction futures as [|future rest IH]; intros s Hrun Hall.
  - exists s. split; [reflexivity|].
    split; [apply same_globals_refl|]. split; [assumption | apply advanced_refl].
  - inversion Hall as [|? ? Hfuture Hrest]; subst.
    cbn [wait_all]. unfold bind at 1.
    rewrite (bot_running_unstopped w s Hns), Hrun. cbn [negb].
    unfold bind, try_except, future_result.
    set (s1 := if await_timeout w (count is_Await (trace s))
               then record (Log ERROR ("Kullanıcı işleme hatası: " ++ exn_text TimeoutError))
                           (record Await s)
               else record Await s).
    assert (Hs1 : same_globals s s1 /\ _bot_running s1 = true /\ advanced s s1 0 0 0 0).
    { subst s1. destruct s as [cfg las running mgr tracking h].
      unfold same_globals, advanced, record. cbn in *.
      destruct (await_timeout w _); cbn; tidy_counts;
        (split; [repeat split|]); (split; [assumption|]);
        (split; [rewrite <- ?app_assoc; eexists; reflexivity|]); repeat split; lia. }
    destruct Hs1 as (G1 & R1 & A1).
    destruct (IH s1 R1 Hrest) as (s2 & E2 & G2 & R2 & A2).
    exists s2.
    split.
    { subst s1. destruct (await_timeout w _); cbn; exact E2. }
    split; [exact (same_globals_trans _ _ _ G1 G2)|]. split; [assumption|].
    exact (advanced_trans _ _ _ _ _ _ _ _ _ _ _ A1 A2).
Qed.

Lemma sleep_loop_spec (remaining : nat) (s : State T) :
  _bot_running s = true ->
  exists s',
    sleep_loop w remaining s = (Return tt, s') /\
    same_globals s s' /\ _bot_running s' = true /\ advanced s s' 0 0 0 remaining.
Proof.
  revert s. induction remaining as [|n IH]; intros s Hrun.
  - exists s. split; [reflexivity|].
    split; [apply same_globals_refl|]. split; [assumption | apply advanced_refl].
  - cbn [sleep_loop]. unfold bind at 1.
    rewrite (bot_running_unstopped w s Hns), Hrun. cbn [negb].
    unfold bind, emit, modify.
    set (s1 := with_trace (trace s ++ [Sleep]) s).
    assert (Hs1 : same_globals s s1 /\ _bot_running s1 = true /\ advanced s s1 0 0 0 1).
    { subst s1. destruct s as [cfg las running mgr tracking h].
      unfold same_globals, advanced. cbn in *. tidy_counts.
      split; [repeat split|]. split; [assumption|].
      split; [eexists; reflexivity|]. repeat split; lia. }
    destruct Hs1 as (G1 & R1 & A1).
    destruct (IH s1 R1) as (s2 & E2 & G2 & R2 & A2).
    exists s2. split; [exact E2|].
    split; [exact (same_globals_trans _ _ _ G1 G2)|]. split; [assumption|].
    exact (advanced_trans _ _ _ _ _ _ _ _ _ _ _ A1 A2).
Qed.

(** One iteration with the flag set: the settings are loaded first, every
    entry of the list gets its worker, and the sleep lasts as long as the
    delay just loaded says. *)
Lemma iteration_spec (iteration_no : nat) (user_list : list UserConfig)
    (max_workers : nat) (s : State T) :
  0 < max_workers ->
  _bot_running s = true ->
  exists s' evs,
    iteration w iteration_no user_list max_workers s = (Return true, s') /\
    config s' = loaded_config w (count is_LoadSettings (trace s)) (config s) /\
    login_AUTO_SURVEY s' = login_AUTO_SURVEY s /\
    error_tracking s' = error_tracking s /\
    _bot_running s' = true /\
    trace s' = (trace s ++ LoadSettings :: evs)%list /\
    advanced s s' (length (filter complete user_list))
                  (length (filter complete user_list)) 1
                  (Z.to_nat (2 * REQUEST_DELAY (config s'))).
Proof.
  intros Hpool Hrun. unfold iteration, bind at 1, load_settings.
  set (c := loaded_config w (count is_LoadSettings (trace s)) (config s)).
  set (s1 := record LoadSettings (with_config c s)).
  unfold bind at 1, get_state. unfold bind at 1, log, emit, modify.
  unfold bind at 1, ThreadPoolExecutor.
  destruct max_workers as [|pool]; [lia|]. cbn [Nat.eqb]. unfold emit, modify.
  set (s2 := with_trace _ (with_trace _ s1)).
  assert (H2 : config s2 = c /\ login_AUTO_SURVEY s2 = login_AUTO_SURVEY s /\
               error_tracking s2 = error_tracking s /\ _bot_running s2 = true /\
               (exists e, trace s2
                          = (trace s ++ [LoadSettings; e; Executor (S pool)])%list) /\
               advanced s s2 0 0 1 0).
  { subst s2 s1. destruct s as [cfg las running mgr tracking h].
    unfold advanced, record. cbn in *. tidy_counts.
    repeat split; trivial; try lia;
      rewrite <- ?app_assoc; eexists; reflexivity. }
  destruct H2 as (C2 & L2 & T2 & R2 & [e2 E2] & A2).
  unfold bind at 1.
  destruct (submit_all_spec user_list s2 R2) as (futures & s3 & E3 & F3 & G3 & R3 & A3).
  rewrite E3. unfold bind at 1.
  destruct (wait_all_spec futures s3 R3 F3) as (s4 & E4 & G4 & R4 & A4).
  rewrite E4. unfold bind at 1.
  rewrite (bot_running_unstopped w s4 Hns), R4. cbn [negb].
  unfold bind at 1, get_state. unfold bind at 1, log, emit, modify.
  set (s5 := with_trace _ s4).
  assert (H5 : same_globals s4 s5 /\ _bot_running s5 = true /\ advanced s4 s5 0 0 0 0).
  { subst s5. destruct s4 as [cfg las running mgr tracking h].
    unfold same_globals, advanced. cbn in *. tidy_counts.
    split; [repeat split|]. split; [assumption|].
    split; [eexists; reflexivity|]. repeat split; lia. }
  destruct H5 as (G5 & R5 & A5).
  unfold bind at 1.
  destruct (sleep_loop_spec (Z.to_nat (2 * REQUEST_DELAY (config s4))) s5 R5)
    as (s6 & E6 & G6 & R6 & A6).
  rewrite E6. unfold ret.
  pose proof (same_globals_trans _ _ _ G3 (same_globals_trans _ _ _ G4
               (same_globals_trans _ _ _ G5 G6))) as (Gc & Gl & Gt).
  assert (C4 : config s4 = config s6).
  { destruct G5 as (C5 & _), G6 as (C6 & _). congruence. }
  pose proof (advanced_trans _ _ _ _ _ _ _ _ _ _ _ A3
               (advanced_trans _ _ _ _ _ _ _ _ _ _ _ A4
                  (advanced_trans _ _ _ _ _ _ _ _ _ _ _ A5 A6))) as A36.
  pose proof (advanced_trans _ _ _ _ _ _ _ _ _ _ _ A2 A36) as A.
  destruct A36 as ([evs Hevs] & _).
  exists s6, (e2 :: Executor (S pool) :: evs).
  split; [reflexivity|]. split; [congruence|]. split; [congruence|].
  split; [congruence|]. split; [assumption|].
  split; [rewrite Hevs, E2, <- app_assoc; reflexivity|].
  rewrite <- C4. eapply advanced_eq; [exact A | cbn; first [reflexivity | lia] ..].
Qed.

(** The loop with the flag set and never cleared is still going after
    any number of iterations, each of which loaded the settings and ran a
    worker for every complete entry. *)
Lemma monitoring_loop_spec (fuel iteration_no : nat) (user_list : list UserConfig)
    (max_workers : nat) (s : State T) :
  0 < max_workers ->
  _bot_running s = true ->
  exists s' slept,
    monitoring_loop w fuel iteration_no user_list max_workers s = (Return false, s') /\
    login_AUTO_SURVEY s' = login_AUTO_SURVEY s /\
    error_tracking s' = error_tracking s /\
    _bot_running s' = true /\
    advanced s s' (fuel * length (filter complete user_list))
                  (fuel * length (filter complete user_list)) fuel slept.
Proof.
  intros Hpool.
  revert iteration_no s. induction fuel as [|fuel IH]; intros iteration_no s Hrun.
  - exists s, 0. split; [reflexivity|].
    repeat (split; [first [reflexivity | assumption]|]). apply advanced_refl.
  - cbn [monitoring_loop]. unfold bind at 1.
    rewrite (bot_running_unstopped w s Hns), Hrun. cbn [negb].
    unfold bind at 1.
    destruct (iteration_spec (S iteration_no) user_list max_workers s Hpool Hrun)
      as (s1 & evs & E1 & _ & L1 & T1 & R1 & _ & A1).
    rewrite E1.
    destruct (IH (S iteration_no) s1 R1) as (s2 & slept & E2 & L2 & T2 & R2 & A2).
    rewrite E2. eexists s2, _.
    split; [reflexivity|]. split; [congruence|]. split; [congruence|].
    split; [assumption|].
    pose proof (advanced_trans _ _ _ _ _ _ _ _ _ _ _ A1 A2) as A.
    eapply advanced_eq; [exact A | cbn; first [reflexivity | lia] ..].
Qed.

End Loop.

(** ** The pools and the reloads of a run *)

Section Silent.
Import Main.
Context {T : Type} {number : Number T}.
Variable w : World T.
Variable p : event -> bool.
Hypothesis Hp : forall e : event, p e = true -> is_LoadSettings e || is_Executor e = true.

Lemma quiet_event (e : event) :
  is_LoadSettings e || is_Executor e = false -> p e = false.
Proof.
  intros He. destruct (p e) eqn:E; [|reflexivity].
  apply Hp in E. congruence.
Qed.

Lemma silent_ret {A : Type} (a : A) : silent (T:=T) p (ret a).
Proof. intros s. reflexivity. Qed.

Lemma silent_raise {A : Type} (e : exn) : silent (T:=T) p (raise (A:=A) e).
Proof. intros s. reflexivity. Qed.

Lemma silent_get_state : silent (T:=T) p get_state.
Proof. intros s. reflexivity. Qed.

Lemma silent_bind {A B : Type} (m : M T A) (k : A -> M T B) :
  silent p m -> (forall a, silent p (k a)) -> silent p (bind m k).
Proof.
  intros Hm Hk s. specialize (Hm s). unfold bind.
  destruct (m s) as [[a|e] s1]; cbn [snd] in *; [|exact Hm].
  now rewrite (Hk a s1).
Qed.

Lemma silent_modify (f : State T -> State T) :
  (forall s, trace (f s) = trace s) -> silent p (modify f).
Proof. intros Hf s. cbn. now rewrite Hf. Qed.

Lemma silent_record (e : event) (s : State T) :
  is_LoadSettings e || is_Executor e = false ->
  filter p (trace (record e s)) = filter p (trace s).
Proof.
  intros He. unfold record. cbn [trace with_trace].
  rewrite filter_app. cbn [filter]. rewrite (quiet_event e He). apply app_nil_r.
Qed.

Lemma silent_emit (e : event) :
  is_LoadSettings e || is_Executor e = false -> silent (T:=T) p (emit e).
Proof. intros He s. exact (silent_record e s He). Qed.

Lemma silent_call {A : Type} (e : event) (kind : event -> bool)
    (reply : nat -> outcome A) :
  is_LoadSettings e || is_Executor e = false -> silent (T:=T) p (call e kind reply).
Proof. intros He s. exact (silent_record e s He). Qed.

Lemma silent_try_finally {A : Type} (body : M T A) (final : M T unit) :
  silent p body -> silent p final -> silent p (try_finally body final).
Proof.
  intros Hb Hf s. specialize (Hb s). unfold try_finally.
  destruct (body s) as [r s1]. specialize (Hf s1).
  destruct (final s1) as [[u|e] s2]; cbn [snd] in *; congruence.
Qed.

Lemma silent_try_except (body : M T unit) (handler : exn -> M T unit) :
  silent p body -> (forall e, silent p (handler e)) -> silent p (try_except body handler).
Proof.
  intros Hb Hh s. specialize (Hb s). unfold try_except.
  destruct (body s) as [[a|e] s1]; cbn [snd] in *; [exact Hb|].
  destruct (is_Exception e); [|exact Hb]. now rewrite (Hh e s1).
Qed.

Lemma silent_bot_running : silent p (bot_running w).
Proof. intros s. unfold bot_running. now destruct (stop_requested w _). Qed.

Ltac silence :=
  repeat first
    [ apply silent_ret
    | apply silent_raise
    | apply silent_get_state
    | apply silent_bot_running
    | apply silent_emit; reflexivity
    | apply silent_call; reflexivity
    | apply silent_modify; intros; reflexivity
    | apply silent_bind; [|intros ?]
    | apply silent_try_finally
    | apply silent_try_except; [|intros ?]
    | match goal with
      | |- silent _ (if ?b then _ else _) => destruct b
      | |- silent _ (match ?x with _ => _ end) => destruct x
      end ].

Lemma silent_fetch_student_data : silent p (fetch_student_data w).
Proof.
  unfold fetch_student_data, _get_login_handler, _renew_session, _is_session_expired,
    self, OMULogin, login, get_page_content, close, time_time, set_login_handler,
    set_session_start_time, log.
  silence.
Qed.

Lemma silent_process_user (user_config : UserConfig) :
  silent p (process_user w user_config).
Proof.
  unfold process_user, log. silence.
Qed.

Lemma silent_submit_all (user_list : list UserConfig) :
  silent p (submit_all w user_list).
Proof.
  induction user_list as [|user rest IH]; cbn [submit_all]; [apply silent_ret|].
  apply silent_bind.
  - intros s. unfold submit. pose proof (silent_process_user user s) as H.
    destruct (process_user w user s). exact H.
  - intros future. apply silent_bind; [exact IH | intros; apply silent_ret].
Qed.

Lemma silent_wait_all (futures : list (outcome unit)) : silent p (wait_all w futures).
Proof.
  induction futures as [|future rest IH]; cbn [wait_all]; [apply silent_ret|].
  apply silent_bind; [apply silent_bot_running|]. intros running.
  destruct (negb running); [apply silent_ret|].
  apply silent_bind; [|intros; exact IH].
  apply silent_try_except; [|intros; apply silent_emit; reflexivity].
  intros s. unfold future_result.
  destruct (await_timeout w _); cbn [snd]; now apply silent_record.
Qed.

Lemma silent_sleep_loop (remaining : nat) : silent p (sleep_loop w remaining).
Proof.
  induction remaining as [|n IH]; cbn [sleep_loop]; [apply silent_ret|].
  apply silent_bind; [apply silent_bot_running|]. intros running.
  destruct (negb running); [apply silent_ret|].
  apply silent_bind; [apply silent_emit; reflexivity | intros; exact IH].
Qed.

Lemma silent_stopped : silent (T:=T) p stopped.
Proof. unfold stopped, log. silence. Qed.

Lemma adds_silent {A : Type} (m : M T A) : silent p m -> adds p [] m.
Proof. intros Hm s. now rewrite app_nil_r. Qed.

Lemma adds_eq {A : Type} (m : M T A) (evs evs' : list event) :
  adds p evs m -> evs = evs' -> adds p evs' m.
Proof. now intros Hm <-. Qed.

(** After a computation that always returns. *)
Lemma adds_bind {A B : Type} (m : M T A) (k : A -> M T B) (evs1 evs2 : list event) :
  (forall s, exists a, fst (m s) = Return a) ->
  adds p evs1 m -> (forall a, adds p evs2 (k a)) -> adds p (evs1 ++ evs2) (bind m k).
Proof.
  intros Hret Hm Hk s. specialize (Hm s). destruct (Hret s) as [a Ha].
  unfold bind. destruct (m s) as [r s1]. cbn [fst snd] in *. subst r.
  now rewrite (Hk a s1), Hm, app_assoc.
Qed.

Lemma adds_emit (e : event) : adds (T:=T) p (filter p [e]) (emit e).
Proof. intros s. cbn [emit modify snd trace with_trace]. apply filter_app. Qed.

Lemma adds_iteration (iteration_no : nat) (user_list : list UserConfig)
    (max_workers : nat) :
  0 < max_workers ->
  adds p (filter p [LoadSettings; Executor max_workers])
       (iteration w iteration_no user_list max_workers).
Proof.
  intros Hpool. unfold iteration.
  eapply adds_eq.
  - apply (adds_bind _ _ (filter p [LoadSettings])).
    + intros s. exists tt. reflexivity.
    + intros s. unfold load_settings, record. cbn [snd trace with_trace with_config].
      apply filter_app.
    + intros _. apply (adds_bind _ _ []).
      * intros s. exists s. reflexivity.
      * apply adds_silent, silent_get_state.
      * intros s0. apply (adds_bind _ _ []).
        -- intros s. exists tt. reflexivity.
        -- apply adds_silent, silent_emit. reflexivity.
        -- intros _. apply (adds_bind _ _ (filter p [Executor max_workers]) []).
           ++ intros s. exists tt. unfold ThreadPoolExecutor.
              destruct max_workers; [lia | reflexivity].
           ++ unfold ThreadPoolExecutor. destruct max_workers; [lia|]. apply adds_emit.
           ++ intros _. apply adds_silent. apply silent_bind; [apply silent_submit_all|].
              intros futures. apply silent_bind; [apply silent_wait_all|]. intros _.
              apply silent_bind; [apply silent_bot_running|]. intros running.
              destruct (negb running); [apply silent_ret|].
              apply silent_bind; [apply silent_get_state|]. intros s1.
              apply silent_bind; [apply silent_emit; reflexivity|]. intros _.
              apply silent_bind; [apply silent_sleep_loop | intros; apply silent_ret].
  - cbn [filter app].
    destruct (p LoadSettings), (p (Executor max_workers)); reflexivity.
Qed.

End Silent.

Section Pools.
Import Main.
Context {T : Type} {number : Number T}.
Variable w : World T.

Lemma only_Executor (e : event) :
  is_Executor e = true -> is_LoadSettings e || is_Executor e = true.
Proof. intros ->. apply orb_true_r. Qed.

Lemma only_LoadSettings (e : event) :
  is_LoadSettings e = true -> is_LoadSettings e || is_Executor e = true.
Proof. now intros ->. Qed.

(** Every iteration that the loop starts creates one pool, of the size
    the loop was given. *)
Lemma monitoring_loop_pools (fuel iteration_no : nat) (user_list : list UserConfig)
    (max_workers : nat) (s : State T) :
  0 < max_workers ->
  let s' := snd (monitoring_loop w fuel iteration_no user_list max_workers s) in
  exists k : nat,
    k <= fuel /\
    filter is_Executor (trace s')
      = (filter is_Executor (trace s) ++ repeat (Executor max_workers) k)%list /\
    count is_LoadSettings (trace s') = count is_LoadSettings (trace s) + k.
Proof.
  intros Hpool. revert iteration_no s.
  induction fuel as [|fuel IH]; intros iteration_no s; cbn [monitoring_loop].
  - exists 0. cbn. rewrite app_nil_r. repeat split; lia.
  - unfold bind.
    pose proof (silent_bot_running w is_Executor s) as He0.
    pose proof (silent_bot_running w is_LoadSettings s) as Hl0.
    destruct (bot_running w s) as [[running|e] s0] eqn:Hrun;
      [|unfold bot_running in Hrun; inversion Hrun].
    cbn [snd] in He0, Hl0.
    destruct running; cbn [negb].
    + pose proof (adds_iteration w is_Executor only_Executor (S iteration_no)
                    user_list max_workers Hpool s0) as He1.
      pose proof (adds_iteration w is_LoadSettings only_LoadSettings (S iteration_no)
                    user_list max_workers Hpool s0) as Hl1.
      cbn [filter is_Executor is_LoadSettings] in He1, Hl1.
      destruct (iteration w (S iteration_no) user_list max_workers s0)
        as [[go_on|e] s1]; cbn [snd] in He1, Hl1.
      * destruct go_on; cbv beta iota.
        -- destruct (IH (S iteration_no) s1) as (k & Hk & He2 & Hl2).
           exists (S k). split; [lia|]. split.
           ++ rewrite He2, He1, He0, <- app_assoc. reflexivity.
           ++ rewrite Hl2. unfold count. rewrite Hl1, length_app, Hl0. cbn. lia.
        -- exists 1. split; [lia|]. split.
           ++ cbn [snd ret]. rewrite He1, He0. reflexivity.
           ++ cbn [snd ret]. unfold count. rewrite Hl1, length_app, Hl0. cbn. lia.
      * exists 1. split; [lia|]. split.
        -- cbn [snd]. rewrite He1, He0. reflexivity.
        -- cbn [snd]. unfold count. rewrite Hl1, length_app, Hl0. cbn. lia.
    + exists 0. cbn [snd ret repeat]. rewrite app_nil_r. unfold count.
      rewrite He0, Hl0. repeat split; lia.
Qed.

(** The pools of a whole run: one per iteration started, each of the
    size computed from the account list read before the loop. *)
Lemma run_monitoring_loop_pools (fuel : nat) (s : State T) :
  let listed := users_file w (count is_LoadSettings (trace s)) in
  let accounts := match listed with [] => users_user_list | _ => listed end in
  let s' := snd (run_monitoring_loop w fuel s) in
  exists k : nat,
    k <= fuel /\
    filter is_Executor (trace s')
      = (filter is_Executor (trace s)
           ++ repeat (Executor (Nat.min 3 (length accounts))) k)%list /\
    count is_LoadSettings (trace s') = count is_LoadSettings (trace s) + k.
Proof.
  intros listed accounts s'.
  assert (E : s' = snd (run_monitoring_loop w fuel s)) by reflexivity.
  clearbody s'.
  destruct s as [cfg las running mgr tracking h].
  cbn [trace] in listed |- *.
  unfold run_monitoring_loop, bind at 1, modify in E.
  unfold bind at 1, log, emit, modify in E.
  unfold bind at 1, load_users_from_env, record in E.
  cbn [trace with_trace with_running] in E. revert E. tidy_counts. intros E.
  fold listed in E. fold accounts in E.
  assert (Hmatch : forall (A : Type) (a b : A),
             match accounts with [] => a | _ :: _ => b end = b).
  { intros A a b. subst accounts. destruct listed; reflexivity. }
  assert (Hpool : 0 < Nat.min 3 (length accounts)).
  { subst accounts. destruct listed; cbn; lia. }
  rewrite Hmatch in E. unfold bind at 1, emit, modify in E.
  cbn [trace with_trace] in E.
  match type of E with
  | context [monitoring_loop w fuel 0 accounts ?mw ?st] =>
      destruct (monitoring_loop_pools fuel 0 accounts mw st Hpool)
        as (k & Hk & He & Hl);
      destruct (monitoring_loop w fuel 0 accounts mw st) as [[[|]|e] s1]
  end; cbn [snd trace with_trace] in He, Hl; revert He Hl;
    unfold count; rewrite !filter_app;
    cbn [filter is_Executor is_LoadSettings]; rewrite !app_nil_r; intros He Hl;
    exists k; (split; [exact Hk|]); subst s'.
  - pose proof (silent_bind is_Executor stopped (fun _ => ret true)
                  (silent_stopped is_Executor only_Executor)
                  (fun _ => silent_ret is_Executor true) s1) as H1.
    pose proof (silent_bind is_LoadSettings stopped (fun _ => ret true)
                  (silent_stopped is_LoadSettings only_LoadSettings)
                  (fun _ => silent_ret is_LoadSettings true) s1) as H2.
    rewrite H1, H2. split; assumption.
  - cbn [snd]. split; assumption.
  - assert (Hend : forall (q : event -> bool)
                     (Hq : forall e, q e = true -> is_LoadSettings e || is_Executor e = true),
               filter q (trace (snd
                 (if is_KeyboardInterrupt e
                  then bind (log INFO "Bot kullanıcı tarafından durduruldu.")
                         (fun _ => bind stopped (fun _ => ret true)) s1
                  else if is_Exception e
                  then bind (log CRITICAL
                               ("Ana izleme döngüsünde kritik hata: " ++ exn_text e))
                         (fun _ => bind stopped (fun _ => ret true)) s1
                  else bind stopped (fun _ => raise e) s1)))
               = filter q (trace s1)).
    { intros q Hq.
      destruct (is_KeyboardInterrupt e); [|destruct (is_Exception e)].
      - apply (silent_bind q); [apply silent_emit; [exact Hq | reflexivity]|].
        intros _. apply silent_bind; [now apply silent_stopped | intros; apply silent_ret].
      - apply (silent_bind q); [apply silent_emit; [exact Hq | reflexivity]|].
        intros _. apply silent_bind; [now apply silent_stopped | intros; apply silent_ret].
      - apply (silent_bind q); [now apply silent_stopped | intros; apply silent_raise]. }
    pose proof (Hend is_Executor only_Executor) as H1.
    pose proof (Hend is_LoadSettings only_LoadSettings) as H2.
    unfold log, emit, modify in H1, H2. rewrite H1, H2. split; assumption.
Qed.

End Pools.

(** ** The whole run *)

Section Run.
Import Main.
Context {T : Type} {number : Number T}.
Variable w : World T.
Hypothesis Hw : errors_only w.
Hypothesis Hns : never_stopped w.

(** The list that [run_monitoring_loop] works on, read once when it is
    called in state [s]. *)
Lemma run_monitoring_loop_spec (fuel : nat) (s : State T) :
  let loaded := users_file w (count is_LoadSettings (trace s)) in
  let user_list := match loaded with [] => users_user_list | _ => loaded end in
  let workers := length (filter complete user_list) in
  exists s',
    run_monitoring_loop w fuel s = (Return false, s') /\
    login_AUTO_SURVEY s' = login_AUTO_SURVEY s /\
    error_tracking s' = error_tracking s /\
    count is_LoadSettings (trace s') = count is_LoadSettings (trace s) + fuel /\
    count is_Open (trace s') = count is_Open (trace s) + fuel * workers /\
    count is_Close (trace s') = count is_Close (trace s) + fuel * workers.
Proof.
  destruct s as [cfg las running mgr tracking h].
  intros loaded user_list workers. cbn [trace] in loaded.
  unfold run_monitoring_loop, bind at 1, modify. unfold bind at 1, log, emit, modify.
  unfold bind at 1, load_users_from_env, record.
  cbn [trace with_trace with_running]. tidy_counts.
  fold loaded. fold user_list.
  assert (Hmatch : forall (A : Type) (a b : A),
             match user_list with [] => a | _ :: _ => b end = b).
  { intros A a b. subst user_list. destruct loaded; reflexivity. }
  assert (Hpool : 0 < Nat.min 3 (length user_list)).
  { subst user_list. destruct loaded; cbn; lia. }
  rewrite Hmatch. unfold bind at 1, emit, modify.
  match goal with
  | |- context [monitoring_loop w fuel 0 user_list ?mw ?st] =>
      destruct (monitoring_loop_spec w Hw Hns fuel 0 user_list mw st Hpool eq_refl)
        as (s' & slept & E & L & Tr & R & ([evs Hevs] & Ao & Ac & Al & As))
  end.
  rewrite E. exists s'.
  cbn [trace with_trace with_running login_AUTO_SURVEY error_tracking] in *.
  revert Ao Ac Al. tidy_counts. intros Ao Ac Al.
  subst workers. repeat split; assumption.
Qed.

End Run.

(** C6. Whatever fails in a worker (a refused login or renewal, a failed
    retrieval, an exception of class [Exception] from any call to the
    portal), [process_user] returns normally; and as long as nobody stops
    the bot, the loop is still going after any number of iterations, each
    of which started (it loaded the settings) and ran a worker to its end
    for every complete entry of the user list (one handler opened and one
    closed per worker). *)
Theorem worker_failures_are_contained
    {T : Type} {number : Main.Number T} (w : Main.World T) :
  Main.errors_only w ->
  Main.never_stopped w ->
  (forall (user_config : Main.UserConfig) (s : Main.State T),
     fst (Main.process_user w user_config s) = Main.Return tt) /\
  (forall (fuel : nat) (s : Main.State T),
     let loaded := Main.users_file w (Main.count Main.is_LoadSettings (Main.trace s)) in
     let user_list := match loaded with [] => Main.users_user_list | _ => loaded end in
     let workers := length (filter Main.complete user_list) in
     let (r, s') := Main.run_monitoring_loop w fuel s in
     r = Main.Return false /\
     Main.count Main.is_LoadSettings (Main.trace s')
       = Main.count Main.is_LoadSettings (Main.trace s) + fuel /\
     Main.count Main.is_Open (Main.trace s')
       = Main.count Main.is_Open (Main.trace s) + fuel * workers /\
     Main.count Main.is_Close (Main.trace s')
       = Main.count Main.is_Close (Main.trace s) + fuel * workers).
Proof.
  intros Hw Hns. split.
  - intros user_config s. now apply process_user_returns.
  - intros fuel s loaded user_list workers.
    destruct (run_monitoring_loop_spec w Hw Hns fuel s)
      as (s' & E & _ & _ & Hl & Ho & Hc).
    rewrite E. repeat split; assumption.
Qed.

Lemma raising_portal_errors_only : Main.errors_only Examples.raising_portal.
Proof.
  intros n. repeat split; cbn; trivial.
  destruct (Nat.eqb n 0); cbn; trivial.
Defined.

Lemma worker_failures_are_contained_witness :
  fst (Main.process_user Examples.raising_portal Examples.u1 Examples.fresh)
    = Main.Return tt /\
  let (r, s') := Main.run_monitoring_loop Examples.raising_portal 2 Examples.fresh in
  r = Main.Return false /\
  Main.count Main.is_LoadSettings (Main.trace s') = 2 /\
  Main.count Main.is_Open (Main.trace s') = 4 /\
  Main.count Main.is_Close (Main.trace s') = 4.
Proof.
  pose proof (worker_failures_are_contained Examples.raising_portal
                raising_portal_errors_only (fun n => eq_refl)) as [Hworker Hloop].
  split.
  - exact (Hworker Examples.u1 Examples.fresh).
  - exact (Hloop 2 Examples.fresh).
Defined.

(** ** What a worker does with a failed fetch *)

(** C7 (as amended). A worker that goes on to fetch (the flag is set and
    the entry is complete) ends, after the events of the fetch, with a
    WARNING record when the fetch answered [False] and with an ERROR record
    carrying the exception text when it raised an [Exception]; it adds
    nothing after a successful fetch.  In every case the content of
    [error_tracking.json] is what it was before: the worker logs the
    failure and records no alert. *)
Theorem failed_fetch_is_logged_and_not_recorded
    {T : Type} {number : Main.Number T} (w : Main.World T)
    (user_config : Main.UserConfig) (s : Main.State T) :
  Main.stop_requested w (length (Main.trace s)) = false ->
  Main._bot_running s = true ->
  Main.complete user_config = true ->
  let username := default "" (Main.user_name user_config) in
  let started :=
    Main.with_manager
      (Main.new_SessionManager username
         (default "" (Main.user_password user_config))
         (default "" (Main.user_sapid user_config)))
      (Main.record (Main.Log Main.INFO (username ++ " öğrencisinin verisi işleniyor...")) s) in
  let (fetched, s1) := Main.fetch_student_data w started in
  let (r, s') := Main.process_user w user_config s in
  Main.error_tracking s' = Main.error_tracking s /\
  Main.trace s'
  = (Main.trace s1 ++
       match fetched with
       | Main.Return true => []
       | Main.Return false =>
           [Main.Log Main.WARNING
              (username ++
                 " için veri çekme başarısız - muhtemelen anket var veya hata oluştu")]
       | Main.Raise e =>
           if Main.is_Exception e
           then [Main.Log Main.ERROR
                   (username ++ " için işlem sırasında hata oluştu: " ++ Main.exn_text e)]
           else []
       end)%list.
Proof.
  intros Hstop Hrun Hcomplete username started.
  pose proof (fetch_student_data_frame w started) as Hframe.
  unfold Main.process_user, Main.bind at 1, Main.bot_running.
  rewrite Hstop, Hrun. cbn [negb].
  unfold Main.complete in Hcomplete. cbv zeta. rewrite Hcomplete. cbn [negb].
  unfold Main.bind at 1, Main.log, Main.emit, Main.modify.
  unfold Main.try_except, Main.bind at 1, Main.modify.
  unfold Main.bind at 1.
  change (Main.with_manager _ (Main.with_trace _ s)) with started.
  fold username.
  destruct (Main.fetch_student_data w started) as [[[|]|e] s1];
    destruct Hframe as ((_ & _ & Htrack) & _ & _);
    cbn [negb]; unfold Main.ret, Main.log, Main.emit, Main.modify;
    try destruct (Main.is_Exception e);
    cbn [Main.error_tracking Main.trace Main.with_trace];
    rewrite ?app_nil_r; (split; [exact Htrack | reflexivity]).
Qed.

Lemma failed_fetch_is_logged_and_not_recorded_witness :
  let s' := snd (Main.process_user Examples.refused_renewal Examples.u1 Examples.fresh) in
  Main.error_tracking s' = None /\
  last (Main.trace s') Main.Sleep
  = Main.Log Main.WARNING
      "u1 için veri çekme başarısız - muhtemelen anket var veya hata oluştu".
Proof.
  generalize (failed_fetch_is_logged_and_not_recorded
                Examples.refused_renewal Examples.u1 Examples.fresh
                eq_refl eq_refl eq_refl).
  vm_compute. intros [Htrack Htrace]. split; reflexivity.
Defined.

(** C7, as stated, fails: the renewal of student "u1" is refused, the
    fetch cycle fails and the worker logs it, and afterwards the alert
    store has no fetch-error record for "u1". *)
Lemma failed_fetch_is_recorded_counterexample :
  let s' := snd (Main.process_user Examples.refused_renewal Examples.u1 Examples.fresh) in
  ~ (In (Main.Log Main.ERROR "u1 için oturum yenileme başarısız!") (Main.trace s') ->
     is_Some (ErrorTracker.get_error_alerts (Main.error_tracking s') !! "u1")).
Proof.
  intros s' Hclaim.
  assert (Hfailed : In (Main.Log Main.ERROR "u1 için oturum yenileme başarısız!")
                       (Main.trace s')).
  { vm_compute. tauto. }
  apply Hclaim in Hfailed. destruct Hfailed as [alert Halert].
  vm_compute in Halert. discriminate.
Qed.

(** ** What an iteration reloads *)

(** C8 (as amended). Every iteration of the loop begins with
    [load_settings]: its first event is the reload, after it the variables
    of config.py hold what the settings file says at that moment (the old
    value where the file is silent), and the sleep that ends the iteration
    lasts for the fetch interval just loaded, so a change of the interval
    made between two iterations is in force in the next one.  The account
    list and the pool size are not reloaded: the iteration runs one worker
    for every complete entry of the list it is given and creates one pool,
    of the size it is given; [run_monitoring_loop] gives every iteration
    the list it read once before the loop, and every pool it creates has
    the size [min(3, len(user_list))] computed from that list. *)
Theorem settings_are_reloaded_each_iteration
    {T : Type} {number : Main.Number T} (w : Main.World T)
    (iteration_no : nat) (user_list : list Main.UserConfig) (max_workers : nat)
    (fuel : nat) (s : Main.State T) :
  Main.errors_only w ->
  Main.never_stopped w ->
  Main._bot_running s = true ->
  0 < max_workers ->
  let n := Main.count Main.is_LoadSettings (Main.trace s) in
  let loaded := Main.loaded_config w n (Main.config s) in
  (let (r, s') := Main.iteration w iteration_no user_list max_workers s in
   r = Main.Return true /\
   nth (length (Main.trace s)) (Main.trace s') Main.Sleep = Main.LoadSettings /\
   Main.config s' = loaded /\
   Main.REQUEST_DELAY loaded
     = match Main.settings_file w n with
       | Some settings =>
           default (Main.REQUEST_DELAY (Main.config s)) (Main.request_delay settings)
       | None => Main.REQUEST_DELAY (Main.config s)
       end /\
   Main.count Main.is_LoadSettings (Main.trace s')
     = S (Main.count Main.is_LoadSettings (Main.trace s)) /\
   Main.count Main.is_Sleep (Main.trace s')
     = Main.count Main.is_Sleep (Main.trace s)
       + Z.to_nat (2 * Main.REQUEST_DELAY loaded) /\
   Main.count Main.is_Open (Main.trace s')
     = Main.count Main.is_Open (Main.trace s)
       + length (filter Main.complete user_list) /\
   filter Main.is_Executor (Main.trace s')
     = (filter Main.is_Executor (Main.trace s) ++ [Main.Executor max_workers])%list) /\
  (let listed := Main.users_file w n in
   let accounts := match listed with [] => Main.users_user_list | _ => listed end in
   let (r, s') := Main.run_monitoring_loop w fuel s in
   r = Main.Return false /\
   Main.count Main.is_LoadSettings (Main.trace s')
     = Main.count Main.is_LoadSettings (Main.trace s) + fuel /\
   Main.count Main.is_Open (Main.trace s')
     = Main.count Main.is_Open (Main.trace s)
       + fuel * length (filter Main.complete accounts) /\
   filter Main.is_Executor (Main.trace s')
     = (filter Main.is_Executor (Main.trace s)
          ++ repeat (Main.Executor (Nat.min 3 (length accounts))) fuel)%list).
Proof.
  intros Hw Hns Hrun Hpool n loaded. split.
  - pose proof (adds_iteration w Main.is_Executor only_Executor iteration_no
                  user_list max_workers Hpool s) as Hpools.
    cbn [filter Main.is_Executor] in Hpools.
    destruct (iteration_spec w Hw Hns iteration_no user_list max_workers s Hpool Hrun)
      as (s' & evs & E & Hc & _ & _ & _ & Htrace & (_ & Ho & _ & Hl & Hs)).
    rewrite E in Hpools |- *. cbn [snd] in Hpools.
    fold n in Hc. fold loaded in Hc. rewrite Hc in Hs.
    split; [reflexivity|].
    split; [rewrite Htrace, app_nth2, Nat.sub_diag by lia; reflexivity|].
    split; [exact Hc|].
    split; [subst loaded; unfold Main.loaded_config;
            destruct (Main.settings_file w n); reflexivity|].
    split; [lia|]. split; [exact Hs|]. split; [exact Ho | exact Hpools].
  - intros listed accounts.
    destruct (run_monitoring_loop_pools w fuel s) as (k & _ & Hpools & Hk).
    destruct (run_monitoring_loop_spec w Hw Hns fuel s)
      as (s' & E & _ & _ & Hl & Ho & _).
    rewrite E in Hpools, Hk |- *. cbn [snd] in Hpools, Hk.
    assert (k = fuel) as -> by lia.
    split; [reflexivity|]. split; [exact Hl|]. split; [exact Ho | exact Hpools].
Qed.

Lemma growing_accounts_errors_only : Main.errors_only Examples.growing_accounts.
Proof. intros n. repeat split; cbn; trivial. Defined.

Lemma settings_are_reloaded_each_iteration_witness :
  let (r, s') := Main.iteration Examples.growing_accounts 1 [Examples.u1] 1 Examples.fresh in
  r = Main.Return true /\
  Main.REQUEST_DELAY (Main.config s') = 1%Z /\
  Main.count Main.is_Sleep (Main.trace s') = 2 /\
  filter Main.is_Executor (Main.trace s') = [Main.Executor 1].
Proof.
  generalize (proj1 (settings_are_reloaded_each_iteration
                       Examples.growing_accounts 1 [Examples.u1] 1 0 Examples.fresh
                       growing_accounts_errors_only (fun n => eq_refl) eq_refl
                       (Nat.lt_0_succ 0))).
  vm_compute. intros H. repeat split; reflexivity.
Defined.

(** C8, as stated, fails for the account list and for the maximum
    concurrency: the users file holds "u1" when the loop starts and "u1"
    and "u2" from the first iteration on, the second iteration starts (the
    settings are loaded twice), and yet no handler is ever opened for "u2",
    and no pool is ever created with the size [min(3, 2)] that two accounts
    call for: both pools have the size 1. *)
Lemma account_list_is_reloaded_counterexample :
  let s' := snd (Main.run_monitoring_loop Examples.growing_accounts 2 Examples.fresh) in
  Main.count Main.is_LoadSettings (Main.trace s') = 2 /\
  ~ (forall user : Main.UserConfig,
       In user (Main.users_file Examples.growing_accounts 1) ->
       In (Main.Open (default "" (Main.user_name user))) (Main.trace s')) /\
  ~ In (Main.Executor
          (Nat.min 3 (length (Main.users_file Examples.growing_accounts 1))))
       (Main.trace s') /\
  filter Main.is_Executor (Main.trace s') = [Main.Executor 1; Main.Executor 1].
Proof.
  vm_compute. split; [reflexivity|]. split; [|split; [|reflexivity]].
  - intros Hclaim.
    specialize (Hclaim Examples.u2 (or_intror (or_introl eq_refl))).
    vm_compute in Hclaim.
    repeat (destruct Hclaim as [Hclaim|Hclaim]; [discriminate|]).
    exact Hclaim.
  - intros Hpool.
    repeat (destruct Hpool as [Hpool|Hpool]; [discriminate|]).
    exact Hpool.
Qed.

(** * Further properties of the detector *)

Section ExamLines.
Import GradeChangeDetector.

(** The line of an entry is an added line exactly when the entry is not
    in the old list; otherwise there is no line or one changed line. *)
Lemma exam_lines_shape old_exams new_exam :
  (PyStr.elem new_exam old_exams = false /\
   exam_lines old_exams new_exam = ["Yeni: " ++ new_exam]) \/
  (PyStr.elem new_exam old_exams = true /\
   (exam_lines old_exams new_exam = [] \/
    exists rest, exam_lines old_exams new_exam = ["Güncellendi: " ++ rest])).
Proof.
  unfold exam_lines. destruct (PyStr.elem new_exam old_exams); cbn [negb].
  - right. split; [reflexivity|].
    destruct (truthy new_exam); [|now left].
    destruct (find _ old_exams) as [old_exam|]; [|now left].
    destruct (truthy old_exam && negb (String.eqb old_exam new_exam)); [|now left].
    right. eexists. reflexivity.
  - now left.
Qed.

Lemma prefix_append (p x : string) : String.prefix p (p ++ x) = true.
Proof.
  induction p as [|a p IH].
  - now destruct x.
  - change (match ascii_dec a a with
            | left _ => String.prefix p (p ++ x)
            | right _ => false
            end = true).
    destruct (ascii_dec a a); [exact IH | contradiction].
Qed.

Lemma prefix_added e : String.prefix "Yeni: " ("Yeni: " ++ e) = true.
Proof. apply prefix_append. Qed.

Lemma filter_added_exam_lines old_exams new_exam :
  filter (String.prefix "Yeni: ") (exam_lines old_exams new_exam)
  = if PyStr.elem new_exam old_exams then [] else ["Yeni: " ++ new_exam].
Proof.
  destruct (exam_lines_shape old_exams new_exam) as [[E ->]|[E [->|[rest ->]]]];
    rewrite E; cbn [filter]; rewrite ?prefix_added; reflexivity.
Qed.

End ExamLines.

(** X1. In the diff of [_compare_exams] the added ("Yeni") lines are, in
    order, exactly the entries of the new list that are not, as whole
    strings, in the old list; every line is an added or a changed
    ("Güncellendi") line; and there is at most one line per new entry, so
    entries that only disappear give no line. *)
Theorem compare_exams_added_lines (old_exams new_exams : list string) :
  filter (String.prefix "Yeni: ")
         (GradeChangeDetector._compare_exams old_exams new_exams)
  = map (String.append "Yeni: ")
        (filter (fun e => negb (PyStr.elem e old_exams)) new_exams) /\
  forallb (fun line => String.prefix "Yeni: " line
                       || String.prefix "Güncellendi: " line)
          (GradeChangeDetector._compare_exams old_exams new_exams) = true /\
  length (GradeChangeDetector._compare_exams old_exams new_exams)
    <= length new_exams.
Proof.
  rewrite compare_exams_flat_map.
  induction new_exams as [|e l (IHa & IHb & IHc)]; [repeat split; auto|].
  cbn [flat_map filter map].
  rewrite filter_app, forallb_app, length_app, IHa, IHb, filter_added_exam_lines.
  destruct (exam_lines_shape old_exams e) as [[E ->]|[E [->|[rest ->]]]];
    rewrite E; cbn [negb app map forallb]; rewrite ?prefix_append, ?orb_true_r;
    repeat split; cbn [length] in *; try lia; reflexivity.
Qed.

(** ** [_compare_courses] as four filters *)

Section CourseFilters.
Import GradeChangeDetector.

Lemma fold_visit_new_filters old_dict (l : PyDict.dict Course) acc :
  let r := fold_left (visit_new old_dict) l acc in
  new r = (new acc ++ map new_entry (filter (is_new_item old_dict) l))%list /\
  updated r
    = (updated acc ++ map (updated_entry old_dict) (filter (is_updated_item old_dict) l))%list /\
  no_change r = (no_change acc ++ map fst (filter (is_unchanged_item old_dict) l))%list /\
  removed r = removed acc.
Proof.
  revert acc. induction l as [|[k c] l IH]; intros acc; cbn [fold_left].
  - cbn. now rewrite !app_nil_r.
  - destruct (IH (visit_new old_dict acc (k, c))) as (Hn & Hu & Hc & Hr).
    cbv zeta. rewrite Hn, Hu, Hc, Hr. clear IH Hn Hu Hc Hr.
    unfold visit_new, is_new_item, is_updated_item, is_unchanged_item, PyDict.has_key.
    cbn [filter fst snd].
    destruct (PyDict.get k old_dict) as [old_course|] eqn:Hget; cbn [negb].
    + destruct (bool_decide (get_exams old_course = get_exams c)) eqn:Heq;
        cbn [negb new updated no_change removed map];
        rewrite <- ?app_assoc; cbn [app]; repeat split.
      unfold updated_entry. cbn [fst snd]. now rewrite Hget.
    + cbn [new updated no_change removed map].
      rewrite <- ?app_assoc. cbn [app]. repeat split.
Qed.

Lemma fold_visit_old_filters new_dict (l : PyDict.dict Course) acc :
  let r := fold_left (visit_old new_dict) l acc in
  new r = new acc /\ updated r = updated acc /\ no_change r = no_change acc /\
  removed r
    = (removed acc ++ filter (fun k => negb (PyDict.has_key k new_dict)) (PyDict.keys l))%list.
Proof.
  revert acc. induction l as [|[k c] l IH]; intros acc; cbn [fold_left].
  - cbn. now rewrite app_nil_r.
  - destruct (IH (visit_old new_dict acc (k, c))) as (Hn & Hu & Hc & Hr).
    cbv zeta. rewrite Hn, Hu, Hc, Hr. clear IH Hn Hu Hc Hr.
    unfold visit_old. cbn [PyDict.keys map filter fst].
    destruct (negb (PyDict.has_key k new_dict));
      cbn [new updated no_change removed]; rewrite <- ?app_assoc; repeat split.
Qed.

End CourseFilters.

(** The classes of [_compare_courses] as filters of the two mappings. *)
Lemma compare_courses_classes
    (old_courses new_courses : list GradeChangeDetector.Course) :
  let old_dict := PyDict.comprehension GradeChangeDetector.get_name old_courses in
  let new_dict := PyDict.comprehension GradeChangeDetector.get_name new_courses in
  let changes := GradeChangeDetector._compare_courses old_courses new_courses in
  GradeChangeDetector.new changes
    = map GradeChangeDetector.new_entry
          (filter (GradeChangeDetector.is_new_item old_dict) new_dict) /\
  GradeChangeDetector.updated changes
    = map (GradeChangeDetector.updated_entry old_dict)
          (filter (GradeChangeDetector.is_updated_item old_dict) new_dict) /\
  GradeChangeDetector.no_change changes
    = map fst (filter (GradeChangeDetector.is_unchanged_item old_dict) new_dict) /\
  GradeChangeDetector.removed changes
    = filter (fun k => negb (PyDict.has_key k new_dict)) (PyDict.keys old_dict).
Proof.
  intros old_dict new_dict changes. subst changes.
  unfold GradeChangeDetector._compare_courses. fold old_dict. fold new_dict.
  destruct (fold_visit_old_filters new_dict old_dict
              (fold_left (GradeChangeDetector.visit_new old_dict) new_dict
                         GradeChangeDetector.no_changes))
    as (Hn & Hu & Hc & Hr).
  destruct (fold_visit_new_filters old_dict new_dict GradeChangeDetector.no_changes)
    as (Hn' & Hu' & Hc' & Hr').
  cbv zeta in *. rewrite Hn, Hu, Hc, Hr, Hn', Hu', Hc', Hr'. cbn [app GradeChangeDetector.no_changes GradeChangeDetector.new GradeChangeDetector.updated GradeChangeDetector.no_change GradeChangeDetector.removed].
  repeat split.
Qed.

(** X2. The four classes of [_compare_courses], each in the order of the
    mapping it is read from: [new] holds the items of the new mapping
    whose name is not a key of the old one, [updated] those whose name is a
    key of the old one with another exam list (with both lists and their
    diff), [no_change] the names of those with the same exam list, and
    [removed] the keys of the old mapping that are not keys of the new
    one. *)
Theorem compare_courses_as_filters
    (old_courses new_courses : list GradeChangeDetector.Course) :
  let old_dict := PyDict.comprehension GradeChangeDetector.get_name old_courses in
  let new_dict := PyDict.comprehension GradeChangeDetector.get_name new_courses in
  let changes := GradeChangeDetector._compare_courses old_courses new_courses in
  GradeChangeDetector.new changes
    = map GradeChangeDetector.new_entry
          (filter (GradeChangeDetector.is_new_item old_dict) new_dict) /\
  GradeChangeDetector.updated changes
    = map (GradeChangeDetector.updated_entry old_dict)
          (filter (GradeChangeDetector.is_updated_item old_dict) new_dict) /\
  GradeChangeDetector.no_change changes
    = map fst (filter (GradeChangeDetector.is_unchanged_item old_dict) new_dict) /\
  GradeChangeDetector.removed changes
    = filter (fun k => negb (PyDict.has_key k new_dict)) (PyDict.keys old_dict).
Proof. apply compare_courses_classes. Qed.

(** Comparing with an empty list. *)
Lemma compare_courses_nothing (courses : list GradeChangeDetector.Course) :
  GradeChangeDetector._compare_courses [] courses
    = {| GradeChangeDetector.new :=
           map GradeChangeDetector.new_entry
               (PyDict.comprehension GradeChangeDetector.get_name courses);
         GradeChangeDetector.updated := [];
         GradeChangeDetector.removed := [];
         GradeChangeDetector.no_change := [] |} /\
  GradeChangeDetector._compare_courses courses []
    = {| GradeChangeDetector.new := [];
         GradeChangeDetector.updated := [];
         GradeChangeDetector.removed :=
           PyDict.keys (PyDict.comprehension GradeChangeDetector.get_name courses);
         GradeChangeDetector.no_change := [] |}.
Proof.
  split.
  - destruct (compare_courses_classes [] courses) as (Hn & Hu & Hc & Hr).
    destruct (GradeChangeDetector._compare_courses [] courses) as [n u r c].
    cbn in Hn, Hu, Hc, Hr. subst.
    f_equal.
    + f_equal. induction (PyDict.comprehension _ courses) as [|it l IH]; cbn; congruence.
    + induction (PyDict.comprehension _ courses) as [|it l IH]; cbn; congruence.
    + induction (PyDict.comprehension _ courses) as [|it l IH]; cbn; congruence.
  - destruct (compare_courses_classes courses []) as (Hn & Hu & Hc & Hr).
    destruct (GradeChangeDetector._compare_courses courses []) as [n u r c].
    cbn in Hn, Hu, Hc, Hr. subst.
    f_equal.
    induction (PyDict.keys _) as [|k l IH]; cbn; congruence.
Qed.

(** X3. A first snapshot and a vanished one: compared with an empty old
    list every course of the new mapping is [new] and nothing else is
    reported; compared with an empty new list every key of the old mapping
    is [removed] and nothing else is reported. *)
Theorem compare_courses_with_nothing (courses : list GradeChangeDetector.Course) :
  GradeChangeDetector._compare_courses [] courses
    = {| GradeChangeDetector.new :=
           map GradeChangeDetector.new_entry
               (PyDict.comprehension GradeChangeDetector.get_name courses);
         GradeChangeDetector.updated := [];
         GradeChangeDetector.removed := [];
         GradeChangeDetector.no_change := [] |} /\
  GradeChangeDetector._compare_courses courses []
    = {| GradeChangeDetector.new := [];
         GradeChangeDetector.updated := [];
         GradeChangeDetector.removed :=
           PyDict.keys (PyDict.comprehension GradeChangeDetector.get_name courses);
         GradeChangeDetector.no_change := [] |}.
Proof. apply compare_courses_nothing. Qed.

(** ** Courses without a name *)

Section EmptyName.
Import GradeChangeDetector.

(** The courses that [_compare_courses] keys under the empty string: those
    without a ["name"] entry and those whose name is the empty string. *)
Local Abbreviation keyed_empty :=
  (fun c : Course => match name c with None => true | Some n => String.eqb n "" end).

Lemma filter_filter_comm {A : Type} (p q : A -> bool) (l : list A) :
  filter p (filter q l) = filter q (filter p l).
Proof.
  induction l as [|x l IH]; cbn [filter]; [reflexivity|].
  destruct (p x) eqn:Ep, (q x) eqn:Eq; cbn [filter]; rewrite ?Ep, ?Eq, IH; reflexivity.
Qed.

(** A dict holds a key once. *)
Lemma filter_key {V : Type} (d : PyDict.dict V) (k : string) :
  NoDup (PyDict.keys d) ->
  filter (fun it => String.eqb (fst it) k) d
  = match PyDict.get k d with Some v => [(k, v)] | None => [] end.
Proof.
  induction d as [|[k' v'] d IH]; cbn [filter PyDict.get PyDict.keys map fst];
    [reflexivity|].
  intros Hd. inversion Hd as [|? ? Hnotin Hrest]; subst. specialize (IH Hrest).
  destruct (String.eqb k' k) eqn:E.
  - apply String.eqb_eq in E. subst k'. rewrite IH.
    destruct (PyDict.get k d) eqn:Hget; [|reflexivity].
    exfalso. apply Hnotin. apply has_key_In. unfold PyDict.has_key. now rewrite Hget.
  - exact IH.
Qed.

Lemma last_keyed_filter (l : list Course) (found : option Course) :
  fold_left (fun found x => if String.eqb (get_name x) "" then Some x else found) l found
  = match list.last (filter keyed_empty l) with
    | Some c => Some c
    | None => found
    end.
Proof.
  revert found. induction l as [|x l IH]; intros found; cbn [fold_left filter];
    [reflexivity|].
  rewrite IH.
  assert (Hx : String.eqb (get_name x) "" = keyed_empty x).
  { unfold get_name. destruct (name x); reflexivity. }
  rewrite Hx. destruct (keyed_empty x); [|reflexivity].
  rewrite last_cons. now destruct (list.last (filter keyed_empty l)).
Qed.

(** The entry under the empty string is the last course, in list order,
    that is keyed there. *)
Lemma get_empty_name (l : list Course) :
  PyDict.get "" (PyDict.comprehension get_name l) = list.last (filter keyed_empty l).
Proof.
  rewrite get_comprehension. unfold PyDict.last_keyed. rewrite last_keyed_filter.
  now destruct (list.last (filter keyed_empty l)).
Qed.

Lemma items_empty_name (l : list Course) :
  filter (fun it => String.eqb (fst it) "") (PyDict.comprehension get_name l)
  = match list.last (filter keyed_empty l) with
    | Some c => [("", c)]
    | None => []
    end.
Proof.
  rewrite filter_key by apply NoDup_keys_comprehension. now rewrite get_empty_name.
Qed.

End EmptyName.

(** C10. A course without a ["name"] entry is keyed under the empty
    string, as is one whose name is the empty string, and of the courses
    of a list that are keyed there [_compare_courses] sees only the last
    one, in list order: the entries of the ChangeSet for the empty name
    are those of a comparison of the last such course of the old list with
    the last such course of the new list (a new course when only the new
    list has one, removed when only the old list has one, updated or
    unchanged by the exams of these two courses), whatever the earlier
    nameless courses hold; and the empty name is classified at most
    once. *)
Theorem nameless_courses_collapse
    (old_courses new_courses : list GradeChangeDetector.Course) :
  let keyed_empty := fun c : GradeChangeDetector.Course =>
    match GradeChangeDetector.name c with
    | None => true
    | Some n => String.eqb n ""
    end in
  let old_last := list.last (filter keyed_empty old_courses) in
  let new_last := list.last (filter keyed_empty new_courses) in
  let changes := GradeChangeDetector._compare_courses old_courses new_courses in
  filter (fun e => String.eqb (GradeChangeDetector.new_name e) "")
         (GradeChangeDetector.new changes)
  = match old_last, new_last with
    | None, Some c =>
        [{| GradeChangeDetector.new_name := "";
            GradeChangeDetector.new_course_exams := GradeChangeDetector.get_exams c |}]
    | _, _ => []
    end /\
  filter (fun e => String.eqb (GradeChangeDetector.updated_name e) "")
         (GradeChangeDetector.updated changes)
  = match old_last, new_last with
    | Some o, Some c =>
        if bool_decide (GradeChangeDetector.get_exams o = GradeChangeDetector.get_exams c)
        then []
        else [{| GradeChangeDetector.updated_name := "";
                 GradeChangeDetector.old_exams := GradeChangeDetector.get_exams o;
                 GradeChangeDetector.new_exams := GradeChangeDetector.get_exams c;
                 GradeChangeDetector.exam_changes :=
                   GradeChangeDetector._compare_exams
                     (GradeChangeDetector.get_exams o)
                     (GradeChangeDetector.get_exams c) |}]
    | _, _ => []
    end /\
  filter (fun n => String.eqb n "") (GradeChangeDetector.no_change changes)
  = match old_last, new_last with
    | Some o, Some c =>
        if bool_decide (GradeChangeDetector.get_exams o = GradeChangeDetector.get_exams c)
        then [""]
        else []
    | _, _ => []
    end /\
  filter (fun n => String.eqb n "") (GradeChangeDetector.removed changes)
  = match old_last, new_last with
    | Some _, None => [""]
    | _, _ => []
    end /\
  count_occ string_dec (GradeChangeDetector.classified changes) "" <= 1.
Proof.
  intros keyed_empty old_last new_last changes.
  destruct (compare_courses_classes old_courses new_courses) as (Hn & Hu & Hc & Hr).
  cbv zeta in Hn, Hu, Hc, Hr. fold changes in Hn, Hu, Hc, Hr.
  rewrite Hn, Hu, Hc, Hr. clear Hn Hu Hc Hr.
  pose proof (get_empty_name old_courses) as Hold. fold keyed_empty old_last in Hold.
  pose proof (items_empty_name new_courses) as Hnew. fold keyed_empty new_last in Hnew.
  pose proof (items_empty_name old_courses) as Hitems. fold keyed_empty old_last in Hitems.
  pose proof (get_empty_name new_courses) as Hget. fold keyed_empty new_last in Hget.
  unfold PyDict.keys. rewrite !filter_map_swap.
  cbn [GradeChangeDetector.new_entry GradeChangeDetector.updated_entry
       GradeChangeDetector.new_name GradeChangeDetector.updated_name].
  rewrite !(filter_filter_comm (fun it : string * GradeChangeDetector.Course =>
                                  String.eqb (fst it) "")), Hnew, Hitems.
  repeat split.
  - destruct new_last as [c|]; [|now destruct old_last].
    cbn [filter]. unfold GradeChangeDetector.is_new_item, PyDict.has_key.
    cbn [fst]. rewrite Hold. now destruct old_last.
  - destruct new_last as [c|]; [|now destruct old_last].
    cbn [filter]. unfold GradeChangeDetector.is_updated_item.
    cbn [fst snd]. rewrite Hold. destruct old_last as [o|]; [|reflexivity].
    destruct (bool_decide _); cbn [negb map]; [reflexivity|].
    unfold GradeChangeDetector.updated_entry. cbn [fst snd]. rewrite Hold.
    reflexivity.
  - destruct new_last as [c|]; [|now destruct old_last].
    cbn [filter]. unfold GradeChangeDetector.is_unchanged_item.
    cbn [fst snd]. rewrite Hold. destruct old_last as [o|]; [|reflexivity].
    destruct (bool_decide _); reflexivity.
  - destruct old_last as [o|]; [|reflexivity].
    cbn [filter fst]. unfold PyDict.has_key. rewrite Hget.
    now destruct new_last.
  - subst changes. rewrite compare_courses_occ. destruct (_ || _); lia.
Qed.

(** ** [detect_changes], entry by entry *)

Section DetectEntries.
Import GradeChangeDetector.

Lemma set_fresh {V : Type} (d : PyDict.dict V) k v :
  PyDict.has_key k d = false -> PyDict.set k v d = (d ++ [(k, v)])%list.
Proof.
  unfold PyDict.has_key. induction d as [|[k' v'] d IH]; cbn; auto.
  destruct (String.eqb k' k); [discriminate|]. intros H. now rewrite IH.
Qed.

Lemma has_key_snoc {V : Type} (d : PyDict.dict V) k k' v :
  PyDict.has_key k (d ++ [(k', v)])%list = PyDict.has_key k d || String.eqb k' k.
Proof.
  unfold PyDict.has_key. induction d as [|[k0 v0] d IH]; cbn.
  - now destruct (String.eqb k' k).
  - destruct (String.eqb k0 k); auto.
Qed.

Lemma fold_detect_student_entries previous_state (l : PyDict.dict StudentData) acc :
  NoDup (PyDict.keys l) ->
  (forall k, In k (PyDict.keys l) -> PyDict.has_key k acc = false) ->
  fold_left (detect_student previous_state) l acc
  = (acc ++ map (change_entry previous_state)
                (filter (courses_differ previous_state) l))%list.
Proof.
  revert acc. induction l as [|[sid sd] l IH]; intros acc Hnd Hfresh; cbn [fold_left].
  - cbn. now rewrite app_nil_r.
  - inversion Hnd as [|? ? Hnotin Hnd']; subst.
    cbn [filter]. unfold detect_student at 2, courses_differ at 1. cbn [fst snd].
    destruct (negb (bool_decide _)) eqn:Hdiff.
    + rewrite set_fresh by (apply Hfresh; now left).
      rewrite IH; [cbn [map]; unfold change_entry at 2; cbn [fst snd];
                   now rewrite <- app_assoc | assumption |].
      intros k Hk. rewrite has_key_snoc, (Hfresh k) by now right.
      cbn. apply String.eqb_neq. intros ->. contradiction.
    + apply IH; [assumption|]. intros k Hk. apply Hfresh. now right.
Qed.

(** The result of [detect_changes] for a grades file with distinct ids. *)
Lemma detect_changes_entries fs grades :
  grades_file fs = Some grades ->
  NoDup (PyDict.keys grades) ->
  fst (detect_changes fs)
  = map (change_entry (_load_previous_changes fs))
        (filter (courses_differ (_load_previous_changes fs)) grades).
Proof.
  intros Hg Hnd. unfold detect_changes, _load_grades. rewrite Hg.
  destruct grades as [|g grades]; [reflexivity|].
  cbn [fst]. now rewrite fold_detect_student_entries.
Qed.

Lemma change_entry_first_run (it : string * StudentData) :
  change_entry [] it
  = (fst it,
     {| timestamp := default "" (last_updated (snd it));
        changes :=
          {| new := map new_entry
                        (PyDict.comprehension get_name (default [] (courses (snd it))));
             updated := []; removed := []; no_change := [] |};
        current_courses := default [] (courses (snd it)) |}).
Proof.
  unfold change_entry. cbn [PyDict.get default no_data courses].
  now rewrite (proj1 (compare_courses_nothing _)).
Qed.

Lemma courses_differ_first_run (it : string * StudentData) :
  courses_differ [] it
  = match default [] (courses (snd it)) with [] => false | _ => true end.
Proof.
  unfold courses_differ. cbn [PyDict.get default no_data courses].
  destruct (default [] (courses (snd it))).
  - now rewrite bool_decide_eq_true_2.
  - now rewrite bool_decide_eq_false_2.
Qed.

Lemma fold_detect_student_none previous_state (l : PyDict.dict StudentData) acc :
  forallb (fun it => negb (courses_differ previous_state it)) l = true ->
  fold_left (detect_student previous_state) l acc = acc.
Proof.
  revert acc. induction l as [|[sid sd] l IH]; intros acc Hsame; [reflexivity|].
  cbn [forallb] in Hsame. apply andb_prop in Hsame. destruct Hsame as [Hit Hl].
  cbn [fold_left]. rewrite IH by assumption.
  unfold detect_student.
  unfold courses_differ in Hit. cbn [fst snd] in Hit.
  apply negb_true_iff in Hit. now rewrite Hit.
Qed.

Lemma detect_changes_ignores_nothing_new fs grades :
  grades_file fs = Some grades ->
  forallb (fun it => negb (courses_differ (_load_previous_changes fs) it)) grades = true ->
  fst (detect_changes fs) = [].
Proof.
  intros Hg Hsame. unfold detect_changes, _load_grades.
  rewrite Hg. destruct grades as [|g rest]; [reflexivity|].
  cbn [fst]. now apply fold_detect_student_none.
Qed.

End DetectEntries.

(** X4. For a grades file with distinct student ids, [detect_changes]
    returns, in the order of the file, one entry for every student whose
    stored course list differs from the current one (a student without
    stored data has the empty list) and none for the others; the entry
    holds the student's [last_updated], the ChangeSet of the two course
    lists and the current courses. *)
Theorem detect_changes_reports_changed_students
    (fs : GradeChangeDetector.Files)
    (grades : PyDict.dict GradeChangeDetector.StudentData) :
  GradeChangeDetector.grades_file fs = Some grades ->
  NoDup (PyDict.keys grades) ->
  let previous_state := GradeChangeDetector._load_previous_changes fs in
  fst (GradeChangeDetector.detect_changes fs)
  = map (GradeChangeDetector.change_entry previous_state)
        (filter (GradeChangeDetector.courses_differ previous_state) grades).
Proof. intros Hg Hnd. now apply detect_changes_entries. Qed.

Lemma detect_changes_reports_changed_students_witness :
  PyDict.keys (fst (GradeChangeDetector.detect_changes Examples.one_course_grades))
  = ["s1"].
Proof.
  rewrite (detect_changes_reports_changed_students
             Examples.one_course_grades _ eq_refl
             ltac:(repeat constructor; simpl; tauto)).
  reflexivity.
Defined.

(** X5. On the first run (no saved state) every student with at least one
    course gets an entry, in the order of the grades file, and the
    ChangeSet of every entry lists all courses of the student's mapping as
    [new] and has nothing under [updated], [removed] and [no_change]. *)
Theorem detect_changes_first_run
    (fs : GradeChangeDetector.Files)
    (grades : PyDict.dict GradeChangeDetector.StudentData) :
  GradeChangeDetector.grades_file fs = Some grades ->
  GradeChangeDetector.changes_file fs = None ->
  NoDup (PyDict.keys grades) ->
  let result := fst (GradeChangeDetector.detect_changes fs) in
  PyDict.keys result
    = PyDict.keys
        (filter (fun it : string * GradeChangeDetector.StudentData =>
                   match default [] (GradeChangeDetector.courses (snd it)) with
                   | [] => false
                   | _ => true
                   end) grades) /\
  Forall (fun e : string * GradeChangeDetector.ChangeData =>
            GradeChangeDetector.changes (snd e)
            = {| GradeChangeDetector.new :=
                   map GradeChangeDetector.new_entry
                       (PyDict.comprehension GradeChangeDetector.get_name
                          (GradeChangeDetector.current_courses (snd e)));
                 GradeChangeDetector.updated := [];
                 GradeChangeDetector.removed := [];
                 GradeChangeDetector.no_change := [] |})
         result.
Proof.
  intros Hg Hc Hnd result. subst result.
  rewrite (detect_changes_entries fs grades Hg Hnd).
  unfold GradeChangeDetector._load_previous_changes. rewrite Hc. cbn [default].
  clear. split.
  - induction grades as [|it l IH]; [reflexivity|]. cbn [filter].
    rewrite courses_differ_first_run.
    destruct (default [] (GradeChangeDetector.courses (snd it))) as [|c cs].
    + exact IH.
    + cbn [map PyDict.keys]. unfold PyDict.keys in IH. now rewrite IH.
  - apply Forall_forall. intros e He. apply in_map_iff in He.
    destruct He as [it [<- _]]. now rewrite change_entry_first_run.
Qed.

Lemma detect_changes_first_run_witness :
  PyDict.keys (fst (GradeChangeDetector.detect_changes Examples.one_course_grades))
  = ["s1"].
Proof.
  exact (proj1 (detect_changes_first_run Examples.one_course_grades _
                  eq_refl eq_refl ltac:(repeat constructor; simpl; tauto))).
Defined.

(** X6. When every student's stored course list equals the current one,
    whatever else differs (the [last_updated] stamps, students that are
    only in the saved state), [detect_changes] reports nothing and still
    saves the current grades as the new state. *)
Theorem detect_changes_ignores_timestamps
    (fs : GradeChangeDetector.Files)
    (grades : PyDict.dict GradeChangeDetector.StudentData) :
  GradeChangeDetector.grades_file fs = Some grades ->
  forallb (fun it => negb (GradeChangeDetector.courses_differ
                             (GradeChangeDetector._load_previous_changes fs) it))
          grades = true ->
  fst (GradeChangeDetector.detect_changes fs) = [] /\
  GradeChangeDetector.changes_file (snd (GradeChangeDetector.detect_changes fs))
  = match grades with
    | [] => GradeChangeDetector.changes_file fs
    | _ => Some grades
    end.
Proof.
  intros Hg Hsame. split.
  - now apply (detect_changes_ignores_nothing_new fs grades).
  - rewrite (detect_changes_saved fs grades Hg). now destruct grades.
Qed.

Lemma detect_changes_ignores_timestamps_witness :
  fst (GradeChangeDetector.detect_changes Examples.restamped_grades) = [].
Proof.
  exact (proj1 (detect_changes_ignores_timestamps Examples.restamped_grades _
                  eq_refl eq_refl)).
Defined.

(** X7. [detect_changes] never writes the grades file, and after it has
    run on a grades file that is not empty [has_previous_data] holds; with
    a missing or empty grades file the saved state, and with it the answer
    of [has_previous_data], is what it was. *)
Theorem detect_changes_leaves_previous_data (fs : GradeChangeDetector.Files) :
  let fs' := snd (GradeChangeDetector.detect_changes fs) in
  GradeChangeDetector.grades_file fs' = GradeChangeDetector.grades_file fs /\
  GradeChangeDetector.has_previous_data fs'
  = match GradeChangeDetector.grades_file fs with
    | Some (_ :: _) => true
    | _ => GradeChangeDetector.has_previous_data fs
    end.
Proof.
  unfold GradeChangeDetector.detect_changes, GradeChangeDetector._load_grades,
    GradeChangeDetector.has_previous_data.
  destruct (GradeChangeDetector.grades_file fs) as [[|g grades]|] eqn:Hg;
    cbn; rewrite ?Hg; split; reflexivity.
Qed.

(** X8. On the first run (no saved state, distinct student ids)
    [get_notifications] announces every course of every student's mapping
    as a new course and nothing else: all events are [new_course] events of
    severity [info], one per course name and student. *)
Theorem first_run_notifies_every_course
    (fs : GradeChangeDetector.Files)
    (grades : PyDict.dict GradeChangeDetector.StudentData) :
  GradeChangeDetector.grades_file fs = Some grades ->
  GradeChangeDetector.changes_file fs = None ->
  NoDup (PyDict.keys grades) ->
  let ns := fst (GradeChangeDetector.get_notifications fs) in
  forallb (fun n => String.eqb (GradeChangeDetector.type n) "new_course"
                    && String.eqb (GradeChangeDetector.severity n) "info") ns = true /\
  length ns
  = list_sum
      (map (fun it : string * GradeChangeDetector.StudentData =>
              length (PyDict.comprehension GradeChangeDetector.get_name
                        (default [] (GradeChangeDetector.courses (snd it)))))
           grades).
Proof.
  intros Hg Hc Hnd ns. subst ns.
  rewrite get_notifications_flat_map, (detect_changes_entries fs grades Hg Hnd).
  unfold GradeChangeDetector._load_previous_changes. rewrite Hc. cbn [default].
  clear. induction grades as [|it l [IHa IHb]]; [split; reflexivity|].
  cbn [filter map list_sum fold_right]. rewrite courses_differ_first_run.
  change (foldr Init.Nat.add 0) with list_sum.
  destruct (default [] (GradeChangeDetector.courses (snd it))) as [|c cs] eqn:Hcs.
  - split; [exact IHa | rewrite IHb; reflexivity].
  - cbn [map flat_map].
    rewrite change_entry_first_run, Hcs. cbn [fst snd GradeChangeDetector.changes].
    rewrite notify_changes_app.
    cbn [GradeChangeDetector.new GradeChangeDetector.updated
         GradeChangeDetector.removed map flat_map app].
    rewrite app_nil_r, forallb_app, !length_app, !length_map, IHa, IHb.
    split; [|reflexivity].
    rewrite andb_true_r. apply forallb_forall. intros n Hn.
    apply in_map_iff in Hn. destruct Hn as [x [<- _]]. reflexivity.
Qed.

Lemma first_run_notifies_every_course_witness :
  length (fst (GradeChangeDetector.get_notifications Examples.one_course_grades)) = 1.
Proof.
  exact (proj2 (first_run_notifies_every_course Examples.one_course_grades _
                  eq_refl eq_refl ltac:(repeat constructor; simpl; tauto))).
Defined.

(** * The alert store of error_tracker.py *)

Section AlertStore.
Import ErrorTracker.

Lemma get_error_alerts_record now sid msg file :
  get_error_alerts (record_fetch_error now sid msg file)
  = <[sid := {| alert_text := if String.eqb msg "" then "Veri çekilemedi" else msg;
                alert_timestamp := now;
                alert_message :=
                  "Giriş bilgilerinizi kontrol edin veya anketiniz olup olmadığını kontrol edin" |}]>
      (get_error_alerts file).
Proof. reflexivity. Qed.

Lemma get_error_alerts_clear sid file :
  get_error_alerts (clear_error_alert sid file) = delete sid (get_error_alerts file).
Proof.
  unfold clear_error_alert, get_error_alerts.
  destruct (fetch_errors (_load_tracking file)) as [errors|] eqn:He; cbn [default].
  - destruct (errors !! sid) eqn:Hl.
    + reflexivity.
    + rewrite He. cbn [default]. now rewrite delete_id.
  - rewrite He. cbn [default]. now rewrite delete_empty.
Qed.

End AlertStore.

(** X9. After [record_fetch_error] the fetch-error alerts hold, under the
    student's id, the record just made (with the text "Veri çekilemedi"
    when the message is empty); the alerts of all other students and the
    survey alerts are what they were, also when the file was missing. *)
Theorem record_fetch_error_then_get
    (now student_id error_msg : string) (file : option ErrorTracker.Tracking) :
  let file' := ErrorTracker.record_fetch_error now student_id error_msg file in
  ErrorTracker.get_error_alerts file' !! student_id
  = Some {| ErrorTracker.alert_text :=
              if String.eqb error_msg "" then "Veri çekilemedi" else error_msg;
            ErrorTracker.alert_timestamp := now;
            ErrorTracker.alert_message :=
              "Giriş bilgilerinizi kontrol edin veya anketiniz olup olmadığını kontrol edin" |} /\
  delete student_id (ErrorTracker.get_error_alerts file')
  = delete student_id (ErrorTracker.get_error_alerts file) /\
  ErrorTracker.surveys (ErrorTracker._load_tracking file')
  = ErrorTracker.surveys (ErrorTracker._load_tracking file).
Proof.
  intros file'. subst file'. rewrite get_error_alerts_record.
  split; [apply lookup_insert_eq|]. split; [apply delete_insert_eq|]. reflexivity.
Qed.

(** X10. Recording a fetch error for a student who already has one
    replaces the record: the store is the one that the second recording
    alone would give, and the set of students with an alert only gains the
    student recorded. *)
Theorem record_fetch_error_overwrites
    (now1 now2 student_id msg1 msg2 : string) (file : option ErrorTracker.Tracking) :
  ErrorTracker.record_fetch_error now2 student_id msg2
    (ErrorTracker.record_fetch_error now1 student_id msg1 file)
  = ErrorTracker.record_fetch_error now2 student_id msg2 file /\
  dom (ErrorTracker.get_error_alerts
         (ErrorTracker.record_fetch_error now1 student_id msg1 file))
  = {[student_id]} ∪ dom (ErrorTracker.get_error_alerts file).
Proof.
  split.
  - unfold ErrorTracker.record_fetch_error, ErrorTracker._load_tracking.
    simpl. now rewrite insert_insert_eq.
  - rewrite get_error_alerts_record. apply dom_insert_L.
Qed.

(** X11. [clear_error_alert] removes the student's fetch-error alert and
    nothing else: the other alerts and the survey alerts stay, clearing
    right after recording gives back the alerts of the others, and when
    the student has no alert the file is not written at all (a missing
    file stays missing). *)
Theorem clear_error_alert_removes_one
    (now student_id error_msg : string) (file : option ErrorTracker.Tracking) :
  ErrorTracker.get_error_alerts (ErrorTracker.clear_error_alert student_id file)
  = delete student_id (ErrorTracker.get_error_alerts file) /\
  ErrorTracker.surveys
    (ErrorTracker._load_tracking (ErrorTracker.clear_error_alert student_id file))
  = ErrorTracker.surveys (ErrorTracker._load_tracking file) /\
  ErrorTracker.get_error_alerts
    (ErrorTracker.clear_error_alert student_id
       (ErrorTracker.record_fetch_error now student_id error_msg file))
  = delete student_id (ErrorTracker.get_error_alerts file) /\
  match ErrorTracker.get_error_alerts file !! student_id with
  | None => ErrorTracker.clear_error_alert student_id file = file
  | Some _ => True
  end.
Proof.
  split; [apply get_error_alerts_clear|]. split.
  - unfold ErrorTracker.clear_error_alert.
    destruct (ErrorTracker.fetch_errors (ErrorTracker._load_tracking file)) as [errors|];
      [destruct (errors !! student_id)|]; reflexivity.
  - split.
    + rewrite get_error_alerts_clear, get_error_alerts_record. apply delete_insert_eq.
    + unfold ErrorTracker.get_error_alerts, ErrorTracker.clear_error_alert.
      destruct (ErrorTracker.fetch_errors (ErrorTracker._load_tracking file)) as [errors|];
        simpl.
      * destruct (errors !! student_id); [exact I | reflexivity].
      * rewrite lookup_empty. reflexivity.
Qed.

(** * config.py *)

(** X12. Loading the settings twice from the same file and environment
    gives what loading them once gives: a reload without an outside change
    alters nothing. *)
Theorem load_settings_twice
    {T : Type} {number : Main.Number T} (w : Main.World T) (n : nat)
    (c : Main.Config T) :
  Main.loaded_config w n (Main.loaded_config w n c) = Main.loaded_config w n c.
Proof.
  unfold Main.loaded_config.
  destruct (Main.settings_file w n) as [settings|]; [|reflexivity].
  cbn [Main.SESSION_TIMEOUT Main.REQUEST_DELAY Main.TELEGRAM_ENABLED Main.AUTO_SURVEY].
  destruct (Main.session_timeout settings), (Main.request_delay settings),
           (Main.telegram_enabled settings), (Main.auto_survey settings);
    reflexivity.
Qed.

Section UsersFromEnv.
Import PyStr ConfigPy.

Lemma prefix_empty s : String.prefix "" s = true.
Proof. now destruct s. Qed.

Lemma contains_colon_cons a s :
  contains ":" (String a s)
  = (if ascii_dec ":" a then true else false) || contains ":" s.
Proof.
  cbn [contains String.prefix]. destruct (ascii_dec ":" a); [|reflexivity].
  now rewrite prefix_empty.
Qed.

Lemma contains_colon_rev_acc s acc :
  contains ":" (rev_acc s acc) = contains ":" s || contains ":" acc.
Proof.
  revert acc. induction s as [|a s IH]; intros acc.
  - reflexivity.
  - cbn [rev_acc]. rewrite IH, !contains_colon_cons.
    destruct (ascii_dec ":" a), (contains ":" s), (contains ":" acc); reflexivity.
Qed.

Lemma split_go_colon_free s cur :
  contains ":" (rev cur) = false ->
  Forall (fun piece => contains ":" piece = false) (split_go ":" s 0 cur).
Proof.
  revert cur. induction s as [|a s IH]; intros cur Hcur; cbn [split_go].
  - now constructor.
  - cbn [String.prefix String.length Nat.sub].
    destruct (ascii_dec ":" a) as [Ha|Ha].
    + rewrite prefix_empty.
      constructor; [exact Hcur|]. apply IH. reflexivity.
    + apply IH. unfold rev in *. cbn [rev_acc].
      rewrite contains_colon_rev_acc in *. rewrite contains_colon_cons.
      apply orb_false_iff in Hcur. destruct Hcur as [Hc _]. rewrite Hc.
      destruct (ascii_dec ":" a); [contradiction|reflexivity].
Qed.

Lemma split_colon_free s :
  Forall (fun piece => contains ":" piece = false) (split s ":").
Proof. apply split_go_colon_free. reflexivity. Qed.

Lemma user_of_env_colon_free user_data :
  forallb colon_free (user_of_env user_data) = true /\
  length (user_of_env user_data) <= 1.
Proof.
  unfold user_of_env.
  pose proof (split_colon_free (strip user_data)) as Hfree.
  destruct (split (strip user_data) ":") as [|a [|b [|c [|d l]]]]; cbn; auto.
  inversion Hfree as [|? ? Ha H1]; subst. inversion H1 as [|? ? Hb H2]; subst.
  inversion H2 as [|? ? Hc _]; subst.
  unfold colon_free, item. cbn. rewrite Ha, Hb, Hc. auto.
Qed.

Lemma fold_user_of_env (pieces : list string) (acc : list Main.UserConfig) :
  fold_left (fun users user_data => (users ++ user_of_env user_data)%list) pieces acc
  = (acc ++ flat_map user_of_env pieces)%list.
Proof.
  revert acc. induction pieces as [|p l IH]; intros acc; cbn.
  - now rewrite app_nil_r.
  - now rewrite IH, app_assoc.
Qed.

End UsersFromEnv.

(** X13. When the users file is missing or unreadable, every user that
    [load_users] takes from [UBYS_USERS] has its three keys and no colon in
    any of them (so a [sapid] given as a URL with its ["https:"] is never
    accepted this way), and there are at most as many users as
    comma-separated pieces. *)
Theorem load_users_from_environment (users_env : string) :
  forallb ConfigPy.colon_free (ConfigPy.load_users None users_env) = true /\
  length (ConfigPy.load_users None users_env)
    <= length (PyStr.split users_env ",").
Proof.
  unfold ConfigPy.load_users.
  destruct (negb (String.eqb users_env "")); [|split; [reflexivity | cbn; lia]].
  rewrite fold_user_of_env. cbn [app].
  induction (PyStr.split users_env ",") as [|p l [IHa IHb]]; [split; auto|].
  cbn [flat_map]. rewrite forallb_app, length_app, IHa.
  destruct (user_of_env_colon_free p) as [Hp Hl]. rewrite Hp.
  split; [reflexivity | cbn [length]; lia].
Qed.

(** * Further properties of main.py *)

Ltac tidy_counts_everywhere :=
  rewrite ?count_snoc in *;
  cbn [Main.is_Open Main.is_Login Main.is_Clock Main.is_GetPage Main.is_Close
       Main.is_LoadSettings Main.is_Await Main.is_Sleep Main.is_Log] in *;
  rewrite ?Nat.add_0_r, ?Nat.add_1_r in *.

Ltac tidy_calls :=
  rewrite ?calls_snoc; cbn [Main.is_Log app]; rewrite <- ?app_assoc; cbn [app];
  rewrite ?app_nil_r.

(** X14. When the first login is refused, the fetch closes its handler
    and answers [False] without reading the clock, renewing or retrieving
    the page: its calls are the opening, the login and the closing. *)
Theorem refused_login_ends_the_fetch
    {T : Type} {number : Main.Number T} (w : Main.World T) (s : Main.State T) :
  Main.login_reply w (Main.count Main.is_Login (Main.trace s)) = Main.Return false ->
  let u := Main.username (Main.manager s) in
  let (r, s') := Main.fetch_student_data w s in
  Main.calls (Main.trace s')
    = (Main.calls (Main.trace s) ++ [Main.Open u; Main.Login u; Main.Close u])%list /\
  r = match Main.close_reply w (Main.count Main.is_Close (Main.trace s)) with
      | Main.Raise e => Main.Raise e
      | Main.Return _ => Main.Return false
      end.
Proof.
  destruct s as [cfg las running [u p sap lh t0] tracking h].
  cbn [Main.trace Main.config Main.manager Main.username Main.sapid].
  intros Hlogin. cbv zeta.
  unfold_fetch. cbn. tidy_counts. rewrite Hlogin. cbn. tidy_counts.
  destruct (Main.close_reply w (Main.count Main.is_Close h)) as [[]|e];
    cbn; tidy_calls; split; reflexivity.
Qed.

Lemma refused_login_ends_the_fetch_witness :
  fst (Main.fetch_student_data Examples.locked_out Examples.fresh) = Main.Return false.
Proof.
  generalize (refused_login_ends_the_fetch Examples.locked_out Examples.fresh eq_refl).
  vm_compute. intros [_ H]. exact H.
Defined.

(** X15. When the first login succeeds and the session is younger than
    [SESSION_TIMEOUT] at the check, the fetch does not log in again: it
    retrieves the page once and answers what the retrieval answered (or
    lets the exception of the closing through). *)
Theorem fresh_session_is_not_renewed
    {T : Type} {number : Main.Number T} (w : Main.World T) (s : Main.State T) :
  Main.login_reply w (Main.count Main.is_Login (Main.trace s)) = Main.Return true ->
  Main.ge (Main.sub (Main.time_reply w (S (Main.count Main.is_Clock (Main.trace s))))
                    (Main.time_reply w (Main.count Main.is_Clock (Main.trace s))))
          (Main.SESSION_TIMEOUT (Main.config s)) = false ->
  let u := Main.username (Main.manager s) in
  let (r, s') := Main.fetch_student_data w s in
  Main.calls (Main.trace s')
    = (Main.calls (Main.trace s)
         ++ [Main.Open u; Main.Login u; Main.Clock; Main.Clock;
             Main.GetPage u (Main.sapid (Main.manager s)); Main.Close u])%list /\
  r = match Main.close_reply w (Main.count Main.is_Close (Main.trace s)) with
      | Main.Raise e => Main.Raise e
      | Main.Return _ =>
          Main.page_reply w (Main.count Main.is_GetPage (Main.trace s))
                          (Main.login_AUTO_SURVEY s)
      end.
Proof.
  destruct s as [cfg las running [u p sap lh t0] tracking h].
  cbn [Main.trace Main.config Main.manager Main.username Main.sapid
       Main.login_AUTO_SURVEY].
  intros Hlogin Hage. cbv zeta.
  unfold_fetch. cbn. tidy_counts. rewrite Hlogin. cbn. tidy_counts.
  rewrite Hage. cbn. tidy_counts.
  destruct (Main.page_reply w (Main.count Main.is_GetPage h) las) as [[|]|e];
    cbn; tidy_counts;
    destruct (Main.close_reply w (Main.count Main.is_Close h)) as [[]|e'];
    cbn; tidy_calls; split; reflexivity.
Qed.

Lemma fresh_session_is_not_renewed_witness :
  fst (Main.fetch_student_data Examples.growing_accounts Examples.fresh)
  = Main.Return true.
Proof.
  generalize (fresh_session_is_not_renewed Examples.growing_accounts Examples.fresh
                eq_refl eq_refl).
  vm_compute. intros [_ H]. exact H.
Defined.

(** X16. Whatever the outside answers, a fetch logs in at most twice and
    retrieves the page at most once, and it answers [True] only when its
    first login was accepted and it retrieved the page with the answer
    [True]. *)
Theorem fetch_succeeds_only_with_the_page
    {T : Type} {number : Main.Number T} (w : Main.World T) (s : Main.State T) :
  let (r, s') := Main.fetch_student_data w s in
  Main.count Main.is_Login (Main.trace s')
    <= Main.count Main.is_Login (Main.trace s) + 2 /\
  Main.count Main.is_GetPage (Main.trace s')
    <= Main.count Main.is_GetPage (Main.trace s) + 1 /\
  match r with
  | Main.Return true =>
      Main.login_reply w (Main.count Main.is_Login (Main.trace s)) = Main.Return true /\
      Main.count Main.is_GetPage (Main.trace s')
        = S (Main.count Main.is_GetPage (Main.trace s)) /\
      Main.page_reply w (Main.count Main.is_GetPage (Main.trace s))
                      (Main.login_AUTO_SURVEY s) = Main.Return true
  | _ => True
  end.
Proof.
  destruct s as [cfg las running [u p sap lh t0] tracking h].
  run_fetch w; tidy_counts_everywhere; repeat split;
    first [lia | assumption | exact I | congruence].
Qed.

(** X17. A worker that finds the flag cleared (or a stop just requested),
    or whose entry lacks a name, a password or a sapid, returns without a
    single call to the outside: no handler is opened for it. *)
Theorem idle_worker_makes_no_call
    {T : Type} {number : Main.Number T} (w : Main.World T)
    (user_config : Main.UserConfig) (s : Main.State T) :
  Main._bot_running s && negb (Main.stop_requested w (length (Main.trace s)))
    && Main.complete user_config = false ->
  let (r, s') := Main.process_user w user_config s in
  r = Main.Return tt /\ Main.calls (Main.trace s') = Main.calls (Main.trace s).
Proof.
  intros Hidle. unfold Main.process_user, Main.bind at 1, Main.bot_running.
  unfold Main.complete in Hidle.
  destruct s as [cfg las running mgr tracking h]. cbn in Hidle |- *.
  destruct (Main.stop_requested w (length h)); cbn in Hidle |- *.
  - destruct running; split; reflexivity.
  - destruct running; cbn in Hidle |- *; [|split; reflexivity].
    rewrite Hidle. cbn. tidy_calls. split; reflexivity.
Qed.

Lemma idle_worker_makes_no_call_witness :
  snd (Main.process_user Examples.locked_out Examples.nameless_user Examples.fresh)
  = Main.record
      (Main.Log Main.WARNING
         "Eksik kullanıcı konfigürasyonu: {'password': 'secret', 'sapid': 'https://ubys.omu.edu.tr/x'}")
      Examples.fresh.
Proof.
  generalize (idle_worker_makes_no_call Examples.locked_out Examples.nameless_user
                Examples.fresh eq_refl).
  vm_compute. intros _. reflexivity.
Defined.

(** X18. An exception that is not an [Exception] (a [KeyboardInterrupt],
    a [SystemExit]) raised by the first login is not caught by the worker:
    [process_user] lets it through, after the handler has been closed and
    without logging an error. *)
Theorem base_exception_leaves_the_worker
    {T : Type} {number : Main.Number T} (w : Main.World T)
    (user_config : Main.UserConfig) (s : Main.State T) (e : Main.exn) :
  Main._bot_running s = true ->
  Main.stop_requested w (length (Main.trace s)) = false ->
  Main.complete user_config = true ->
  Main.login_reply w (Main.count Main.is_Login (Main.trace s)) = Main.Raise e ->
  Main.is_Exception e = false ->
  Main.close_reply w (Main.count Main.is_Close (Main.trace s)) = Main.Return tt ->
  let username := default "" (Main.user_name user_config) in
  let (r, s') := Main.process_user w user_config s in
  r = Main.Raise e /\
  Main.trace s'
  = (Main.trace s
       ++ [Main.Log Main.INFO (username ++ " öğrencisinin verisi işleniyor...");
           Main.Open username; Main.Login username; Main.Close username])%list.
Proof.
  intros Hrun Hstop Hcomplete Hlogin Hbase Hclose username.
  unfold Main.process_user, Main.bind at 1, Main.bot_running.
  rewrite Hstop, Hrun. cbn [negb].
  unfold Main.complete in Hcomplete. cbv zeta. rewrite Hcomplete. cbn [negb].
  destruct s as [cfg las running mgr tracking h].
  cbn [Main.trace] in Hlogin, Hclose.
  unfold Main.try_except, Main.log. unfold_fetch. cbn. tidy_counts.
  rewrite Hlogin. cbn. tidy_counts. rewrite Hclose. cbn. rewrite Hbase.
  rewrite <- !app_assoc. split; reflexivity.
Qed.

Lemma base_exception_leaves_the_worker_witness :
  fst (Main.process_user Examples.interrupted Examples.u1 Examples.fresh)
  = Main.Raise {| Main.exn_kind := Main.KeyboardInterrupt; Main.exn_text := "" |}.
Proof.
  generalize (base_exception_leaves_the_worker Examples.interrupted Examples.u1
                Examples.fresh _ eq_refl eq_refl eq_refl eq_refl eq_refl eq_refl).
  vm_compute. intros [H _]. exact H.
Defined.

(** ** Stopping *)

Section Grows.
Import Main.
Context {T : Type} {number : Number T}.
Variable w : World T.

Lemma grows_ret {A : Type} (a : A) : grows (T:=T) (ret a).
Proof. intros s. cbn. lia. Qed.

Lemma grows_bind {A B : Type} (m : M T A) (k : A -> M T B) :
  grows m -> (forall a, grows (k a)) -> grows (bind m k).
Proof.
  intros Hm Hk s. specialize (Hm s). unfold bind.
  destruct (m s) as [[a|e] s1]; cbn [snd] in *; [|exact Hm].
  specialize (Hk a s1). lia.
Qed.

Lemma grows_modify (f : State T -> State T) :
  (forall s, trace (f s) = trace s) -> grows (modify f).
Proof. intros Hf s. cbn. rewrite Hf. lia. Qed.

Lemma grows_emit (e : event) : grows (T:=T) (emit e).
Proof. intros s. cbn. rewrite length_app. lia. Qed.

Lemma grows_try_except (body : M T unit) (handler : exn -> M T unit) :
  grows body -> (forall e, grows (handler e)) -> grows (try_except body handler).
Proof.
  intros Hb Hh s. specialize (Hb s). unfold try_except.
  destruct (body s) as [[a|e] s1]; cbn [snd] in *; [exact Hb|].
  destruct (is_Exception e); [|exact Hb]. specialize (Hh e s1). lia.
Qed.

Lemma grows_bot_running : grows (bot_running w).
Proof.
  intros s. unfold bot_running. destruct (stop_requested w _); cbn; lia.
Qed.

Lemma grows_fetch_student_data : grows (fetch_student_data w).
Proof.
  intros s. pose proof (fetch_student_data_frame w s) as H.
  destruct (fetch_student_data w s) as [r s1].
  destruct H as (_ & _ & ([evs Hevs] & _)). cbn [snd]. rewrite Hevs, length_app. lia.
Qed.

Lemma grows_process_user (user_config : UserConfig) : grows (process_user w user_config).
Proof.
  unfold process_user. apply grows_bind; [apply grows_bot_running|].
  intros running. destruct (negb running); [apply grows_ret|].
  destruct (negb _).
  - apply grows_bind; [apply grows_emit | intros; apply grows_ret].
  - apply grows_bind; [apply grows_emit|]. intros _.
    apply grows_try_except; [|intros; apply grows_emit].
    apply grows_bind; [apply grows_modify; reflexivity|]. intros _.
    apply grows_bind; [apply grows_fetch_student_data|]. intros success.
    destruct (negb success); [apply grows_emit | apply grows_ret].
Qed.

Lemma grows_submit_all (user_list : list UserConfig) : grows (submit_all w user_list).
Proof.
  induction user_list as [|user rest IH]; cbn [submit_all]; [apply grows_ret|].
  apply grows_bind.
  - intros s. unfold submit. pose proof (grows_process_user user s) as H.
    destruct (process_user w user s). exact H.
  - intros future. apply grows_bind; [exact IH | intros; apply grows_ret].
Qed.

Lemma grows_wait_all (futures : list (outcome unit)) : grows (wait_all w futures).
Proof.
  induction futures as [|future rest IH]; cbn [wait_all]; [apply grows_ret|].
  apply grows_bind; [apply grows_bot_running|]. intros running.
  destruct (negb running); [apply grows_ret|].
  apply grows_bind; [|intros; exact IH].
  apply grows_try_except; [|intros; apply grows_emit].
  intros s. unfold future_result, record.
  destruct (await_timeout w _); cbn; rewrite length_app; lia.
Qed.

Lemma grows_sleep_loop (remaining : nat) : grows (sleep_loop w remaining).
Proof.
  induction remaining as [|n IH]; cbn [sleep_loop]; [apply grows_ret|].
  apply grows_bind; [apply grows_bot_running|]. intros running.
  destruct (negb running); [apply grows_ret|].
  apply grows_bind; [apply grows_emit | intros; exact IH].
Qed.

Lemma grows_ThreadPoolExecutor (max_workers : nat) :
  grows (T:=T) (ThreadPoolExecutor max_workers).
Proof.
  unfold ThreadPoolExecutor. destruct (Nat.eqb max_workers 0).
  - intros s. cbn. lia.
  - apply grows_emit.
Qed.

(** An iteration adds at least the settings load to the trace. *)
Lemma iteration_grows (iteration_no : nat) (user_list : list UserConfig)
    (max_workers : nat) (s : State T) :
  S (length (trace s))
  <= length (trace (snd (iteration w iteration_no user_list max_workers s))).
Proof.
  unfold iteration, bind at 1, load_settings.
  match goal with
  | |- context [bind ?m ?k ?st] =>
      assert (Hrest : grows (bind m k)); [|specialize (Hrest st); revert Hrest]
  end.
  - apply grows_bind; [intros s0; cbn; lia|]. intros s0.
    apply grows_bind; [apply grows_emit|]. intros _.
    apply grows_bind; [apply grows_ThreadPoolExecutor|]. intros _.
    apply grows_bind; [apply grows_submit_all|]. intros futures.
    apply grows_bind; [apply grows_wait_all|]. intros _.
    apply grows_bind; [apply grows_bot_running|]. intros running.
    destruct (negb running); [apply grows_ret|].
    apply grows_bind; [intros s1; cbn; lia|]. intros s1.
    apply grows_bind; [apply grows_emit|]. intros _.
    apply grows_bind; [apply grows_sleep_loop | intros; apply grows_ret].
  - unfold record. cbn [trace with_trace with_config]. rewrite length_app. cbn. lia.
Qed.

(** Once a stop request is in force from trace length [N] on, the loop
    ends within as many iterations as the trace is short of [N], plus
    one. *)
Lemma monitoring_loop_stops (N : nat) (user_list : list UserConfig) (max_workers : nat) :
  (forall n, N <= n -> stop_requested w n = true) ->
  forall (k iteration_no : nat) (s : State T),
    N <= length (trace s) + k ->
    fst (monitoring_loop w (S k) iteration_no user_list max_workers s) <> Return false.
Proof.
  intros Hstop. induction k as [|k IH]; intros iteration_no s Hlen.
  - cbn [monitoring_loop]. unfold bind at 1, bot_running.
    rewrite Hstop by lia. cbn. discriminate.
  - remember (S k) as fuel. cbn [monitoring_loop]. unfold bind at 1, bot_running.
    destruct (stop_requested w (length (trace s))); [cbn; discriminate|].
    destruct (_bot_running s); cbn [negb]; [|cbn; discriminate].
    unfold bind at 1.
    pose proof (iteration_grows (S iteration_no) user_list max_workers s) as Hgrow.
    destruct (iteration w (S iteration_no) user_list max_workers s) as [[[|]|e] s1];
      cbn [snd] in Hgrow; [|cbn; discriminate..].
    subst fuel. apply IH. lia.
Qed.

End Grows.

(** X19. Whenever [run_monitoring_loop] ends, by a stop request, by an
    interrupt from the keyboard or by any other exception out of an
    iteration, its last act is the [finally] block: the flag
    [_bot_running] is cleared and "Bot durduruldu." is the last log
    record.  (The early return for an empty user list is not taken: the
    fallback [users.user_list] of the repository has one entry.) *)
Theorem monitoring_loop_end_clears_the_flag
    {T : Type} {number : Main.Number T} (w : Main.World T)
    (fuel : nat) (s : Main.State T) :
  let (r, s') := Main.run_monitoring_loop w fuel s in
  match r with
  | Main.Return false => True
  | _ =>
      Main._bot_running s' = false /\
      last (Main.trace s') Main.Sleep = Main.Log Main.INFO "Bot durduruldu."
  end.
Proof.
  destruct s as [cfg las running mgr tracking h].
  unfold Main.run_monitoring_loop, Main.bind at 1, Main.modify.
  unfold Main.bind at 1, Main.log, Main.emit, Main.modify.
  unfold Main.bind at 1, Main.load_users_from_env, Main.record.
  cbn [Main.trace Main.with_trace Main.with_running].
  set (loaded := Main.users_file w _).
  set (user_list := match loaded with [] => Main.users_user_list | _ :: _ => loaded end).
  assert (Hmatch : forall (A : Type) (a b : A),
             match user_list with [] => a | _ :: _ => b end = b).
  { intros A a b. subst user_list. destruct loaded; reflexivity. }
  rewrite Hmatch. unfold Main.bind at 1, Main.emit, Main.modify.
  match goal with
  | |- context [Main.monitoring_loop w fuel 0 user_list ?mw ?st] =>
      destruct (Main.monitoring_loop w fuel 0 user_list mw st) as [[[|]|e] s1]
  end; [| exact I | ].
  - cbn. split; [reflexivity | apply last_last].
  - destruct (Main.is_KeyboardInterrupt e); [|destruct (Main.is_Exception e)];
      cbn; (split; [reflexivity | apply last_last]).
Qed.

(** X20. When [stop_bot()] has been called by the time the run has
    produced [N] events, the loop has ended after at most [N + 1]
    iterations, whatever the portal answers. *)
Theorem stop_request_ends_the_loop
    {T : Type} {number : Main.Number T} (w : Main.World T)
    (N : nat) (s : Main.State T) :
  (forall n : nat, N <= n -> Main.stop_requested w n = true) ->
  fst (Main.run_monitoring_loop w (S N) s) <> Main.Return false.
Proof.
  intros Hstop.
  unfold Main.run_monitoring_loop, Main.bind at 1, Main.modify.
  unfold Main.bind at 1, Main.log, Main.emit, Main.modify.
  unfold Main.bind at 1, Main.load_users_from_env.
  set (loaded := Main.users_file w _).
  set (user_list := match loaded with [] => Main.users_user_list | _ :: _ => loaded end).
  assert (Hmatch : forall (A : Type) (a b : A),
             match user_list with [] => a | _ :: _ => b end = b).
  { intros A a b. subst user_list. destruct loaded; reflexivity. }
  rewrite Hmatch. unfold Main.bind at 1, Main.emit, Main.modify.
  match goal with
  | |- context [Main.monitoring_loop w (S N) 0 user_list ?mw ?st] =>
      pose proof (monitoring_loop_stops w N user_list mw Hstop N 0 st
                    ltac:(lia)) as Hends;
      destruct (Main.monitoring_loop w (S N) 0 user_list mw st) as [[[|]|e] s1]
  end; cbn [fst] in *.
  - cbn. discriminate.
  - contradiction.
  - destruct (Main.is_KeyboardInterrupt e); [|destruct (Main.is_Exception e)];
      cbn; discriminate.
Qed.

Lemma stopped_late_stops :
  forall n : nat, 3 <= n -> Main.stop_requested Examples.stopped_late n = true.
Proof. intros n Hn. apply Nat.leb_le. exact Hn. Defined.

Lemma stop_request_ends_the_loop_witness :
  fst (Main.run_monitoring_loop Examples.stopped_late 4 Examples.fresh)
  <> Main.Return false.
Proof.
  exact (stop_request_ends_the_loop Examples.stopped_late 3 Examples.fresh
           stopped_late_stops).
Defined.

(** X21. The wait between two iterations polls the flag before every
    half-second sleep: it sleeps at most [remaining] times, and when a stop
    is requested by the time [j] more events are in the trace it sleeps at
    most [j] times, so the wait ends within one poll of the request. *)
Theorem sleep_loop_stops_at_the_request
    {T : Type} {number : Main.Number T} (w : Main.World T)
    (remaining j : nat) (s : Main.State T) :
  Main.stop_requested w (length (Main.trace s) + j) = true ->
  let (r, s') := Main.sleep_loop w remaining s in
  r = Main.Return tt /\
  Main.count Main.is_Sleep (Main.trace s')
    <= Main.count Main.is_Sleep (Main.trace s) + Nat.min j remaining.
Proof.
  revert j s. induction remaining as [|n IH]; intros j s Hstop.
  - cbn. split; [reflexivity | lia].
  - cbn [Main.sleep_loop]. unfold Main.bind at 1, Main.bot_running.
    destruct s as [cfg las running mgr tracking h]. cbn [Main.trace] in *.
    destruct j as [|j].
    + rewrite Nat.add_0_r in Hstop. rewrite Hstop. cbn. split; [reflexivity | lia].
    + destruct (Main.stop_requested w (length h)); cbn;
        [split; [reflexivity | lia]|].
      destruct running; cbn; [|split; [reflexivity | lia]].
      unfold Main.bind, Main.emit, Main.modify. cbn.
      match goal with
      | |- context [Main.sleep_loop w n ?st] =>
          specialize (IH j st); destruct (Main.sleep_loop w n st) as [r s']
      end.
      cbn [Main.trace Main.with_trace] in IH. rewrite length_app in IH. cbn [length] in IH.
      replace (length h + 1 + j) with (length h + S j) in IH by lia.
      destruct (IH Hstop) as [Hr Hc]. revert Hc. tidy_counts. intros Hc.
      split; [exact Hr | lia].
Qed.

Lemma sleep_loop_stops_at_the_request_witness :
  Main.count Main.is_Sleep
    (Main.trace (snd (Main.sleep_loop Examples.stopped_late 120 Examples.fresh)))
  <= 3.
Proof.
  generalize (sleep_loop_stops_at_the_request Examples.stopped_late 120 3
                Examples.fresh eq_refl).
  destruct (Main.sleep_loop Examples.stopped_late 120 Examples.fresh) as [r s'].
  intros [_ H]. exact H.
Defined.

(** * Saving the grades and detecting again *)

Section SaveGrades.
Import GradeChangeDetector Html1.

Lemma get_set {V : Type} (d : PyDict.dict V) k k' v :
  PyDict.get k' (PyDict.set k v d)
  = if String.eqb k k' then Some v else PyDict.get k' d.
Proof.
  destruct (String.eqb k k') eqn:E.
  - apply String.eqb_eq in E. subst k'. apply get_set_eq.
  - apply String.eqb_neq in E. now apply get_set_ne.
Qed.

Lemma In_set {V : Type} (d : PyDict.dict V) k v it :
  In it (PyDict.set k v d) -> it = (k, v) \/ In it d.
Proof.
  induction d as [|[k0 v0] d IH]; cbn.
  - intros [<-|[]]. now left.
  - destruct (String.eqb k0 k) eqn:E.
    + apply String.eqb_eq in E. subst k0. intros [<-|H]; [now left | right; now right].
    + intros [<-|H]; [right; now left|]. destruct (IH H); [now left | right; now right].
Qed.

Lemma set_cons {V : Type} (d : PyDict.dict V) k v :
  exists it rest, PyDict.set k v d = it :: rest.
Proof.
  destruct d as [|[k0 v0] d]; cbn; [|destruct (String.eqb k0 k)]; eauto.
Qed.

Lemma save_grades_stored now sid cs disk :
  readable disk = true ->
  _save_grades_to_file now sid cs disk
  = Stored (PyDict.set sid {| courses := Some cs; last_updated := Some now |}
                       (stored disk)).
Proof. destruct disk; [reflexivity | discriminate | reflexivity]. Qed.

(** After the same courses have been saved again, under any stamp, the
    detector finds every student's courses as it saved them. *)
Lemma resaved_courses_do_not_differ now1 now2 sid cs (g : PyDict.dict StudentData) :
  NoDup (PyDict.keys g) ->
  let g1 := PyDict.set sid {| courses := Some cs; last_updated := Some now1 |} g in
  let g2 := PyDict.set sid {| courses := Some cs; last_updated := Some now2 |} g1 in
  forallb (fun it => negb (courses_differ g1 it)) g2 = true.
Proof.
  intros Hnd g1 g2. apply forallb_forall. intros [k sd] Hin.
  assert (Hnd1 : NoDup (PyDict.keys g1)) by now apply NoDup_keys_set.
  unfold courses_differ. cbn [fst snd]. rewrite negb_involutive.
  apply bool_decide_eq_true_2.
  destruct (In_set _ _ _ _ Hin) as [Heq|Hold].
  - inversion Heq; subst. subst g1. now rewrite get_set_eq.
  - now rewrite (get_In_NoDup g1 k sd Hnd1 Hold).
Qed.

End SaveGrades.

(** X22. [_save_grades_to_file] on a file that is missing or readable
    stores the student's courses and the stamp under the student's id and
    leaves every other student's record as it was: an id already in the
    file keeps its place, a new one is added at the end.  On a file that
    cannot be read nothing is written. *)
Theorem save_grades_replaces_one_student
    (now student_id other : string) (courses : list GradeChangeDetector.Course)
    (disk : Html1.grades_disk) :
  let saved := Html1._save_grades_to_file now student_id courses disk in
  let entry := {| GradeChangeDetector.courses := Some courses;
                  GradeChangeDetector.last_updated := Some now |} in
  if Html1.readable disk then
    Html1.readable saved = true /\
    PyDict.get other (Html1.stored saved)
    = (if String.eqb student_id other then Some entry
       else PyDict.get other (Html1.stored disk)) /\
    PyDict.keys (Html1.stored saved)
    = (if PyDict.has_key student_id (Html1.stored disk)
       then PyDict.keys (Html1.stored disk)
       else PyDict.keys (Html1.stored disk) ++ [student_id])%list
  else saved = disk.
Proof.
  intros saved entry. subst saved.
  destruct (Html1.readable disk) eqn:Hr.
  - rewrite (save_grades_stored _ _ _ _ Hr). cbn [Html1.readable Html1.stored].
    split; [reflexivity|]. split; [apply get_set | apply keys_set].
  - destruct disk; try discriminate. reflexivity.
Qed.

(** X23. A fetch that stores the courses it stored before, under a newer
    stamp, is no change: when the detector has run after the first save
    (whatever state it had saved before), a second save of the same course
    list for the same student followed by [get_notifications] reports
    nothing, for this student and for all the others in the file. *)
Theorem unchanged_refetch_reports_nothing
    (now1 now2 student_id : string) (courses : list GradeChangeDetector.Course)
    (disk : Html1.grades_disk)
    (previous : option (PyDict.dict GradeChangeDetector.StudentData)) :
  Html1.readable disk = true ->
  NoDup (PyDict.keys (Html1.stored disk)) ->
  let disk1 := Html1._save_grades_to_file now1 student_id courses disk in
  let fs1 := {| GradeChangeDetector.grades_file := Html1.loaded disk1;
                GradeChangeDetector.changes_file := previous |} in
  let fs2 := snd (GradeChangeDetector.detect_changes fs1) in
  let disk2 := Html1._save_grades_to_file now2 student_id courses disk1 in
  let fs3 := {| GradeChangeDetector.grades_file := Html1.loaded disk2;
                GradeChangeDetector.changes_file :=
                  GradeChangeDetector.changes_file fs2 |} in
  fst (GradeChangeDetector.detect_changes fs3) = [] /\
  fst (GradeChangeDetector.get_notifications fs3) = [].
Proof.
  intros Hr Hnd disk1 fs1 fs2 disk2 fs3.
  assert (Hdetect : fst (GradeChangeDetector.detect_changes fs3) = []).
  { subst fs3 disk2 fs2 fs1 disk1.
    rewrite (save_grades_stored _ _ _ _ Hr).
    rewrite (save_grades_stored now2 student_id courses (Html1.Stored _) eq_refl).
    cbn [Html1.loaded Html1.stored].
    set (g1 := PyDict.set student_id _ (Html1.stored disk)).
    assert (Hsaved :
              GradeChangeDetector.changes_file
                (snd (GradeChangeDetector.detect_changes
                        {| GradeChangeDetector.grades_file := Some g1;
                           GradeChangeDetector.changes_file := previous |}))
              = Some g1).
    { rewrite (detect_changes_saved
                 {| GradeChangeDetector.grades_file := Some g1;
                    GradeChangeDetector.changes_file := previous |} g1 eq_refl).
      destruct (set_cons (Html1.stored disk) student_id
                  {| GradeChangeDetector.courses := Some courses;
                     GradeChangeDetector.last_updated := Some now1 |})
        as (it & rest & Hcons).
      fold g1 in Hcons. rewrite Hcons. reflexivity. }
    rewrite Hsaved.
    apply (detect_changes_ignores_nothing_new
             {| GradeChangeDetector.grades_file :=
                  Some (PyDict.set student_id
                          {| GradeChangeDetector.courses := Some courses;
                             GradeChangeDetector.last_updated := Some now2 |} g1);
                GradeChangeDetector.changes_file := Some g1 |} _ eq_refl).
    cbn [GradeChangeDetector._load_previous_changes
         GradeChangeDetector.changes_file default].
    subst g1. now apply resaved_courses_do_not_differ. }
  split; [exact Hdetect|].
  unfold GradeChangeDetector.get_notifications.
  destruct (GradeChangeDetector.detect_changes fs3) as [all_changes fs'].
  cbn [fst] in *. now subst all_changes.
Qed.

Lemma unchanged_refetch_reports_nothing_witness :
  let disk1 := Html1._save_grades_to_file "2024-01-01 10:00:00" "s1"
                 Examples.math_only Html1.Missing in
  let fs2 := snd (GradeChangeDetector.detect_changes
                    {| GradeChangeDetector.grades_file := Html1.loaded disk1;
                       GradeChangeDetector.changes_file := None |}) in
  let disk2 := Html1._save_grades_to_file "2024-01-02 10:00:00" "s1"
                 Examples.math_only disk1 in
  fst (GradeChangeDetector.get_notifications
         {| GradeChangeDetector.grades_file := Html1.loaded disk2;
            GradeChangeDetector.changes_file := GradeChangeDetector.changes_file fs2 |})
  = [].
Proof.
  exact (proj2 (unchanged_refetch_reports_nothing
                  "2024-01-01 10:00:00" "2024-01-02 10:00:00" "s1"
                  Examples.math_only Html1.Missing None eq_refl (NoDup_nil _))).
Defined.

(** ** Handlers opened and closed *)

Section Balanced.
Import Main.
Context {T : Type} {number : Number T}.
Variable w : World T.

Lemma balanced_ret {A : Type} (a : A) : balanced (T:=T) (ret a).
Proof. intros s. cbn. lia. Qed.

Lemma balanced_raise {A : Type} (e : exn) : balanced (T:=T) (raise (A:=A) e).
Proof. intros s. cbn. lia. Qed.

Lemma balanced_bind {A B : Type} (m : M T A) (k : A -> M T B) :
  balanced m -> (forall a, balanced (k a)) -> balanced (bind m k).
Proof.
  intros Hm Hk s. specialize (Hm s). unfold bind.
  destruct (m s) as [[a|e] s1]; cbn [snd] in *; [|exact Hm].
  specialize (Hk a s1). lia.
Qed.

Lemma balanced_modify (f : State T -> State T) :
  (forall s, trace (f s) = trace s) -> balanced (modify f).
Proof. intros Hf s. cbn. rewrite Hf. lia. Qed.

Lemma balanced_record (e : event) (s : State T) :
  is_Open e = false -> is_Close e = false ->
  count is_Open (trace (record e s)) = count is_Open (trace s) /\
  count is_Close (trace (record e s)) = count is_Close (trace s).
Proof.
  intros Ho Hc. unfold record. cbn [trace with_trace].
  rewrite !count_snoc, Ho, Hc. lia.
Qed.

Lemma balanced_emit (e : event) :
  is_Open e = false -> is_Close e = false -> balanced (T:=T) (emit e).
Proof.
  intros Ho Hc s. destruct (balanced_record e s Ho Hc) as [H1 H2].
  unfold record in *. cbn in *. lia.
Qed.

Lemma balanced_try_except (body : M T unit) (handler : exn -> M T unit) :
  balanced body -> (forall e, balanced (handler e)) -> balanced (try_except body handler).
Proof.
  intros Hb Hh s. specialize (Hb s). unfold try_except.
  destruct (body s) as [[a|e] s1]; cbn [snd] in *; [exact Hb|].
  destruct (is_Exception e); [|exact Hb]. specialize (Hh e s1). lia.
Qed.

Lemma balanced_bot_running : balanced (bot_running w).
Proof.
  intros s. unfold bot_running. destruct (stop_requested w _); cbn; lia.
Qed.

Lemma balanced_fetch_student_data : balanced (fetch_student_data w).
Proof.
  intros s. pose proof (fetch_student_data_frame w s) as H.
  destruct (fetch_student_data w s) as [r s1].
  destruct H as (_ & _ & (_ & Ho & Hc & _)). cbn [snd]. lia.
Qed.

Lemma balanced_process_user (user_config : UserConfig) :
  balanced (process_user w user_config).
Proof.
  unfold process_user. apply balanced_bind; [apply balanced_bot_running|].
  intros running. destruct (negb running); [apply balanced_ret|].
  destruct (negb _).
  - apply balanced_bind; [now apply balanced_emit | intros; apply balanced_ret].
  - apply balanced_bind; [now apply balanced_emit|]. intros _.
    apply balanced_try_except; [|intros; now apply balanced_emit].
    apply balanced_bind; [apply balanced_modify; reflexivity|]. intros _.
    apply balanced_bind; [apply balanced_fetch_student_data|]. intros success.
    destruct (negb success); [now apply balanced_emit | apply balanced_ret].
Qed.

Lemma balanced_submit_all (user_list : list UserConfig) :
  balanced (submit_all w user_list).
Proof.
  induction user_list as [|user rest IH]; cbn [submit_all]; [apply balanced_ret|].
  apply balanced_bind.
  - intros s. unfold submit. pose proof (balanced_process_user user s) as H.
    destruct (process_user w user s). exact H.
  - intros future. apply balanced_bind; [exact IH | intros; apply balanced_ret].
Qed.

Lemma balanced_wait_all (futures : list (outcome unit)) : balanced (wait_all w futures).
Proof.
  induction futures as [|future rest IH]; cbn [wait_all]; [apply balanced_ret|].
  apply balanced_bind; [apply balanced_bot_running|]. intros running.
  destruct (negb running); [apply balanced_ret|].
  apply balanced_bind; [|intros; exact IH].
  apply balanced_try_except; [|intros; now apply balanced_emit].
  intros s. unfold future_result.
  destruct (balanced_record Await s eq_refl eq_refl) as [H1 H2].
  destruct (await_timeout w _); cbn [snd]; lia.
Qed.

Lemma balanced_sleep_loop (remaining : nat) : balanced (sleep_loop w remaining).
Proof.
  induction remaining as [|n IH]; cbn [sleep_loop]; [apply balanced_ret|].
  apply balanced_bind; [apply balanced_bot_running|]. intros running.
  destruct (negb running); [apply balanced_ret|].
  apply balanced_bind; [now apply balanced_emit | intros; exact IH].
Qed.

Lemma balanced_iteration (iteration_no : nat) (user_list : list UserConfig)
    (max_workers : nat) :
  balanced (iteration w iteration_no user_list max_workers).
Proof.
  unfold iteration. apply balanced_bind.
  - intros s. unfold load_settings. cbn [snd].
    destruct (balanced_record LoadSettings
                (with_config (loaded_config w (count is_LoadSettings (trace s)) (config s)) s)
                eq_refl eq_refl) as [H1 H2].
    cbn [trace with_config] in *. lia.
  - intros _. apply balanced_bind; [intros s0; cbn; lia|]. intros s0.
    apply balanced_bind; [now apply balanced_emit|]. intros _.
    apply balanced_bind.
    { unfold ThreadPoolExecutor. destruct (Nat.eqb max_workers 0);
        [apply balanced_raise | now apply balanced_emit]. }
    intros _.
    apply balanced_bind; [apply balanced_submit_all|]. intros futures.
    apply balanced_bind; [apply balanced_wait_all|]. intros _.
    apply balanced_bind; [apply balanced_bot_running|]. intros running.
    destruct (negb running); [apply balanced_ret|].
    apply balanced_bind; [intros s1; cbn; lia|]. intros s1.
    apply balanced_bind; [now apply balanced_emit|]. intros _.
    apply balanced_bind; [apply balanced_sleep_loop | intros; apply balanced_ret].
Qed.

Lemma balanced_monitoring_loop (fuel iteration_no : nat) (user_list : list UserConfig)
    (max_workers : nat) :
  balanced (monitoring_loop w fuel iteration_no user_list max_workers).
Proof.
  revert iteration_no. induction fuel as [|fuel IH]; intros iteration_no;
    cbn [monitoring_loop]; [apply balanced_ret|].
  apply balanced_bind; [apply balanced_bot_running|]. intros running.
  destruct (negb running); [apply balanced_ret|].
  apply balanced_bind; [apply balanced_iteration|]. intros go_on.
  destruct go_on; [apply IH | apply balanced_ret].
Qed.

Lemma balanced_stopped : balanced (T:=T) stopped.
Proof.
  unfold stopped. apply balanced_bind; [apply balanced_modify; reflexivity|].
  intros _. now apply balanced_emit.
Qed.

Lemma balanced_run_monitoring_loop (fuel : nat) : balanced (run_monitoring_loop w fuel).
Proof.
  unfold run_monitoring_loop.
  apply balanced_bind; [apply balanced_modify; reflexivity|]. intros _.
  apply balanced_bind; [now apply balanced_emit|]. intros _.
  apply balanced_bind.
  - intros s. unfold load_users_from_env. cbn [snd].
    destruct (balanced_record LoadUsers s eq_refl eq_refl) as [H1 H2]. lia.
  - intros loaded.
    destruct (match loaded with [] => users_user_list | _ :: _ => loaded end).
    + apply balanced_bind; [now apply balanced_emit | intros; apply balanced_ret].
    + apply balanced_bind; [now apply balanced_emit|]. intros _ s.
      pose proof (balanced_monitoring_loop fuel 0 (u :: l)
                    (Nat.min 3 (length (u :: l))) s) as Hloop.
      destruct (monitoring_loop w fuel 0 (u :: l) (Nat.min 3 (length (u :: l))) s)
        as [[[|]|e] s1]; cbn [snd] in Hloop.
      * pose proof (balanced_bind stopped (fun _ => ret true) balanced_stopped
                      (fun _ => balanced_ret true) s1) as H. lia.
      * cbn [snd]. exact Hloop.
      * destruct (is_KeyboardInterrupt e); [|destruct (is_Exception e)].
        -- pose proof (balanced_bind
                         (log INFO "Bot kullanıcı tarafından durduruldu.")
                         (fun _ => bind stopped (fun _ => ret true))
                         ltac:(now apply balanced_emit)
                         (fun _ => balanced_bind stopped (fun _ => ret true)
                                     balanced_stopped (fun _ => balanced_ret true))
                         s1) as H. lia.
        -- pose proof (balanced_bind
                         (log CRITICAL ("Ana izleme döngüsünde kritik hata: " ++ exn_text e))
                         (fun _ => bind stopped (fun _ => ret true))
                         ltac:(now apply balanced_emit)
                         (fun _ => balanced_bind stopped (fun _ => ret true)
                                     balanced_stopped (fun _ => balanced_ret true))
                         s1) as H. lia.
        -- pose proof (balanced_bind stopped (fun _ => raise (A:=bool) e) balanced_stopped
                         (fun _ => balanced_raise e) s1) as H. lia.
Qed.

End Balanced.

(** X24. No handler is left open: over a whole run of the monitoring
    loop, for any number of iterations and whatever the portal answers,
    whenever the bot is stopped and whichever exceptions are raised, as
    many handlers are closed as are opened. *)
Theorem no_handler_is_left_open
    {T : Type} {number : Main.Number T} (w : Main.World T)
    (fuel : nat) (s : Main.State T) :
  let s' := snd (Main.run_monitoring_loop w fuel s) in
  Main.count Main.is_Open (Main.trace s') + Main.count Main.is_Close (Main.trace s)
  = Main.count Main.is_Close (Main.trace s') + Main.count Main.is_Open (Main.trace s).
Proof. apply balanced_run_monitoring_loop. Qed.
